(** * metapool.prep: run-prefix resolution and preparation-table assembly

    A shallow embedding of [metapool/prep.py] and the properties of its
    run-identifier parser, file-pair locator, study transform and the two
    preparation assemblers.

    Conventions of the embedding.
    - A Python [str] is a [string]; a character is a code point below 256
      (Latin-1), which is what the [ascii] type holds.  The character
      predicates ([\d], [\w], [str.isdigit], [str.lower]) are the Unicode
      ones restricted to that range.
    - A raised exception is the [Raise] branch of [res]; the exception
      classes are the constructors of [exn].
    - The file system, [glob] and [gzip] are read through a [World] record.
    - [warnings.warn] appends to a log; the caller's table, which both
      assemblers mutate in place, is threaded as state. *)

From Stdlib Require Import String Ascii List Bool Arith PeanoNat NArith ZArith Lia.
From Stdlib Require Import DecimalString Permutation.
Import ListNotations.

Local Open Scope string_scope.
Local Open Scope list_scope.
Local Open Scope nat_scope.

(** ** Exceptions and results *)

Inductive exn : Type :=
| ValueError (msg : string)
| KeyError (key : string)
| AttributeError (msg : string)
| IndexError (msg : string)
| TypeError (msg : string)
| UnboundLocalError (name : string)
| OSError (path : string).

Inductive res (A : Type) : Type :=
| Ok (a : A)
| Raise (e : exn).

Arguments Ok {A} a.
Arguments Raise {A} e.

Definition res_bind {A B} (r : res A) (k : A -> res B) : res B :=
  match r with
  | Ok a => k a
  | Raise e => Raise e
  end.

Declare Scope res_scope.
Delimit Scope res_scope with res.
Notation "x <- r ;; k" := (res_bind r (fun x => k))
  (at level 61, r at next level, right associativity) : res_scope.
Notation "' p <- r ;; k" := (res_bind r (fun p => k))
  (at level 61, p pattern, r at next level, right associativity) : res_scope.

(** ** Characters *)

Module Char.

Definition code (c : ascii) : nat := nat_of_ascii c.

Definition between (lo hi : nat) (c : ascii) : bool :=
  (lo <=? code c) && (code c <=? hi).

(** [0-9] *)
Definition is_ascii_digit (c : ascii) : bool := between 48 57 c.
(** [a-z] and [A-Z] *)
Definition is_ascii_lower (c : ascii) : bool := between 97 122 c.
Definition is_ascii_upper (c : ascii) : bool := between 65 90 c.
Definition is_ascii_letter (c : ascii) : bool :=
  is_ascii_lower c || is_ascii_upper c.

(** The regular-expression class [\d] on [str] patterns: the characters
    with the Unicode decimal property, which below 256 are [0-9]. *)
Definition is_decimal (c : ascii) : bool := is_ascii_digit c.

(** [str.isdigit]: the decimal digits and the superscripts two, three
    (178, 179) and one (185). *)
Definition isdigit (c : ascii) : bool :=
  is_ascii_digit c || between 178 179 c || (code c =? 185).

(** Alphabetic code points of Latin-1 above ASCII: the ordinal indicators
    (170, 186), the micro sign (181) and the letters 192-255 without the
    multiplication (215) and division (247) signs. *)
Definition is_latin1_alpha (c : ascii) : bool :=
  (code c =? 170) || (code c =? 181) || (code c =? 186)
  || between 192 214 c || between 216 246 c || between 248 255 c.

(** The class [\w] on [str] patterns: alphanumeric code points
    (alphabetic, decimal, digit or numeric, the last adding the vulgar
    fractions 188-190) and the underscore. *)
Definition is_word (c : ascii) : bool :=
  is_ascii_letter c || is_ascii_digit c || (code c =? 95)
  || is_latin1_alpha c || between 178 179 c || (code c =? 185)
  || between 188 190 c.

(** [str.lower] on one character: [A-Z] and the upper-case letters
    192-222 (without 215) move up by 32. *)
Definition lower (c : ascii) : ascii :=
  if is_ascii_upper c || between 192 214 c || between 216 222 c
  then ascii_of_nat (code c + 32) else c.

(** Value of a decimal digit character. *)
Definition digit_value (c : ascii) : nat := code c - 48.

Definition dquote : ascii := ascii_of_nat 34.
Definition newline : ascii := ascii_of_nat 10.

End Char.

(** ** Strings *)

Module Str.

Definition len (s : string) : nat := String.length s.

Fixpoint take (n : nat) (s : string) : string :=
  match n, s with
  | S k, String c s' => String c (take k s')
  | _, _ => EmptyString
  end.

Fixpoint drop (n : nat) (s : string) : string :=
  match n, s with
  | S k, String _ s' => drop k s'
  | _, _ => s
  end.

Fixpoint all (p : ascii -> bool) (s : string) : bool :=
  match s with
  | EmptyString => true
  | String c s' => p c && all p s'
  end.

Fixpoint take_while (p : ascii -> bool) (s : string) : string :=
  match s with
  | EmptyString => EmptyString
  | String c s' => if p c then String c (take_while p s') else EmptyString
  end.

Fixpoint drop_while (p : ascii -> bool) (s : string) : string :=
  match s with
  | EmptyString => EmptyString
  | String c s' => if p c then drop_while p s' else s
  end.

Fixpoint rev_onto (s acc : string) : string :=
  match s with
  | EmptyString => acc
  | String c s' => rev_onto s' (String c acc)
  end.

Definition rev (s : string) : string := rev_onto s EmptyString.

Fixpoint map (f : ascii -> ascii) (s : string) : string :=
  match s with
  | EmptyString => EmptyString
  | String c s' => String (f c) (map f s')
  end.

Fixpoint repeat (c : ascii) (n : nat) : string :=
  match n with
  | 0 => EmptyString
  | S k => String c (repeat c k)
  end.

Definition is_empty (s : string) : bool :=
  match s with
  | EmptyString => true
  | String _ _ => false
  end.

(** [b.startswith(a)] *)
Fixpoint starts_with (a b : string) : bool :=
  match a, b with
  | EmptyString, _ => true
  | String x a', String y b' => Ascii.eqb x y && starts_with a' b'
  | String _ _, EmptyString => false
  end.

(** [a in b] for strings. *)
Fixpoint contains (a b : string) : bool :=
  starts_with a b ||
  match b with
  | EmptyString => false
  | String _ b' => contains a b'
  end.

(** [s.lower()] *)
Definition lower (s : string) : string := map Char.lower s.

(** [s.zfill(width)]: zeros go after a leading sign. *)
Definition zfill (width : nat) (s : string) : string :=
  if width <=? len s then s
  else
    let zeros := repeat "0"%char (width - len s) in
    match s with
    | String c s' =>
        if Ascii.eqb c "+"%char || Ascii.eqb c "-"%char
        then String c (zeros ++ s')
        else zeros ++ s
    | EmptyString => zeros
    end.

(** [s.split(sep)[0]] for a one-character separator: the text before
    its first occurrence. *)
Definition before_first (sep : ascii) (s : string) : string :=
  take_while (fun c => negb (Ascii.eqb c sep)) s.

(** [s.split(sep)[0]] for a separator of several characters. *)
Fixpoint before_sub (sep s : string) : string :=
  if starts_with sep s then EmptyString
  else match s with
       | EmptyString => EmptyString
       | String c s' => String c (before_sub sep s')
       end.

(** [s.replace(old, new)] for a non-empty [old]: the occurrences are
    found left to right and do not overlap.  [skip] counts the characters
    of an occurrence still to be passed over. *)
Fixpoint replace_from (old new : string) (skip : nat) (s : string) : string :=
  match s with
  | EmptyString => EmptyString
  | String c s' =>
      match skip with
      | S k => replace_from old new k s'
      | 0 =>
          if starts_with old s
          then new ++ replace_from old new (len old - 1) s'
          else String c (replace_from old new 0 s')
      end
  end.

Definition replace (old new s : string) : string := replace_from old new 0 s.

(** Code-point order of two strings, as Python compares [str]. *)
Fixpoint leb (a b : string) : bool :=
  match a, b with
  | EmptyString, _ => true
  | String _ _, EmptyString => false
  | String x a', String y b' =>
      if Char.code x <? Char.code y then true
      else if Char.code y <? Char.code x then false
      else leb a' b'
  end.

(** [sep.join(l)] *)
Fixpoint join (sep : string) (l : list string) : string :=
  match l with
  | [] => EmptyString
  | [x] => x
  | x :: rest => x ++ sep ++ join sep rest
  end.

(** Decimal rendering of a natural number, as [%d] and [str] give it. *)
Definition of_nat (n : nat) : string := NilZero.string_of_uint (Nat.to_uint n).

(** A number on two decimal places at least ([%02d]). *)
Definition of_nat_2 (n : nat) : string :=
  if n <? 10 then String "0"%char (of_nat n) else of_nat n.

(** Value of a string of decimal digits. *)
Definition to_nat (s : string) : nat :=
  (fix go (acc : nat) (s : string) : nat :=
     match s with
     | EmptyString => acc
     | String c s' => go (10 * acc + Char.digit_value c) s'
     end) 0 s.

Definition quoted (s : string) : string :=
  String Char.dquote (s ++ String Char.dquote EmptyString).

End Str.

(** [sorted(l)] on a list of strings: a stable insertion sort on the
    code-point order. *)
Fixpoint insert_sorted (x : string) (l : list string) : list string :=
  match l with
  | [] => [x]
  | y :: l' => if Str.leb x y then x :: l else y :: insert_sorted x l'
  end.

Definition sorted (l : list string) : list string :=
  fold_right insert_sorted [] l.

Definition mem (x : string) (l : list string) : bool :=
  existsb (String.eqb x) l.

(** ** Dates: the part of [datetime.strptime] and [strftime] the parser uses *)

Module Datetime.

Record date : Type := mkdate { year : nat; month : nat; day : nat }.

Definition is_leap (y : nat) : bool :=
  ((y mod 4 =? 0) && negb (y mod 100 =? 0)) || (y mod 400 =? 0).

Definition days_in_month (y m : nat) : nat :=
  match m with
  | 2 => if is_leap y then 29 else 28
  | 4 | 6 | 9 | 11 => 30
  | _ => 31
  end.

(** The two formats the parser passes: ["%y%m%d"] and ["%Y%m%d"]. *)
Inductive format : Type := fmt_y_m_d | fmt_Y_m_d.

Definition format_text (f : format) : string :=
  match f with
  | fmt_y_m_d => "%y%m%d"
  | fmt_Y_m_d => "%Y%m%d"
  end.

Definition digit_in (lo hi : nat) (c : ascii) : bool :=
  Char.is_decimal c && (lo <=? Char.digit_value c) && (Char.digit_value c <=? hi).

(** [strptime] turns the format into a regular expression and matches it
    at the start of the text.  A directive with alternatives is a list of
    readings, in the order the matcher tries them; the match is the first
    reading of the whole expression. *)

(** [%y] is [\d\d] with pivot 69; [%Y] is [\d\d\d\d]. *)
Definition read_year (f : format) (s : string) : option (nat * string) :=
  let width := match f with fmt_y_m_d => 2 | fmt_Y_m_d => 4 end in
  let digits := Str.take width s in
  if (Str.len digits =? width) && Str.all Char.is_decimal digits then
    let n := Str.to_nat digits in
    let y := match f with
             | fmt_y_m_d => if n <=? 68 then n + 2000 else n + 1900
             | fmt_Y_m_d => n
             end in
    Some (y, Str.drop width s)
  else None.

(** [%m] is [(1[0-2]|0[1-9]|[1-9])]. *)
Definition read_month (s : string) : list (nat * string) :=
  match s with
  | EmptyString => []
  | String a s1 =>
      (match s1 with
       | String b s2 =>
           (if Ascii.eqb a "1"%char && digit_in 0 2 b
            then [(10 + Char.digit_value b, s2)] else [])
           ++ (if Ascii.eqb a "0"%char && digit_in 1 9 b
               then [(Char.digit_value b, s2)] else [])
       | EmptyString => []
       end)
      ++ (if digit_in 1 9 a then [(Char.digit_value a, s1)] else [])
  end.

(** [%d] is [(3[0-1]|[1-2]\d|0[1-9]|[1-9]| [1-9])]. *)
Definition read_day (s : string) : list (nat * string) :=
  match s with
  | EmptyString => []
  | String a s1 =>
      (match s1 with
       | String b s2 =>
           (if Ascii.eqb a "3"%char && digit_in 0 1 b
            then [(30 + Char.digit_value b, s2)] else [])
           ++ (if digit_in 1 2 a && Char.is_decimal b
               then [(10 * Char.digit_value a + Char.digit_value b, s2)] else [])
           ++ (if Ascii.eqb a "0"%char && digit_in 1 9 b
               then [(Char.digit_value b, s2)] else [])
       | EmptyString => []
       end)
      ++ (if digit_in 1 9 a then [(Char.digit_value a, s1)] else [])
      ++ (match s1 with
          | String b s2 =>
              if Ascii.eqb a " "%char && digit_in 1 9 b
              then [(Char.digit_value b, s2)] else []
          | EmptyString => []
          end)
  end.

Definition read_month_day (s : string) : list (nat * nat * string) :=
  flat_map (fun '(m, rest) =>
              List.map (fun '(d, rest') => (m, d, rest')) (read_day rest))
           (read_month s).

Definition repr (s : string) : string := "'" ++ s ++ "'".

Definition no_match (f : format) (s : string) : exn :=
  ValueError ("time data " ++ repr s ++ " does not match format "
              ++ repr (format_text f)).

(** [datetime.strptime(s, f)]: no match, text left over after the match,
    and a day the month does not have are the three [ValueError]s. *)
Definition strptime (f : format) (s : string) : res date :=
  match read_year f s with
  | None => Raise (no_match f s)
  | Some (y, rest) =>
      match hd_error (read_month_day rest) with
      | None => Raise (no_match f s)
      | Some (m, d, rest') =>
          if negb (Str.is_empty rest')
          then Raise (ValueError ("unconverted data remains: " ++ rest'))
          else if y =? 0
          then Raise (ValueError "year 0 is out of range")
          else if days_in_month y m <? d
          then Raise (ValueError "day is out of range for month")
          else Ok (mkdate y m d)
      end
  end.

(** [d.strftime('%Y-%m-%d')].  The C library prints [%Y]: on Linux it is
    the year without leading zeros, so that a year below 1000 takes fewer
    than four places ([999-01-01]). *)
Definition strftime (d : date) : string :=
  Str.of_nat (year d) ++ "-" ++ Str.of_nat_2 (month d) ++ "-"
  ++ Str.of_nat_2 (day d).

End Datetime.

(** ** Run-ID parser *)

(** Regular expressions are quoted in verbose form: a blank inside a
    pattern is not part of it.

    [re.search(r'^(\d{6})_(\w* )', run_id)]: the two groups of the match.
    [date_re n word] is the pattern with an [n]-digit date and [word] as
    the class of the second group. *)
Definition date_re (n : nat) (word : ascii -> bool) (run_id : string)
  : option (string * string) :=
  let date := Str.take n run_id in
  if (Str.len date =? n) && Str.all Char.is_decimal date then
    match Str.drop n run_id with
    | String c rest =>
        if Ascii.eqb c "_"%char
        then Some (date, Str.take_while word rest)
        else None
    | EmptyString => None
    end
  else None.

Definition matches6 (run_id : string) : option (string * string) :=
  date_re 6 Char.is_word run_id.

(** The class [[\w-]] *)
Definition word8 (c : ascii) : bool := Char.is_word c || Ascii.eqb c "-"%char.

(** [re.search(r'^(\d{8})_([\w-]* )', run_id)] *)
Definition matches8 (run_id : string) : option (string * string) :=
  date_re 8 word8 run_id.

Definition unrecognized_run_id (run_id : string) : exn :=
  ValueError ("Unrecognized run identifier format " ++ Str.quoted run_id
              ++ ". The expected format is either "
              ++ "YYMMDD_machinename_XXXX_FC or "
              ++ "YYYYMMDD_machinename_XXXX-XXXX").

(** Both patterns have two groups, so the guard on [len(matches.groups())]
    never fires; a match is the pair of its groups here. *)
Definition parse_illumina_run_id (run_id : string) : res (string * string) :=
  match matches6 run_id, matches8 run_id with
  | None, None => Raise (unrecognized_run_id run_id)
  | None, Some (g1, g2) =>
      (d <- Datetime.strptime Datetime.fmt_Y_m_d g1 ;;
       Ok (Datetime.strftime d, g2))%res
  | Some (g1, g2), _ =>
      (d <- Datetime.strptime Datetime.fmt_y_m_d g1 ;;
       Ok (Datetime.strftime d, g2))%res
  end.

(** ** Name scrubbing and project names *)

(** [re.sub(r'[^...]+', repl, s)]: every match of a negated class with
    [+] is a maximal run of characters outside the class, found left to
    right.  [keep] is the class; [in_run] tells that the run the scan is in
    has been replaced already. *)
Fixpoint sub_runs (keep : ascii -> bool) (repl : string) (in_run : bool)
         (s : string) : string :=
  match s with
  | EmptyString => EmptyString
  | String c s' =>
      if keep c then String c (sub_runs keep repl false s')
      else if in_run then sub_runs keep repl true s'
      else (repl ++ sub_runs keep repl true s')%string
  end.

Definition re_sub_outside (keep : ascii -> bool) (repl s : string) : string :=
  sub_runs keep repl false s.

(** The class [0-9a-zA-Z\-\.] *)
Definition qiita_char (c : ascii) : bool :=
  Char.is_ascii_digit c || Char.is_ascii_lower c || Char.is_ascii_upper c
  || Ascii.eqb c "-"%char || Ascii.eqb c "."%char.

Definition qiita_scrub_name (name : string) : string :=
  re_sub_outside qiita_char "." name.

(** The class [0-9a-zA-Z\-\_] of the sample identifiers. *)
Definition bcl_char (c : ascii) : bool :=
  Char.is_ascii_digit c || Char.is_ascii_lower c || Char.is_ascii_upper c
  || Ascii.eqb c "-"%char || Ascii.eqb c "_"%char.

(** [re.search(r'(.+)_(\d+)$', project_name)].  The end anchor also holds
    before a final newline; the digits reach that end, so the underscore
    is the last one of the text, and the first group is what precedes it
    on its line.  The text is read from its end. *)
Definition qiita_id_re (project_name : string) : option (string * string) :=
  let r := Str.rev project_name in
  let r := match r with
           | String c r' => if Ascii.eqb c Char.newline then r' else r
           | EmptyString => r
           end in
  let digits := Str.take_while Char.is_decimal r in
  match Str.drop_while Char.is_decimal r with
  | String c before =>
      let g1 := Str.take_while (fun x => negb (Ascii.eqb x Char.newline)) before in
      if Ascii.eqb c "_"%char && negb (Str.is_empty digits)
         && negb (Str.is_empty g1)
      then Some (Str.rev g1, Str.rev digits)
      else None
  | EmptyString => None
  end.

Definition remove_qiita_id (project_name : string) : string :=
  match qiita_id_re project_name with
  | None => project_name
  | Some (g1, _) => g1
  end.

(** The study identifier both assemblers derive from a project:
    [project.replace(project_name + '_', '')]. *)
Definition qiita_id_of (project : string) : string :=
  Str.replace (remove_qiita_id project ++ "_") EmptyString project.

(** ** Instrument resolver *)

Record instrument : Type := mkinstrument {
  instrument_code : string;
  machine_prefix : string;
  vocab : string;
  machine_type : string;
  instrument_run_center : string }.

Definition INSTRUMENT_LOOKUP : list instrument :=
  [ mkinstrument "FS10001773" "FS" "Illumina iSeq" "iSeq" "KLM";
    mkinstrument "A00953" "A" "Illumina NovaSeq 6000" "NovaSeq" "IGM";
    mkinstrument "A00169" "A" "Illumina NovaSeq 6000" "NovaSeq" "LJI";
    mkinstrument "M05314" "M" "Illumina MiSeq" "MiSeq" "KLM";
    mkinstrument "K00180" "K" "Illumina HiSeq 4000" "HiSeq" "IGM";
    mkinstrument "D00611" "D" "Illumina HiSeq 2500" "HiSeq/RR" "IGM";
    mkinstrument "MN01225" "MN" "Illumina MiniSeq" "MiniSeq" "CMI" ].

(** [re.search(r'^([a-zA-Z]{1,2})', instrument_model)] and its whole
    match: one or two leading letters, two when there are two. *)
Definition get_machine_code (instrument_model : string) : res string :=
  match instrument_model with
  | String a rest =>
      if Char.is_ascii_letter a then
        match rest with
        | String b _ =>
            if Char.is_ascii_letter b
            then Ok (String a (String b EmptyString))
            else Ok (String a EmptyString)
        | EmptyString => Ok (String a EmptyString)
        end
      else Raise (ValueError
             ("Cannot find a machine code. This instrument model is malformed "
              ++ instrument_model
              ++ ". The machine code is a one or two character prefix."))
  | EmptyString =>
      Raise (ValueError
             ("Cannot find a machine code. This instrument model is malformed "
              ++ instrument_model
              ++ ". The machine code is a one or two character prefix."))
  end.

(** In the fallback branch the membership test reads the labels of the
    column, not its values, and only builds a [ValueError]; what fails for
    an unknown prefix is the [[0]] on the empty selection. *)
Definition get_model_and_center (instrument_code_ : string) : res (string * string) :=
  let instrument_model := Str.before_first "_"%char instrument_code_ in
  match find (fun r => String.eqb (instrument_code r) instrument_model)
             INSTRUMENT_LOOKUP with
  | Some r => Ok (vocab r, instrument_run_center r)
  | None =>
      (instrument_prefix <- get_machine_code instrument_model ;;
       match filter (fun r => String.eqb (machine_prefix r) instrument_prefix)
                    INSTRUMENT_LOOKUP with
       | [] => Raise (IndexError "index 0 is out of bounds for axis 0 with size 0")
       | r :: _ => Ok (vocab r, "UCSDMI")
       end)%res
  end.

(** ** Tables

    A table is the ordered list of its column labels and its rows; a row is
    its index label and a [Series], the association from column labels to
    the text of the cells.  A column that is present while a row has no
    entry for it is a missing value of that row.  Input tables have text in
    every cell. *)

Inductive label : Type :=
| LInt (n : nat)
| LStr (s : string).

(** [str(label)], as the [%s] directive renders it. *)
Definition label_str (l : label) : string :=
  match l with
  | LInt n => Str.of_nat n
  | LStr s => s
  end.

Definition Series : Type := list (string * string).

Module Dict.

(** [d.get(k)] *)
Fixpoint get (k : string) (d : Series) : option string :=
  match d with
  | [] => None
  | (k', v) :: d' => if String.eqb k k' then Some v else get k d'
  end.

(** [d[k] = v]: the entry keeps its place, a new key goes last. *)
Fixpoint set (k v : string) (d : Series) : Series :=
  match d with
  | [] => [(k, v)]
  | (k', v') :: d' =>
      if String.eqb k k' then (k', v) :: d' else (k', v') :: set k v d'
  end.

(** [del d[k]], when present. *)
Fixpoint remove (k : string) (d : Series) : Series :=
  match d with
  | [] => []
  | (k', v') :: d' =>
      if String.eqb k k' then remove k d' else (k', v') :: remove k d'
  end.

(** [{c: '' for c in cols}] *)
Definition blank (cols : list string) : Series :=
  fold_left (fun d c => set c EmptyString d) cols [].

End Dict.

Record DataFrame : Type := mkframe {
  columns : list string;
  rows : list (label * Series) }.

Module Frame.

Definition has_column (c : string) (df : DataFrame) : bool :=
  mem c (columns df).

Definition add_column (c : string) (cols : list string) : list string :=
  if mem c cols then cols else cols ++ [c].

(** [df[c]]: the cells of a column, [None] for a missing value. *)
Definition getitem (c : string) (df : DataFrame) : res (list (option string)) :=
  if has_column c df
  then Ok (List.map (fun r => Dict.get c (snd r)) (rows df))
  else Raise (KeyError c).

(** [df[c] = v] with a scalar. *)
Definition setitem_scalar (c v : string) (df : DataFrame) : DataFrame :=
  mkframe (add_column c (columns df))
          (List.map (fun r => (fst r, Dict.set c v (snd r))) (rows df)).

(** One cell of a row, with a missing value as [None]. *)
Definition set_cell (c : string) (v : option string) (s : Series) : Series :=
  match v with
  | Some x => Dict.set c x s
  | None => Dict.remove c s
  end.

(** [df[c] = values] with a list of cells, one for each row in the order
    of the rows; another number of cells is a [ValueError]. *)
Definition setitem_cells (c : string) (values : list (option string))
           (df : DataFrame) : res DataFrame :=
  if length values =? length (rows df)
  then Ok (mkframe (add_column c (columns df))
             (List.map (fun rv => (fst (fst rv),
                                   set_cell c (snd rv) (snd (fst rv))))
                       (combine (rows df) values)))
  else Raise (ValueError "Length of values does not match length of index").

(** [df[c] = pd.Series(values)]: the series carries the labels
    [0 .. len(values)-1] and the assignment aligns on labels, so a row
    with another label receives a missing value. *)
Definition setitem_range_series (c : string) (values : list string)
           (df : DataFrame) : DataFrame :=
  mkframe (add_column c (columns df))
          (List.map (fun r =>
                       (fst r,
                        set_cell c
                          (match fst r with
                           | LInt i => nth_error values i
                           | LStr _ => None
                           end) (snd r)))
                    (rows df)).

(** [df.drop(c, axis=1, inplace=True)] *)
Definition drop (c : string) (df : DataFrame) : res DataFrame :=
  if has_column c df
  then Ok (mkframe (filter (fun x => negb (String.eqb x c)) (columns df))
                   (List.map (fun r => (fst r, Dict.remove c (snd r))) (rows df)))
  else Raise (KeyError c).

(** [df.columns = df.columns.str.lower()] *)
Definition lower_columns (df : DataFrame) : DataFrame :=
  mkframe (List.map Str.lower (columns df))
          (List.map (fun r => (fst r,
                               List.map (fun kv => (Str.lower (fst kv), snd kv)) (snd r)))
                    (rows df)).

(** [df.rename(mapper, axis=1)]: a label that is a key of the mapper takes
    its value, any other label stays. *)
Definition rename_label (mapper : Series) (c : string) : string :=
  match Dict.get c mapper with
  | Some c' => c'
  | None => c
  end.

Definition rename (mapper : Series) (df : DataFrame) : DataFrame :=
  mkframe (List.map (rename_label mapper) (columns df))
          (List.map (fun r => (fst r,
                               List.map (fun kv => (rename_label mapper (fst kv), snd kv))
                                        (snd r)))
                    (rows df)).

(** The rows of a group. *)
Definition select (c key : string) (df : DataFrame) : DataFrame :=
  mkframe (columns df)
          (filter (fun r => match Dict.get c (snd r) with
                            | Some v => String.eqb v key
                            | None => false
                            end) (rows df)).

(** The distinct values of a column in order of first appearance. *)
Fixpoint distinct (l : list string) : list string :=
  match l with
  | [] => []
  | x :: l' => x :: filter (fun y => negb (String.eqb y x)) (distinct l')
  end.

Definition present_values (c : string) (df : DataFrame) : list string :=
  flat_map (fun r => match Dict.get c (snd r) with
                     | Some v => [v]
                     | None => []
                     end) (rows df).

(** [df.groupby(c)]: the groups in the order of their sorted keys, the
    rows of a group in their order in the table; rows with a missing key
    are left out. *)
Definition groupby (c : string) (df : DataFrame) : res (list (string * DataFrame)) :=
  if has_column c df
  then Ok (List.map (fun key => (key, select c key df))
                    (sorted (distinct (present_values c df))))
  else Raise (KeyError c).

(** [df.iterrows()] *)
Definition iterrows (df : DataFrame) : list (label * Series) := rows df.

(** [df.set_index(c)]: the cells of [c] become the labels and the column
    goes. *)
Definition set_index (c : string) (df : DataFrame) : res DataFrame :=
  if has_column c df
  then Ok (mkframe (filter (fun x => negb (String.eqb x c)) (columns df))
                   (List.map (fun r =>
                                (match Dict.get c (snd r) with
                                 | Some v => LStr v
                                 | None => fst r
                                 end, Dict.remove c (snd r)))
                             (rows df)))
  else Raise (KeyError c).

(** The cells of a record for the given columns, in their order. *)
Definition project (cols : list string) (d : Series) : Series :=
  flat_map (fun c => match Dict.get c d with
                     | Some v => [(c, v)]
                     | None => []
                     end) cols.

Fixpoint number_from (i : nat) (data : list Series) : list (label * Series) :=
  match data with
  | [] => []
  | d :: data' => (LInt i, d) :: number_from (S i) data'
  end.

(** [pd.DataFrame(columns=cols, data=data)] for a list of records: the
    rows are numbered from 0. *)
Definition of_records (cols : list string) (data : list Series) : DataFrame :=
  mkframe cols (number_from 0 (List.map (project cols) data)).

(** [sample.name] as attribute and [sample[name]] as item. *)
Definition attr (name : string) (sample : Series) : res string :=
  match Dict.get name sample with
  | Some v => Ok v
  | None => Raise (AttributeError
                     ("'Series' object has no attribute '" ++ name ++ "'"))
  end.

Definition item (name : string) (sample : Series) : res string :=
  match Dict.get name sample with
  | Some v => Ok v
  | None => Raise (KeyError name)
  end.

End Frame.

Fixpoint mapM {A B} (f : A -> res B) (l : list A) : res (list B) :=
  match l with
  | [] => Ok []
  | x :: l' => (y <- f x ;; ys <- mapM f l' ;; Ok (y :: ys))%res
  end.

(** ** Study-specific transform *)

(** The inner function of [agp_transform]. *)
Definition zero_fill (name : string) : res string :=
  if negb (Str.contains "blank" (Str.lower name)) then
    match name with
    | EmptyString => Raise (IndexError "string index out of range")
    | String c _ => if Char.isdigit c then Ok (Str.zfill 9 name) else Ok name
    end
  else Ok name.

(** [Series.apply(f)] on the cells of a column; a missing value is a float
    and has none of the methods of [str]. *)
Definition apply_cells (f : string -> res string) (cells : list (option string))
  : res (list (option string)) :=
  mapM (fun cell =>
          match cell with
          | Some v => (v' <- f v ;; Ok (Some v'))%res
          | None => Raise (AttributeError "'float' object has no attribute 'lower'")
          end) cells.

Definition agp_transform (frame : DataFrame) (study_id : string) : res DataFrame :=
  if String.eqb study_id "10317" then
    (names <- Frame.getitem "sample_name" frame ;;
     filled <- apply_cells zero_fill names ;;
     frame <- Frame.setitem_cells "sample_name" filled frame ;;
     let frame := Frame.setitem_scalar "center_name" "UCSDMI" frame in
     let frame := Frame.setitem_scalar "library_construction_protocol"
                                       "Knight Lab KHP" frame in
     let frame := Frame.setitem_scalar "experiment_design_description"
       "samples of skin, saliva and feces and other samples from the AGP" frame in
     Ok frame)%res
  else Ok frame.

(** ** Paths *)

Module Path.

Definition sep : ascii := "/"%char.

Definition ends_with_sep (p : string) : bool :=
  match Str.rev p with
  | String c _ => Ascii.eqb c sep
  | EmptyString => false
  end.

(** [os.path.join(a, b)] *)
Definition join (a b : string) : string :=
  match b with
  | String c _ =>
      if Ascii.eqb c sep then b
      else if Str.is_empty a || ends_with_sep a then (a ++ b)%string
      else (a ++ String sep b)%string
  | EmptyString =>
      if Str.is_empty a || ends_with_sep a then a
      else (a ++ String sep EmptyString)%string
  end.

(** [os.path.basename(p)], also the second part of [os.path.split(p)]. *)
Definition basename (p : string) : string :=
  Str.rev (Str.take_while (fun c => negb (Ascii.eqb c sep)) (Str.rev p)).

(** [p.split('/')] *)
Fixpoint components (p : string) : list string :=
  match p with
  | EmptyString => [EmptyString]
  | String c p' =>
      if Ascii.eqb c sep then EmptyString :: components p'
      else match components p' with
           | x :: xs => String c x :: xs
           | [] => [String c EmptyString]
           end
  end.

(** One step of the loop of [normpath]; the kept components are held
    last first. *)
Definition norm_step (rooted : bool) (kept : list string) (comp : string)
  : list string :=
  if Str.is_empty comp || String.eqb comp "." then kept
  else if negb (String.eqb comp "..") then comp :: kept
  else match kept with
       | [] => if rooted then kept else comp :: kept
       | top :: below =>
           if String.eqb top ".." then comp :: kept else below
       end.

(** [os.path.normpath(p)] *)
Definition normpath (p : string) : string :=
  if Str.is_empty p then "."
  else
    let slashes :=
      if Str.starts_with "/" p then
        if Str.starts_with "//" p && negb (Str.starts_with "///" p)
        then 2 else 1
      else 0 in
    let kept := fold_left (norm_step (0 <? slashes)) (components p) [] in
    let body := (Str.repeat sep slashes ++ Str.join "/" (List.rev kept))%string in
    if Str.is_empty body then "." else body.

End Path.

(** ** The file system *)

(** What [f.read(1)] on an opened gzip file gives: a number of bytes, or an
    exception.  Opening can fail as well. *)
Inductive gz_read : Type :=
| ReadBytes (n : nat)
| ReadFails.

Inductive gz_open : Type :=
| Opens (r : gz_read)
| OpenFails.

Record World : Type := mkworld {
  glob : string -> list string;
  path_exists : string -> bool;
  listdir : string -> option (list string);
  isdir : string -> bool;
  gzip_open : string -> gz_open }.

(** The caller's table and the warnings issued so far. *)
Record Mem : Type := mkmem {
  table : DataFrame;
  warnings : list string }.

Definition M (A : Type) : Type := Mem -> res A * Mem.

Definition ret {A} (a : A) : M A := fun m => (Ok a, m).

Definition raise {A} (e : exn) : M A := fun m => (Raise e, m).

Definition bind {A B} (c : M A) (k : A -> M B) : M B :=
  fun m => match c m with
           | (Ok a, m') => k a m'
           | (Raise e, m') => (Raise e, m')
           end.

Definition lift {A} (r : res A) : M A := fun m => (r, m).

(** [warnings.warn(msg)] *)
Definition warn (msg : string) : M unit :=
  fun m => (Ok tt, mkmem (table m) (warnings m ++ [msg])).

Definition get_table : M DataFrame := fun m => (Ok (table m), m).

Definition put_table (df : DataFrame) : M unit :=
  fun m => (Ok tt, mkmem df (warnings m)).

Declare Scope M_scope.
Delimit Scope M_scope with M.
Notation "x <- c ;; k" := (bind c (fun x => k))
  (at level 61, c at next level, right associativity) : M_scope.
Notation "' p <- c ;; k" := (bind c (fun p => k))
  (at level 61, p pattern, c at next level, right associativity) : M_scope.
Notation "c ;;; k" := (bind c (fun _ => k))
  (at level 61, right associativity) : M_scope.

Fixpoint foldM {A B} (f : B -> A -> M B) (l : list A) (acc : B) : M B :=
  match l with
  | [] => ret acc
  | x :: l' => (acc' <- f acc x ;; foldM f l' acc')%M
  end.

(** ** File-pair locator *)

Definition is_nonempty_gz_file (w : World) (name : string) : res bool :=
  match gzip_open w name with
  | OpenFails => Raise (OSError name)
  | Opens (ReadBytes n) => Ok (0 <? n)
  | Opens ReadFails => Ok false
  end.

Definition _file_list (w : World) (path : string) : res (list string) :=
  match listdir w path with
  | None => Raise (OSError path)
  | Some names => Ok (filter (fun f => negb (isdir w (Path.join path f))) names)
  end.

(** The value of [os.path.exists(path) and len(_file_list(path))] is
    [False] or a length; [truth] is its truth value. *)
Inductive exists_value : Type :=
| IsFalse
| IsLen (n : nat).

Definition truth (v : exists_value) : bool :=
  match v with
  | IsFalse => false
  | IsLen n => 0 <? n
  end.

Definition _exists_and_has_files (w : World) (path : string) : res exists_value :=
  if path_exists w path
  then (files <- _file_list w path ;; Ok (IsLen (length files)))%res
  else Ok IsFalse.

(** The index loop of the locator: the position of the first character at
    which [f] and [r] differ, [None] when the loop runs to its end. *)
Fixpoint first_mismatch (i : nat) (f r : string) : res (option nat) :=
  match f with
  | EmptyString => Ok None
  | String a f' =>
      match r with
      | EmptyString => Raise (IndexError "string index out of range")
      | String b r' =>
          if Ascii.eqb a b then first_mismatch (S i) f' r' else Ok (Some i)
      end
  end.

(** The value of [i] after the loop: the position of the mismatch less 2
    after the [break], the last index when there is none, and no value if
    the loop did not run. *)
Definition loop_index (f r : string) : res Z :=
  (found <- first_mismatch 0 f r ;;
   match found with
   | Some i => Ok (Z.of_nat i - 2)%Z
   | None =>
       if Str.len f =? 0 then Raise (UnboundLocalError "i")
       else Ok (Z.of_nat (Str.len f) - 1)%Z
   end)%res.

(** [s[:i]]; a negative [i] counts from the end. *)
Definition slice_to (s : string) (i : Z) : string :=
  if (i <? 0)%Z
  then Str.take (Z.to_nat (Z.max 0 (Z.of_nat (Str.len s) + i))) s
  else Str.take (Z.to_nat i) s.

Definition mismatched_filenames (f r : string) : exn :=
  ValueError ("Forward and reverse sequences filenames don't match f:"
              ++ f ++ " r:" ++ r).

(** The branch for two results, which [get_run_prefix] and
    [get_run_prefix_mf] spell out in the same words. *)
Definition prefix_of_pair (w : World) (results : list string) : res (option string) :=
  match sorted results with
  | [forward; reverse] =>
      (ok_f <- is_nonempty_gz_file w forward ;;
       ok_r <- (if ok_f then is_nonempty_gz_file w reverse else Ok false) ;;
       if ok_f && ok_r then
         let f := Path.basename forward in
         let r := Path.basename reverse in
         if negb (Str.len f =? Str.len r) then Raise (mismatched_filenames f r)
         else (i <- loop_index f r ;; Ok (Some (slice_to f i)))
       else Ok None)%res
  | _ => Raise (ValueError "not enough values to unpack")
  end.

Definition too_many_matches (results : list string) (sample_id lane : string) : string :=
  "There are " ++ Str.of_nat (length results) ++ " matches for sample "
  ++ Str.quoted sample_id ++ " in lane " ++ lane
  ++ ". Only two matches are allowed (forward and reverse): "
  ++ Str.join ", " (sorted results).

(** The directory the pipeline left the files of a project in. *)
Definition pipeline_path (w : World) (base pipeline : string) : res string :=
  if String.eqb pipeline "atropos-and-bowtie2" then
    let qc := Path.join base "atropos_qc" in
    let hf := Path.join base "filtered_sequences" in
    (has_qc <- _exists_and_has_files w qc ;;
     if truth has_qc then
       (has_hf <- _exists_and_has_files w hf ;;
        if truth has_hf then Ok hf else Ok qc)
     else Ok base)%res
  else if String.eqb pipeline "fastp-and-minimap2" then
    let qc := Path.join base "trimmed_sequences" in
    let hf := Path.join base "filtered_sequences" in
    (has_qc <- _exists_and_has_files w qc ;;
     has_both <- (if truth has_qc
                  then (has_hf <- _exists_and_has_files w hf ;; Ok (truth has_hf))
                  else Ok false) ;;
     if has_both then Ok hf
     else if truth has_qc then Ok qc
     else (has_hf <- _exists_and_has_files w hf ;;
           if truth has_hf then Ok hf else Ok base))%res
  else Raise (ValueError ("Invalid pipeline " ++ Str.quoted pipeline)).

Definition search_me (sample_id lane : string) : string :=
  sample_id ++ "_S*_L*" ++ lane ++ "_R*.fastq.gz".

Definition get_run_prefix (w : World) (run_path project sample_id lane pipeline : string)
  : M (option string) :=
  let base := Path.join run_path project in
  (path <- lift (pipeline_path w base pipeline) ;;
   let results := glob w (Path.join path (search_me sample_id lane)) in
   if length results =? 2 then lift (prefix_of_pair w results)
   else if 2 <? length results then
     warn (too_many_matches results sample_id lane) ;;; ret None
   else ret None)%M.

Definition too_many_matches_mf (results : list string) : string :=
  Str.of_nat (length results)
  ++ " possible matches found for determining run-prefix. "
  ++ "Only two matches should be found (forward and reverse): "
  ++ Str.join ", " (sorted results).

Definition get_run_prefix_mf (w : World) (run_path project : string)
  : M (option string) :=
  let search_path :=
    Path.join (Path.join (Path.join run_path project) "amplicon")
              "*_SMPL1_S*R?_*.fastq.gz" in
  let results := glob w search_path in
  (if length results =? 2 then lift (prefix_of_pair w results)
   else if 2 <? length results then
     warn (too_many_matches_mf results) ;;; ret None
   else ret None)%M.

(** ** Preparation assembler, run-sheet variant *)

(** [REQUIRED_COLUMNS] is a set in the source; it is listed here in the
    order of its literal, which is also the order given to the columns it
    contributes to [PREP_COLUMNS] and to the names in the error message
    (Python leaves both orders open). *)
Definition REQUIRED_COLUMNS : list string :=
  ["sample_plate"; "sample_well"; "i7_index_id"; "index";
   "i5_index_id"; "index2"; "sample_name"].

Definition PREP_COLUMNS : list string :=
  ["experiment_design_description"; "well_description";
   "library_construction_protocol"; "platform"; "run_center";
   "run_date"; "run_prefix"; "sequencing_meth"; "center_name";
   "center_project_name"; "instrument_model"; "runid";
   "lane"; "sample_project"] ++ REQUIRED_COLUMNS.

Definition missing_columns (required : list string) (df : DataFrame) : list string :=
  filter (fun c => negb (Frame.has_column c df)) required.

Definition required_columns_missing (not_present : list string) : exn :=
  ValueError ("Required columns are missing: " ++ Str.join ", " not_present).

(** [valid = set(ascii_letters + digits + '.')] *)
Definition valid_name_char (c : ascii) : bool :=
  Char.is_ascii_letter c || Char.is_ascii_digit c || Ascii.eqb c "."%char.

Definition _has_invalid_chars (name : string) : bool :=
  negb (Str.all valid_name_char name).

Definition _check_invalid_names (sample_names : list (option string)) : M unit :=
  (flags <- lift (mapM (fun cell =>
                          match cell with
                          | Some name => Ok (name, _has_invalid_chars name)
                          | None => Raise (TypeError "'float' object is not iterable")
                          end) sample_names) ;;
   let invalid := List.map fst (filter snd flags) in
   if 0 <? length invalid then
     warn ("The following sample names have invalid characters: "
           ++ Str.join ", " (List.map Str.quoted invalid))
   else ret tt)%M.

(** Where the value of a field of a preparation row comes from: a value
    computed before the row, an attribute or an item of the sample, or the
    three attributes that make up the well description. *)
Inductive field_source : Type :=
| Lit (v : string)
| Attr (name : string)
| Item (name : string)
| Dotted (a b c : string).

Definition field_value (sample : Series) (src : field_source) : res string :=
  match src with
  | Lit v => Ok v
  | Attr name => Frame.attr name sample
  | Item name => Frame.item name sample
  | Dotted a b c =>
      (x <- Frame.attr a sample ;;
       y <- Frame.attr b sample ;;
       z <- Frame.attr c sample ;;
       Ok (x ++ "." ++ y ++ "." ++ z)%string)%res
  end.

(** The assignments [row[key] = value] of a loop body, in their order. *)
Fixpoint fill_row (sample : Series) (assignments : list (string * field_source))
         (row : Series) : res Series :=
  match assignments with
  | [] => Ok row
  | (key, src) :: rest =>
      (v <- field_value sample src ;;
       fill_row sample rest (Dict.set key v row))%res
  end.

(** The values the assembler computes once for a run. *)
Record run_info : Type := mkrun {
  run_id_of : string;
  run_date_of : string;
  run_center_of : string;
  instrument_model_of : string }.

Definition sheet_assignments (run : run_info)
           (project project_name lane run_prefix : string)
  : list (string * field_source) :=
  [ ("sample_name", Attr "sample_name");
    ("experiment_design_description", Attr "experiment_design_description");
    ("library_construction_protocol", Attr "library_construction_protocol");
    ("platform", Lit "Illumina");
    ("run_center", Lit (run_center_of run));
    ("run_date", Lit (run_date_of run));
    ("run_prefix", Lit run_prefix);
    ("sequencing_meth", Lit "sequencing by synthesis");
    ("center_name", Lit "UCSD");
    ("center_project_name", Lit project_name);
    ("instrument_model", Lit (instrument_model_of run));
    ("runid", Lit (run_id_of run));
    ("sample_plate", Attr "sample_plate");
    ("sample_well", Attr "sample_well");
    ("i7_index_id", Item "i7_index_id");
    ("index", Item "index");
    ("i5_index_id", Item "i5_index_id");
    ("index2", Item "index2");
    ("lane", Lit lane);
    ("sample_project", Lit project);
    ("well_description", Dotted "sample_plate" "sample_name" "sample_well") ].

(** The output dictionary, keyed by run identifier, project and lane. *)
Definition prep_key : Type := (string * string * string)%type.

Definition prep_key_eqb (a b : prep_key) : bool :=
  let '(a1, a2, a3) := a in
  let '(b1, b2, b3) := b in
  String.eqb a1 b1 && String.eqb a2 b2 && String.eqb a3 b3.

Definition preps : Type := list (prep_key * DataFrame).

Module Output.

Fixpoint get (k : prep_key) (d : preps) : option DataFrame :=
  match d with
  | [] => None
  | (k', v) :: d' => if prep_key_eqb k k' then Some v else get k d'
  end.

Fixpoint set (k : prep_key) (v : DataFrame) (d : preps) : preps :=
  match d with
  | [] => [(k, v)]
  | (k', v') :: d' =>
      if prep_key_eqb k k' then (k', v) :: d' else (k', v') :: set k v d'
  end.

End Output.

Definition no_data (project lane : string) : string :=
  "Project " ++ project ++ " and Lane " ++ lane ++ " have no data".

(** The end of the body of a lane: the warning for an empty group, the
    study transform, the check of the names and the entry of the output. *)
Definition finish_lane (cols : list string) (data : list Series)
           (qiita_id : string) (key : prep_key) (output : preps) : M preps :=
  let '(_, project, lane) := key in
  ((if length data =? 0 then warn (no_data project lane) else ret tt) ;;;
   prep <- lift (agp_transform (Frame.of_records cols data) qiita_id) ;;
   names <- lift (Frame.getitem "sample_name" prep) ;;
   _check_invalid_names names ;;;
   ret (Output.set key prep output))%M.

(** The preparation row of a sample with a run prefix. *)
Definition sheet_row (run : run_info) (project lane : string)
           (sample : Series) (run_prefix : string) : res Series :=
  fill_row sample
           (sheet_assignments run project (remove_qiita_id project) lane run_prefix)
           (Dict.blank PREP_COLUMNS).

(** The body of the loop over the samples of a lane. *)
Definition sheet_sample (w : World) (run_path pipeline : string) (run : run_info)
           (project lane : string) (data : list Series) (row : label * Series)
  : M (list Series) :=
  let '(sample_id, sample) := row in
  (run_prefix <- get_run_prefix w run_path project
                                (label_str sample_id) lane pipeline ;;
   match run_prefix with
   | None => ret data
   | Some p =>
       (row <- lift (sheet_row run project lane sample p) ;;
        ret (data ++ [row]))
   end)%M.

(** The study identifier of the run-sheet variant, with its placeholder. *)
Definition sheet_qiita_id (project : string) : string :=
  if String.eqb (qiita_id_of project) project then "QIITA-ID"
  else qiita_id_of project.

(** The body of the loop over the lanes of a project. *)
Definition sheet_lane (w : World) (run_path pipeline : string) (run : run_info)
           (project : string) (output : preps) (group : string * DataFrame)
  : M preps :=
  let '(lane, lane_sheet) := group in
  (data <- foldM (sheet_sample w run_path pipeline run project lane)
                 (Frame.iterrows lane_sheet) [] ;;
   finish_lane PREP_COLUMNS data (sheet_qiita_id project)
               (run_id_of run, project, lane) output)%M.

(** The body of the loop over the projects of the sheet. *)
Definition sheet_project (w : World) (run_path pipeline : string) (run : run_info)
           (output : preps) (group : string * DataFrame) : M preps :=
  let '(project, project_sheet) := group in
  (lanes <- lift (Frame.groupby "lane" project_sheet) ;;
   foldM (sheet_lane w run_path pipeline run project) lanes output)%M.

(** The renaming of [description] when [well_description] is absent; it
    acts on the caller's table. *)
Definition normalize_description : M unit :=
  (sheet <- get_table ;;
   if negb (Frame.has_column "well_description" sheet) then
     warn ("'well_description' is not present in sample-sheet. It "
           ++ "is not a required column but it is a recommended one.") ;;;
     if Frame.has_column "description" sheet then
       warn ("Using 'description' instead of 'well_description'"
             ++ " because that column isn't present") ;;;
       cells <- lift (Frame.getitem "description" sheet) ;;
       sheet <- lift (Frame.setitem_cells "well_description" cells sheet) ;;
       put_table sheet ;;;
       sheet <- lift (Frame.drop "description" sheet) ;;
       put_table sheet
     else ret tt
   else ret tt)%M.

(** [preparations_for_run(run_path, sheet, pipeline)]; [sheet] is the table
    of the memory the computation starts in. *)
Definition preparations_for_run (w : World) (run_path pipeline : string) : M preps :=
  let run_id := Path.basename (Path.normpath run_path) in
  ('(run_date, instrument_code) <- lift (parse_illumina_run_id run_id) ;;
   '(instrument_model, run_center) <- lift (get_model_and_center instrument_code) ;;
   sheet <- get_table ;;
   let not_present := missing_columns REQUIRED_COLUMNS sheet in
   if 0 <? length not_present then raise (required_columns_missing not_present)
   else
     normalize_description ;;;
     sheet <- get_table ;;
     projects <- lift (Frame.groupby "sample_project" sheet) ;;
     foldM (sheet_project w run_path pipeline
                          (mkrun run_id run_date run_center instrument_model))
           projects [])%M.

Definition default_pipeline : string := "fastp-and-minimap2".

(** ** Preparation assembler, mapping-file variant *)

(** [REQUIRED_MF_COLUMNS] is a set in the source, listed here in the order
    of its literal.  Python leaves open the order in which the error
    message names the missing columns; the statements about that message
    are up to a permutation. *)
Definition REQUIRED_MF_COLUMNS : list string :=
  ["sample_name"; "barcode"; "primer"; "primer_plate";
   "well_id"; "plating"; "extractionkit_lot";
   "extraction_robot"; "tm1000_8_tool"; "primer_date";
   "mastermix_lot"; "water_lot"; "processing_robot";
   "tm300_8_tool"; "tm50_8_tool"; "sample_plate";
   "project_name"; "orig_name"; "well_description";
   "experiment_design_description";
   "library_construction_protocol"; "linker"; "platform";
   "run_center"; "run_date"; "run_prefix"; "pcr_primers";
   "sequencing_meth"; "target_gene"; "target_subfragment";
   "center_name"; "center_project_name";
   "instrument_model"; "runid"].

Definition PREP_MF_COLUMNS : list string :=
  ["sample_name"; "barcode"; "center_name";
   "center_project_name"; "experiment_design_description";
   "instrument_model"; "lane"; "library_construction_protocol";
   "platform"; "run_center"; "run_date"; "run_prefix"; "runid";
   "sample_plate"; "sequencing_meth"; "linker"; "primer";
   "primer_plate"; "well_id"; "plating"; "extractionkit_lot";
   "extraction_robot"; "tm1000_8_tool"; "primer_date";
   "mastermix_lot"; "water_lot"; "processing_robot";
   "tm300_8_tool"; "tm50_8_tool"; "project_name"; "orig_name";
   "well_description"; "pcr_primers"; "target_gene";
   "target_subfragment"].

Definition extract_run_date_from_run_id (run_id : string) : string :=
  let tmp := Str.before_first "_"%char run_id in
  let year := Str.take 2 tmp in
  let month := Str.take 2 (Str.drop 2 tmp) in
  let date := Str.take 2 (Str.drop 4 tmp) in
  "20" ++ year ++ "/" ++ month ++ "/" ++ date.

Definition mapping_assignments (run_id run_prefix lane sample_name : string)
  : list (string * field_source) :=
  [ ("sample_name", Lit sample_name);
    ("experiment_design_description", Attr "experiment_design_description");
    ("library_construction_protocol", Attr "library_construction_protocol");
    ("platform", Attr "platform");
    ("run_center", Attr "run_center");
    ("run_date", Lit (extract_run_date_from_run_id run_id));
    ("run_prefix", Lit run_prefix);
    ("sequencing_meth", Attr "sequencing_meth");
    ("center_name", Attr "center_name");
    ("center_project_name", Attr "center_project_name");
    ("instrument_model", Attr "instrument_model");
    ("runid", Lit run_id);
    ("sample_plate", Attr "sample_plate");
    ("lane", Lit lane);
    ("barcode", Attr "barcode");
    ("linker", Attr "linker");
    ("primer", Attr "primer");
    ("primer_plate", Attr "primer_plate");
    ("well_id", Attr "well_id");
    ("plating", Attr "plating");
    ("extractionkit_lot", Attr "extractionkit_lot");
    ("extraction_robot", Attr "extraction_robot");
    ("tm1000_8_tool", Attr "tm1000_8_tool");
    ("primer_date", Attr "primer_date");
    ("mastermix_lot", Attr "mastermix_lot");
    ("water_lot", Attr "water_lot");
    ("processing_robot", Attr "processing_robot");
    ("tm300_8_tool", Attr "tm300_8_tool");
    ("tm50_8_tool", Attr "tm50_8_tool");
    ("project_name", Attr "project_name");
    ("orig_name", Attr "orig_name");
    ("well_description", Attr "well_description");
    ("pcr_primers", Attr "pcr_primers");
    ("target_gene", Attr "target_gene");
    ("target_subfragment", Attr "target_subfragment") ].

(** [df.apply(f, axis=1)] with a function that gives a text for a row: a
    column of the values of [f], row by row.  On a table without rows
    pandas does not have a row to call [f] on; it tries [f] on a row of
    missing values, and when that call raises, as the function of the
    sample identifiers does (on a missing name, and on a table without
    the column of the names), the result is a copy of the table. *)
Inductive applied : Type :=
| AsColumn (values : list (option string))
| AsTable (df : DataFrame).

Definition apply_rows (f : label * Series -> res (option string)) (df : DataFrame)
  : res applied :=
  match rows df with
  | [] => Ok (AsTable df)
  | _ :: _ => (values <- mapM f (rows df) ;; Ok (AsColumn values))%res
  end.

(** [df[key] = value] with what [apply] returned.  A table is assigned as
    one column only when it has one column; the messages are those of
    pandas 2. *)
Definition setitem_applied (key : string) (value : applied) (df : DataFrame)
  : res DataFrame :=
  match value with
  | AsColumn values => Frame.setitem_cells key values df
  | AsTable t =>
      match columns t with
      | [c] => (values <- Frame.getitem c t ;; Frame.setitem_cells key values df)%res
      | [] =>
          Raise (ValueError
                   (if Frame.has_column key df
                    then "Columns must be same length as key"
                    else "Cannot set a DataFrame without columns to the column "
                         ++ key))
      | _ :: _ :: _ =>
          Raise (ValueError
                   (if Frame.has_column key df
                    then "Columns must be same length as key"
                    else "Cannot set a DataFrame with multiple columns to the "
                         ++ "single column " ++ key))
      end
  end.

(** The three statements that open the function; each acts on the caller's
    table.  The series of lanes carries the labels [0 .. n-1].  The sample
    identifiers are computed row by row.  On a table without rows [apply]
    returns a copy of the table, which has the lane and every other
    column, and the assignment of the identifiers raises a [ValueError]
    unless the lane is the only column. *)
Definition prepare_mapping_file : M unit :=
  (mapping_file <- get_table ;;
   put_table (Frame.lower_columns mapping_file) ;;;
   mapping_file <- get_table ;;
   put_table (Frame.setitem_range_series "lane"
                (List.repeat "1" (length (rows mapping_file))) mapping_file) ;;;
   mapping_file <- get_table ;;
   ids <- lift (apply_rows (fun x =>
                              (name <- Frame.item "sample_name" (snd x) ;;
                               Ok (Some (re_sub_outside bcl_char "_" name)))%res)
                           mapping_file) ;;
   mapping_file <- lift (setitem_applied "Sample_ID" ids mapping_file) ;;
   put_table mapping_file)%M.

Definition mapping_lane_rows (run_id run_prefix lane : string)
           (lane_sheet : DataFrame) : res (list Series) :=
  mapM (fun '(sample_name, sample) =>
          fill_row sample
            (mapping_assignments run_id run_prefix lane (label_str sample_name))
            (Dict.blank PREP_MF_COLUMNS))
       (Frame.iterrows lane_sheet).

Definition none_has_no_split : exn :=
  AttributeError "'NoneType' object has no attribute 'split'".

(** [run_prefix.split('_SMPL1')[0]]; [None] has no [split]. *)
Definition run_id_of_prefix (run_prefix : option string) : res string :=
  match run_prefix with
  | Some p => Ok (Str.before_sub "_SMPL1" p)
  | None => Raise none_has_no_split
  end.

(** The body of the loop over the lanes of a project. *)
Definition mapping_lane (run_id run_prefix qiita_id project : string)
           (output : preps) (group : string * DataFrame) : M preps :=
  let '(lane, lane_sheet) := group in
  (lane_sheet <- lift (Frame.set_index "sample_name" lane_sheet) ;;
   data <- lift (mapping_lane_rows run_id run_prefix lane lane_sheet) ;;
   finish_lane PREP_MF_COLUMNS data qiita_id (run_id, project, lane) output)%M.

Definition missing_qiita_id : exn :=
  ValueError ("Values in project_name must be appended with a"
              ++ " Qiita Study ID.").

Definition missing_run_prefix : exn :=
  ValueError "A run-prefix could not be determined.".

(** The body of the loop over the projects of the mapping file.  The run
    identifier is taken from the prefix before the prefix is tested. *)
Definition mapping_project (w : World) (run_path : string)
           (output : preps) (group : string * DataFrame) : M preps :=
  let '(project, project_sheet) := group in
  let qiita_id := qiita_id_of project in
  if String.eqb qiita_id project then raise missing_qiita_id
  else
    (run_prefix <- get_run_prefix_mf w run_path project ;;
     run_id <- lift (run_id_of_prefix run_prefix) ;;
     match run_prefix with
     | None => raise missing_run_prefix
     | Some run_prefix =>
         (lanes <- lift (Frame.groupby "lane" project_sheet) ;;
          foldM (mapping_lane run_id run_prefix qiita_id project) lanes output)
     end)%M.

(** [preparations_for_run_mapping_file(run_path, mapping_file)];
    [mapping_file] is the table of the memory the computation starts in. *)
Definition preparations_for_run_mapping_file (w : World) (run_path : string) : M preps :=
  (prepare_mapping_file ;;;
   mapping_file <- get_table ;;
   let not_present := missing_columns REQUIRED_MF_COLUMNS mapping_file in
   if 0 <? length not_present then raise (required_columns_missing not_present)
   else
     projects <- lift (Frame.groupby "project_name" mapping_file) ;;
     foldM (mapping_project w run_path) projects [])%M.

(** ** Plate tables

    [generate_qiita_prep_file(platedf, seqtype)] works on a copy of the
    plate table, so the caller's table is not part of it.  The embedding is
    for plate tables whose labels are still pairwise distinct after the
    renaming, on which every [prep[c]] is one column. *)

Definition column_renamer (seqtype : string) : Series :=
  if String.eqb seqtype "16S" then
    [ ("Sample", "sample_name");
      ("Golay Barcode", "barcode");
      ("515FB Forward Primer (Parada)", "primer");
      ("Project Name", "project_name");
      ("Well", "well_id");
      ("Primer Plate #", "primer_plate");
      ("Plating", "plating");
      ("Extraction Kit Lot", "extractionkit_lot");
      ("Extraction Robot", "extraction_robot");
      ("TM1000 8 Tool", "tm1000_8_tool");
      ("Primer Date", "primer_date");
      ("MasterMix Lot", "mastermix_lot");
      ("Water Lot", "water_lot");
      ("Processing Robot", "processing_robot");
      ("Sample Plate", "sample_plate");
      ("Forward Primer Linker", "linker") ]
  else
    [ ("Sample", "sample_name");
      ("Golay Barcode", "barcode");
      ("Reverse complement of 3prime Illumina Adapter", "primer");
      ("Project Name", "project_name");
      ("Well", "well_id");
      ("Primer Plate #", "primer_plate");
      ("Plating", "plating");
      ("Extraction Kit Lot", "extractionkit_lot");
      ("Extraction Robot", "extraction_robot");
      ("TM1000 8 Tool", "tm1000_8_tool");
      ("Primer Date", "primer_date");
      ("MasterMix Lot", "mastermix_lot");
      ("Water Lot", "water_lot");
      ("Processing Robot", "processing_robot");
      ("Sample Plate", "sample_plate");
      ("Reverse Primer Linker", "linker") ].

Definition primers_16S : string := "FWD:GTGYCAGCMGCCGCGGTAA; REV:GGACTACNVGGGTWTCTAAT".
Definition primers_18S : string := "FWD:GTACACACCGCCCGTC; REV:TGATCCTTCTGCAGGTTCACCTAC".
Definition primers_ITS : string := "FWD:CTTGGTCATTTAGAGGAAGTAA; REV:GCTGCGTTCTTCATCGATGC".

Definition ptl_16S : string :=
  "Illumina EMP protocol 515fbc, 806r amplification of 16S rRNA V4".
Definition prtcl_18S : string := "Illumina EMP 18S rRNA 1391f EukBr".
Definition prtcl_ITS : string :=
  "Illumina  EMP protocol amplification of ITS1fbc, ITS2r".

Definition unrecognized_seqtype (seqtype : string) : exn :=
  ValueError ("Unrecognized value " ++ Str.quoted seqtype ++ " for seqtype").

(** The four columns that depend on the kind of amplicon. *)
Definition seqtype_columns (seqtype : string) (prep : DataFrame) : res DataFrame :=
  let fill primers subfragment gene protocol :=
    let prep := Frame.setitem_scalar "pcr_primers" primers prep in
    let prep := Frame.setitem_scalar "target_subfragment" subfragment prep in
    let prep := Frame.setitem_scalar "target_gene" gene prep in
    Frame.setitem_scalar "library_construction_protocol" protocol prep in
  if String.eqb seqtype "16S" then Ok (fill primers_16S "V4" "16S rRNA" ptl_16S)
  else if String.eqb seqtype "18S" then Ok (fill primers_18S "V9" "18S rRNA" prtcl_18S)
  else if String.eqb seqtype "ITS" then Ok (fill primers_ITS "ITS_1_2" "ITS" prtcl_ITS)
  else Raise (unrecognized_seqtype seqtype).

(** The list names each of its eight columns twice. *)
Definition extra_cols : list string :=
  ["tm300_8_tool"; "tm50_8_tool";
   "experiment_design_description"; "run_date"; "run_prefix";
   "center_project_name"; "instrument_model"; "runid";
   "tm300_8_tool"; "tm50_8_tool";
   "experiment_design_description"; "run_date"; "run_prefix";
   "center_project_name"; "instrument_model"; "runid"].

Definition column_order : list string :=
  ["sample_name"; "barcode"; "primer"; "primer_plate";
   "well_id"; "plating"; "extractionkit_lot";
   "extraction_robot"; "tm1000_8_tool"; "primer_date";
   "mastermix_lot"; "water_lot";
   "processing_robot"; "tm300_8_tool"; "tm50_8_tool";
   "sample_plate"; "project_name"; "orig_name";
   "well_description"; "experiment_design_description";
   "library_construction_protocol"; "linker";
   "platform"; "run_center"; "run_date"; "run_prefix";
   "pcr_primers"; "sequencing_meth";
   "target_gene"; "target_subfragment"; "center_name";
   "center_project_name"; "instrument_model";
   "runid"].

(** [a + b] on the cells of two columns of text: a missing value on either
    side gives a missing value. *)
Definition add_cells (a b : option string) : option string :=
  match a, b with
  | Some x, Some y => Some (x ++ y)%string
  | _, _ => None
  end.

(** [prep[a] + '.' + prep[b] + '.' + prep[c]], from left to right. *)
Definition dotted_cells (a b c : list (option string)) : list (option string) :=
  let dot := Some "."%string in
  List.map (fun abc =>
              add_cells (add_cells (add_cells (add_cells (fst (fst abc)) dot)
                                              (snd (fst abc))) dot)
                        (snd abc))
           (combine (combine a b) c).

(** ['[' + ', '.join(repr(c) for c in l) + ']'] for labels without quote
    characters. *)
Definition list_repr (l : list string) : string :=
  "[" ++ Str.join ", " (List.map Datetime.repr l) ++ "]".

(** [prep[column_order]]: the columns in the order of the list.  Labels
    that are not columns raise a [KeyError] that lists them in the order of
    the list (the wording of pandas from its release 1.4 on); at this point
    of the function some of the labels are columns, which decides the
    wording. *)
Definition in_column_order (prep : DataFrame) : res DataFrame :=
  match filter (fun c => negb (Frame.has_column c prep)) column_order with
  | [] => Ok (mkframe column_order
                (List.map (fun r => (fst r, Frame.project column_order (snd r)))
                          (rows prep)))
  | not_found => Raise (KeyError (list_repr not_found ++ " not in index"))
  end.

(** The body of the loop over [extra_cols]: a column that is not there is
    added with empty texts. *)
Definition add_extra_col (prep : DataFrame) (c : string) : DataFrame :=
  if Frame.has_column c prep then prep else Frame.setitem_scalar c EmptyString prep.

Definition generate_qiita_prep_file (platedf : DataFrame) (seqtype : string)
  : res DataFrame :=
  let prep := Frame.rename (column_renamer seqtype) platedf in
  (names <- Frame.getitem "sample_name" prep ;;
   prep <- Frame.setitem_cells "orig_name" names prep ;;
   plates <- Frame.getitem "sample_plate" prep ;;
   names <- Frame.getitem "sample_name" prep ;;
   wells <- Frame.getitem "well_id" prep ;;
   prep <- Frame.setitem_cells "well_description"
                               (dotted_cells plates names wells) prep ;;
   let prep := Frame.setitem_scalar "center_name" "UCSDMI" prep in
   let prep := Frame.setitem_scalar "run_center" "UCSDMI" prep in
   let prep := Frame.setitem_scalar "platform" "Illumina" prep in
   let prep := Frame.setitem_scalar "sequencing_meth" "Sequencing by synthesis" prep in
   prep <- seqtype_columns seqtype prep ;;
   let prep := fold_left add_extra_col extra_cols prep in
   in_column_order prep)%res.

(** ** Vocabulary of the statements *)

(** A text matches the date pattern with [n] digits when it starts with
    [n] decimal digits, an underscore and a possibly empty token of the
    class [word]. *)
Definition matches_date_pattern (n : nat) (word : ascii -> bool) (run_id : string) : Prop :=
  exists date token rest,
    run_id = (date ++ String "_"%char (token ++ rest))%string
    /\ Str.len date = n
    /\ Str.all Char.is_decimal date = true
    /\ Str.all word token = true.

(** The three fields of a six-digit date. *)
Definition yy_of (date : string) : string := Str.take 2 date.
Definition mm_of (date : string) : string := Str.take 2 (Str.drop 2 date).
Definition dd_of (date : string) : string := Str.take 2 (Str.drop 4 date).

(** A six-digit date is calendar-valid when its month is one of the twelve
    and its day exists in that month of the year 20YY. *)
Definition calendar_valid (date : string) : bool :=
  let m := Str.to_nat (mm_of date) in
  let d := Str.to_nat (dd_of date) in
  (1 <=? m) && (m <=? 12) && (1 <=? d)
  && (d <=? Datetime.days_in_month (2000 + Str.to_nat (yy_of date)) m).

(** The date the specification asks for: the year read as 20YY. *)
Definition date_20YY (date : string) : string :=
  "20" ++ yy_of date ++ "-" ++ mm_of date ++ "-" ++ dd_of date.

(** The date with the century [strptime] gives a two-digit year: 20 up to
    68, 19 from 69 on. *)
Definition date_pivot (date : string) : string :=
  (if Str.to_nat (yy_of date) <=? 68 then "20" else "19")
  ++ yy_of date ++ "-" ++ mm_of date ++ "-" ++ dd_of date.

Definition decimal_chars : list ascii :=
  ["0"; "1"; "2"; "3"; "4"; "5"; "6"; "7"; "8"; "9"]%char.

(** The text of two characters. *)
Definition two (a b : ascii) : string := String a (String b EmptyString).

(** The year [strptime] reads from two digits. *)
Definition pivot_year (n : nat) : nat := if n <=? 68 then n + 2000 else n + 1900.

(** The maximal runs of a text for a class of characters: consecutive
    characters that are all inside the class, or all outside it, each run
    with the side it is on. *)
Fixpoint runs (keep : ascii -> bool) (s : string) : list (bool * string) :=
  match s with
  | EmptyString => []
  | String c s' =>
      match runs keep s' with
      | (k, r) :: rest =>
          if Bool.eqb (keep c) k then (k, String c r) :: rest
          else (keep c, String c EmptyString) :: (k, r) :: rest
      | [] => [(keep c, String c EmptyString)]
      end
  end.

(** A run inside the class stays, a run outside it becomes [repl]. *)
Fixpoint render_runs (repl : string) (l : list (bool * string)) : string :=
  match l with
  | [] => EmptyString
  | (k, r) :: rest => ((if k then r else repl) ++ render_runs repl rest)%string
  end.

Fixpoint concat_runs (l : list (bool * string)) : string :=
  match l with
  | [] => EmptyString
  | (_, r) :: rest => (r ++ concat_runs rest)%string
  end.

(** Runs are not empty, their characters are all on the side they are
    labelled with, and neighbours are on different sides. *)
Fixpoint runs_maximal (keep : ascii -> bool) (l : list (bool * string)) : Prop :=
  match l with
  | [] => True
  | (k, r) :: rest =>
      r <> EmptyString
      /\ Str.all (fun c => Bool.eqb (keep c) k) r = true
      /\ match rest with
         | (k', _) :: _ => k' = negb k
         | [] => True
         end
      /\ runs_maximal keep rest
  end.

(** The cells of the [sample_name] column, row by row. *)
Definition sample_names (frame : DataFrame) : list (option string) :=
  List.map (fun r => Dict.get "sample_name" (snd r)) (rows frame).

(** A cell that holds a non-empty text, and one that holds a text. *)
Definition nonempty_name (cell : option string) : Prop :=
  exists c s, cell = Some (String c s).

Definition is_text (cell : option string) : Prop := cell <> None.

(** A small preparation table: a numeric name, a blank and a plain name. *)
Definition three_samples : DataFrame :=
  mkframe ["sample_name"; "center_name"]
          [ (LInt 0, [("sample_name", "12345"); ("center_name", "UCSD")]);
            (LInt 1, [("sample_name", "BLANK.1"); ("center_name", "UCSD")]);
            (LInt 2, [("sample_name", "sample.3"); ("center_name", "UCSD")]) ].

(** The same table with an empty name in its second row. *)
Definition unnamed_sample : DataFrame :=
  mkframe ["sample_name"; "center_name"]
          [ (LInt 0, [("sample_name", "12345"); ("center_name", "UCSD")]);
            (LInt 1, [("sample_name", EmptyString); ("center_name", "UCSD")]) ].

(** The longest common leading part of two texts. *)
Fixpoint common_prefix (a b : string) : string :=
  match a, b with
  | String x a', String y b' =>
      if Ascii.eqb x y then String x (common_prefix a' b') else EmptyString
  | _, _ => EmptyString
  end.

(** A text without its last [n] characters. *)
Definition trim (n : nat) (s : string) : string := Str.take (Str.len s - n) s.

(** A file that can be opened, and one that decompresses to no byte. *)
Definition opens (w : World) (name : string) : Prop := gzip_open w name <> OpenFails.

Definition decompresses_to_nothing (w : World) (name : string) : Prop :=
  gzip_open w name = Opens (ReadBytes 0).

(** A run directory with one project.  [SampleA] has its two files,
    [SampleB] has none, [SampleC] has an empty forward file and [SampleD]
    three candidates. *)
Definition run_dir : string := "/sequencing/200318_A00953_0082_AH5TWYDSXY".

Definition project_dir : string := run_dir ++ "/Project_1".

Definition in_project (name : string) : string :=
  (project_dir ++ "/" ++ name)%string.

Definition files_of (pattern : string) : list string :=
  if String.eqb pattern (in_project "SampleA_S*_L*1_R*.fastq.gz")
  then [ in_project "SampleA_S1_L001_R2_001.fastq.gz";
         in_project "SampleA_S1_L001_R1_001.fastq.gz" ]
  else if String.eqb pattern (in_project "SampleC_S*_L*1_R*.fastq.gz")
  then [ in_project "SampleC_S3_L001_R1_001.fastq.gz";
         in_project "SampleC_S3_L001_R2_001.fastq.gz" ]
  else if String.eqb pattern (in_project "SampleD_S*_L*1_R*.fastq.gz")
  then [ in_project "SampleD_S4_L001_R1_001.fastq.gz";
         in_project "SampleD_S4_L001_R2_001.fastq.gz";
         in_project "SampleD_S4_L001_R1_001.trimmed.fastq.gz" ]
  else [].

Definition one_project : World :=
  mkworld files_of
          (fun _ => false)
          (fun _ => None)
          (fun _ => false)
          (fun name =>
             if String.eqb name (in_project "SampleC_S3_L001_R1_001.fastq.gz")
             then Opens (ReadBytes 0) else Opens (ReadBytes 1)).

Definition no_memory : Mem := mkmem (mkframe [] []) [].



(** The directory of [one_project] when the forward file of [SampleA]
    cannot be opened and every other file decompresses to no byte. *)
Definition unopened_forward : World :=
  mkworld files_of
          (fun _ => false)
          (fun _ => None)
          (fun _ => false)
          (fun name =>
             if String.eqb name (in_project "SampleA_S1_L001_R1_001.fastq.gz")
             then OpenFails else Opens (ReadBytes 0)).

(** A sample sheet for the run directory above: the four samples of
    [Project_1] on lane 1, of which only [SampleA] has its two non-empty
    files, and the one sample of a second project that has no files. *)
Definition sheet_columns : list string :=
  REQUIRED_COLUMNS
  ++ ["sample_project"; "lane"; "experiment_design_description";
      "library_construction_protocol"; "description"].

Definition sheet_line (sample_id well project : string) : label * Series :=
  (LStr sample_id,
   [ ("sample_plate", "Plate_7"); ("sample_well", well);
     ("i7_index_id", "iTru7_101_01"); ("index", "ACGTTACC");
     ("i5_index_id", "iTru5_01_A"); ("index2", "ACCGACAA");
     ("sample_name", sample_id); ("sample_project", project); ("lane", "1");
     ("experiment_design_description", "isolates");
     ("library_construction_protocol", "Knight Lab Kapa HP");
     ("description", "plate 7") ]).

Definition run_sheet : DataFrame :=
  mkframe sheet_columns
          [ sheet_line "SampleA" "A1" "Project_1";
            sheet_line "SampleB" "A2" "Project_1";
            sheet_line "SampleC" "A3" "Project_1";
            sheet_line "SampleD" "A4" "Project_1";
            sheet_line "SampleE" "A5" "Other_2" ].

(** A mapping file with one sample of the project [Amplicon_101], in a
    run directory without amplicon files. *)
Definition mapping_columns : list string :=
  List.map (fun c => if String.eqb c "barcode" then "BarCode" else c)
           REQUIRED_MF_COLUMNS.

Definition mapping_line (sample project : string) : Series :=
  List.map (fun c =>
              (c, if String.eqb c "sample_name" then sample
                  else if String.eqb c "project_name" then project
                  else "n/a"))
           mapping_columns.

Definition one_amplicon_sample : DataFrame :=
  mkframe mapping_columns [ (LInt 0, mapping_line "soil 1" "Amplicon_101") ].

(** A computation is quiet when it leaves the caller's table as it is and
    only adds warnings. *)
Definition grows (m m' : Mem) : Prop :=
  table m' = table m /\ exists extra, warnings m' = warnings m ++ extra.

Definition quiet {A} (c : M A) : Prop := forall m, grows m (snd (c m)).

(** What the locator returns for a sample; the memory has no part in it. *)
Definition locate (w : World) (run_path pipeline project sample_id lane : string)
  : res (option string) :=
  fst (get_run_prefix w run_path project sample_id lane pipeline no_memory).

Definition cell_is (v : string) (cell : option string) : bool :=
  match cell with
  | Some x => String.eqb x v
  | None => false
  end.

(** The rows of a sheet that belong to a project and a lane. *)
Definition in_group (project lane : string) (row : label * Series) : bool :=
  cell_is project (Dict.get "sample_project" (snd row))
  && cell_is lane (Dict.get "lane" (snd row)).

Definition group_rows (project lane : string) (sheet : DataFrame)
  : list (label * Series) :=
  filter (in_group project lane) (rows sheet).

(** Of some rows, the samples the locator returns a prefix for, each with
    that prefix. *)
Definition found_in (w : World) (run_path pipeline project lane : string)
           (l : list (label * Series)) : list (Series * string) :=
  flat_map (fun row =>
              match locate w run_path pipeline project (label_str (fst row)) lane with
              | Ok (Some p) => [(snd row, p)]
              | _ => []
              end) l.

Definition located (w : World) (run_path pipeline project lane : string)
           (sheet : DataFrame) : list (Series * string) :=
  found_in w run_path pipeline project lane (group_rows project lane sheet).

(** A preparation table that holds exactly the given samples: one record
    for each, in their order, passed through the study transform. *)
Definition table_of (run : run_info) (project lane : string)
           (found : list (Series * string)) (prep : DataFrame) : Prop :=
  exists data,
    Forall2 (fun sp row => sheet_row run project lane (fst sp) (snd sp) = Ok row)
            found data
    /\ agp_transform (Frame.of_records PREP_COLUMNS data) (sheet_qiita_id project)
       = Ok prep.

(** The entries and the warnings of a later state include those of an
    earlier one. *)
Definition extends (a b : preps * Mem) : Prop :=
  (forall k, Output.get k (fst a) <> None -> Output.get k (fst b) <> None)
  /\ (forall x, In x (warnings (snd a)) -> In x (warnings (snd b))).

(** The mapping file once its column names are in lower case and the lane
    is added. *)
Definition with_lane (mapping_file : DataFrame) : DataFrame :=
  Frame.setitem_range_series "lane"
    (List.repeat "1" (length (rows (Frame.lower_columns mapping_file))))
    (Frame.lower_columns mapping_file).

(** A row that has a sample name under its lower-cased labels. *)
Definition has_sample_name (row : label * Series) : Prop :=
  Dict.get "sample_name"
           (List.map (fun kv => (Str.lower (fst kv), snd kv)) (snd row)) <> None.

(** An entry of the output holds the located samples of its group. *)
Definition holds_located (w : World) (run_path pipeline : string) (run : run_info)
           (sheet : DataFrame) (key : prep_key) (prep : DataFrame) : Prop :=
  let '(rid, project, lane) := key in
  rid = run_id_of run
  /\ table_of run project lane (located w run_path pipeline project lane sheet) prep.

(** What the grouping and the locator read of a row: its label, its
    project and its lane. *)
Definition group_key (row : label * Series) : label * option string * option string :=
  (fst row, Dict.get "sample_project" (snd row), Dict.get "lane" (snd row)).

(** A run directory without any file, and the sheet of two samples in
    it. *)
Definition empty_run : World :=
  mkworld (fun _ => []) (fun _ => false) (fun _ => None) (fun _ => false)
          (fun _ => OpenFails).

Definition unlocated_samples : DataFrame :=
  mkframe sheet_columns
          [ sheet_line "SampleB" "A2" "Project_1";
            sheet_line "SampleE" "A5" "Other_2" ].

(** The call on that sheet, and its output. *)
Definition run_sheet_call : res preps * Mem :=
  preparations_for_run one_project run_dir default_pipeline (mkmem run_sheet []).

Definition run_sheet_output : preps :=
  match fst run_sheet_call with
  | Ok out => out
  | Raise _ => []
  end.

(** A computation that never raises a given exception. *)
Definition never_raises (e : exn) {A} (c : M A) : Prop :=
  forall m, fst (c m) <> Raise e.

(** The three fields of an eight-digit date. *)
Definition yyyy_of (date : string) : string := Str.take 4 date.
Definition mm8_of (date : string) : string := Str.take 2 (Str.drop 4 date).
Definition dd8_of (date : string) : string := Str.take 2 (Str.drop 6 date).

(** An eight-digit date is calendar-valid when its year is one of the
    years 1 to 9999, its month is one of the twelve and its day exists in
    that month of that year. *)
Definition calendar_valid8 (date : string) : bool :=
  let y := Str.to_nat (yyyy_of date) in
  let m := Str.to_nat (mm8_of date) in
  let d := Str.to_nat (dd8_of date) in
  (1 <=? y) && (1 <=? m) && (m <=? 12) && (1 <=? d)
  && (d <=? Datetime.days_in_month y m).

(** The date with the four digits of its year, and with its year written
    without leading zeros. *)
Definition date_YYYY (date : string) : string :=
  yyyy_of date ++ "-" ++ mm8_of date ++ "-" ++ dd8_of date.

Definition is_zero (c : ascii) : bool := Ascii.eqb c "0"%char.

Definition date_Y (date : string) : string :=
  Str.drop_while is_zero (yyyy_of date) ++ "-" ++ mm8_of date ++ "-" ++ dd8_of date.

(** The text of four characters. *)
Definition four (a b c d : ascii) : string := String a (String b (two c d)).

(** A text without line break, and the digits of a study identifier. *)
Definition not_newline (c : ascii) : bool := negb (Ascii.eqb c Char.newline).

Definition no_newline (s : string) : Prop := Str.all not_newline s = true.

Definition study_digits (digits : string) : Prop :=
  digits <> EmptyString /\ Str.all Char.is_decimal digits = true.

(** A project name that ends with an underscore and a study identifier. *)
Definition has_study_id (project : string) : Prop :=
  exists name digits,
    project = (name ++ String "_"%char digits)%string
    /\ name <> EmptyString /\ study_digits digits.

(** The instruments and the machine prefixes of the lookup table. *)
Definition known_instruments : list string :=
  List.map instrument_code INSTRUMENT_LOOKUP.

Definition known_prefixes : list string :=
  List.map machine_prefix INSTRUMENT_LOOKUP.

(** The error the resolver builds for an unknown prefix. *)
Definition unrecognized_machine_prefix (instrument_prefix : string) : exn :=
  ValueError ("Unrecognized machine prefix " ++ instrument_prefix).

(** A character of an instrument name inside a run identifier: a word
    character other than the underscore. *)
Definition instrument_char (c : ascii) : bool :=
  Char.is_word c && negb (Ascii.eqb c "_"%char).

(** The warning of the name check for the names it found invalid. *)
Definition invalid_names_warning (invalid : list string) : string :=
  "The following sample names have invalid characters: "
  ++ Str.join ", " (List.map Str.quoted invalid).

Definition not_hyphen (c : ascii) : bool := negb (Ascii.eqb c "-"%char).

(** The date the mapping-file assembler writes for a six-character date. *)
Definition date_slashes (date : string) : string :=
  "20" ++ yy_of date ++ "/" ++ mm_of date ++ "/" ++ dd_of date.

(** What the study transform makes of a name: a name that starts with a
    digit and does not hold [blank] in any case is filled with zeros on
    the left to nine characters. *)
Definition agp_name (name : string) : string :=
  match name with
  | String c _ =>
      if Char.isdigit c && negb (Str.contains "blank" (Str.lower name))
      then (Str.repeat "0"%char (9 - Str.len name) ++ name)%string
      else name
  | EmptyString => name
  end.

(** The columns the study transform writes. *)
Definition agp_columns : list string :=
  ["sample_name"; "center_name"; "library_construction_protocol";
   "experiment_design_description"].

(** The cells of a column, row by row. *)
Definition cells (c : string) (df : DataFrame) : list (option string) :=
  List.map (fun r => Dict.get c (snd r)) (rows df).

Definition labels (df : DataFrame) : list label := List.map fst (rows df).

(** The search of the mapping-file locator and what it gives. *)
Definition amplicon_pattern (run_path project : string) : string :=
  Path.join (Path.join (Path.join run_path project) "amplicon")
            "*_SMPL1_S*R?_*.fastq.gz".

Definition amplicon_files (w : World) (run_path project : string) : list string :=
  glob w (amplicon_pattern run_path project).

(** A run directory with the two amplicon files of one project. *)
Definition amplicon_dir : string :=
  "/sequencing/230207_M05314_0346_000000000-KVMGL/Amplicon_101/amplicon".

Definition in_amplicon (name : string) : string :=
  (amplicon_dir ++ "/" ++ name)%string.

Definition amplicon_run : World :=
  mkworld (fun pattern =>
             if String.eqb pattern (in_amplicon "*_SMPL1_S*R?_*.fastq.gz")
             then [ in_amplicon "230207_M05314_0346_000000000-KVMGL_SMPL1_S1_L001_R2_001.fastq.gz";
                    in_amplicon "230207_M05314_0346_000000000-KVMGL_SMPL1_S1_L001_R1_001.fastq.gz" ]
             else [])
          (fun _ => false) (fun _ => None) (fun _ => false)
          (fun _ => Opens (ReadBytes 1)).

(** A directory in which the two files found differ in their first
    character. *)
Definition two_runs : World :=
  mkworld (fun _ => [ "/runs/P_1/amplicon/A_SMPL1_S1R1_001.fastq.gz";
                      "/runs/P_1/amplicon/B_SMPL1_S1R1_001.fastq.gz" ])
          (fun _ => false) (fun _ => None) (fun _ => false)
          (fun _ => Opens (ReadBytes 1)).

(** The three directories of a project the locator chooses from. *)
Definition qc_dir (pipeline base : string) : string :=
  Path.join base (if String.eqb pipeline "atropos-and-bowtie2"
                  then "atropos_qc" else "trimmed_sequences").

Definition hf_dir (base : string) : string := Path.join base "filtered_sequences".

Definition invalid_pipeline (pipeline : string) : exn :=
  ValueError ("Invalid pipeline " ++ Str.quoted pipeline).

(** A row of the sheet that belongs to a group: it has a project and a
    lane. *)
Definition grouped (row : label * Series) : bool :=
  match Dict.get "sample_project" (snd row), Dict.get "lane" (snd row) with
  | Some _, Some _ => true
  | _, _ => false
  end.

(** The well description the run-sheet assembler writes for a sample. *)
Definition well_description_of (sample : Series) : option string :=
  match Dict.get "sample_plate" sample, Dict.get "sample_name" sample,
        Dict.get "sample_well" sample with
  | Some plate, Some name, Some well => Some (plate ++ "." ++ name ++ "." ++ well)%string
  | _, _, _ => None
  end.

(** Every cell of a column holds the same text. *)
Definition all_cells (c v : string) (df : DataFrame) : Prop :=
  Forall (fun cell => cell = Some v) (cells c df).

(** A table whose rows have cells for columns of the table only. *)
Definition well_formed (df : DataFrame) : Prop :=
  forall row k v, In row (rows df) -> In (k, v) (snd row) -> In k (columns df).

Definition well_formedb (df : DataFrame) : bool :=
  forallb (fun row => forallb (fun kv => mem (fst kv) (columns df)) (snd row))
          (rows df).

(** The sample identifier the mapping-file assembler computes for a row. *)
Definition sample_id_of (x : label * Series) : res (option string) :=
  (name <- Frame.item "sample_name" (snd x) ;;
   Ok (Some (re_sub_outside bcl_char "_" name)))%res.

(** The mapping file with its sample identifiers. *)
Definition with_sample_ids (ids : list (option string)) (mapping_file : DataFrame)
  : DataFrame :=
  mkframe (Frame.add_column "Sample_ID" (columns (with_lane mapping_file)))
          (List.map (fun rv => (fst (fst rv),
                                Frame.set_cell "Sample_ID" (snd rv) (snd (fst rv))))
                    (combine (rows (with_lane mapping_file)) ids)).

(** The required columns a mapping file lacks, whatever the case of its
    labels. *)
Definition missing_mf_columns (mapping_file : DataFrame) : list string :=
  filter (fun c => negb (mem c (List.map Str.lower (columns mapping_file))))
         REQUIRED_MF_COLUMNS.

(** What the locator of the mapping-file assembler returns for a project;
    the memory has no part in it. *)
Definition locate_mf (w : World) (run_path project : string) : res (option string) :=
  fst (get_run_prefix_mf w run_path project no_memory).

(** The rows of a project in the prepared mapping file. *)
Definition mapping_group (project : string) (mapping_file : DataFrame) : DataFrame :=
  Frame.select "lane" "1" (Frame.select "project_name" project mapping_file).


(** A mapping file of two samples without the column of the sample names,
    one without the barcodes, and one whose project has no study
    identifier. *)
Definition drop_column (c : string) (df : DataFrame) : DataFrame :=
  mkframe (filter (fun x => negb (String.eqb x c)) (columns df))
          (List.map (fun r => (fst r, Dict.remove c (snd r))) (rows df)).

Definition two_amplicon_samples (project : string) : DataFrame :=
  mkframe mapping_columns
          [ (LInt 0, mapping_line "soil.1" project);
            (LInt 1, mapping_line "soil.2" project) ].

(** The project names of a mapping file, read under lower-case labels. *)
Definition project_names (mapping_file : DataFrame) : list string :=
  Frame.present_values "project_name" (Frame.lower_columns mapping_file).


Fixpoint distinctb (l : list string) : bool :=
  match l with
  | [] => true
  | x :: l' => negb (mem x l') && distinctb l'
  end.


(** The name the mapping-file assembler gives the sample of a row: the
    label the row has once the sample names are the index. *)
Definition sample_label (r : label * Series) : string :=
  label_str (match Dict.get "sample_name" (snd r) with
             | Some v => LStr v
             | None => fst r
             end).

(** A preparation table of the mapping-file assembler that holds the rows
    of a group: one record for each row, in their order, passed through
    the study transform. *)
Definition mapping_table_of (rid run_prefix project : string)
           (group prep : DataFrame) : Prop :=
  exists data,
    Forall2 (fun r row =>
               fill_row (Dict.remove "sample_name" (snd r))
                        (mapping_assignments rid run_prefix "1" (sample_label r))
                        (Dict.blank PREP_MF_COLUMNS) = Ok row)
            (rows group) data
    /\ agp_transform (Frame.of_records PREP_MF_COLUMNS data) (qiita_id_of project)
       = Ok prep.

(** An entry of the output of the mapping-file assembler. *)
Definition mapping_entry (w : World) (run_path : string) (mapping_file : DataFrame)
           (key : prep_key) (prep : DataFrame) : Prop :=
  let '(rid, project, lane) := key in
  lane = "1"
  /\ exists run_prefix,
       locate_mf w run_path project = Ok (Some run_prefix)
       /\ rid = Str.before_sub "_SMPL1" run_prefix
       /\ mapping_table_of rid run_prefix project
                           (mapping_group project mapping_file) prep.


(** The call on the mapping file of two samples in the run directory with
    the two amplicon files, and its output. *)
Definition amplicon_run_path : string :=
  "/sequencing/230207_M05314_0346_000000000-KVMGL".



(** The plate table under the labels of the preparation. *)
Definition renamed (platedf : DataFrame) (seqtype : string) : DataFrame :=
  Frame.rename (column_renamer seqtype) platedf.

(** A table whose labels are pairwise distinct. *)
Definition distinct_labels (df : DataFrame) : Prop := NoDup (columns df).

(** The columns of the preparation that come from the plate table. *)
Definition plate_columns : list string :=
  ["sample_name"; "barcode"; "primer"; "primer_plate";
   "well_id"; "plating"; "extractionkit_lot";
   "extraction_robot"; "tm1000_8_tool"; "primer_date";
   "mastermix_lot"; "water_lot"; "processing_robot";
   "sample_plate"; "project_name"; "linker"].

(** The columns the function writes or adds. *)
Definition written_columns : list string :=
  ["orig_name"; "well_description"; "center_name"; "run_center"; "platform";
   "sequencing_meth"; "pcr_primers"; "target_subfragment"; "target_gene";
   "library_construction_protocol"].

Definition known_seqtype (seqtype : string) : Prop :=
  seqtype = "16S" \/ seqtype = "18S" \/ seqtype = "ITS".

(** The primers, the subfragment, the gene and the protocol of a kind of
    amplicon. *)
Definition seqtype_values (seqtype : string)
  : option (string * string * string * string) :=
  if String.eqb seqtype "16S" then Some (primers_16S, "V4", "16S rRNA", ptl_16S)
  else if String.eqb seqtype "18S" then Some (primers_18S, "V9", "18S rRNA", prtcl_18S)
  else if String.eqb seqtype "ITS" then Some (primers_ITS, "ITS_1_2", "ITS", prtcl_ITS)
  else None.

(** A table with the cells of a column written row by row. *)
Definition with_column (c : string) (values : list (option string)) (df : DataFrame)
  : DataFrame :=
  mkframe (Frame.add_column c (columns df))
          (List.map (fun rv => (fst (fst rv),
                                Frame.set_cell c (snd rv) (snd (fst rv))))
                    (combine (rows df) values)).

(** The table the function has built before it orders the columns. *)
Definition plate_table (values : string * string * string * string) (R : DataFrame)
  : DataFrame :=
  let '(primers, subfragment, gene, protocol) := values in
  let prep := with_column "orig_name" (cells "sample_name" R) R in
  let prep := with_column "well_description"
                (dotted_cells (cells "sample_plate" R) (cells "sample_name" R)
                              (cells "well_id" R)) prep in
  let prep := Frame.setitem_scalar "center_name" "UCSDMI" prep in
  let prep := Frame.setitem_scalar "run_center" "UCSDMI" prep in
  let prep := Frame.setitem_scalar "platform" "Illumina" prep in
  let prep := Frame.setitem_scalar "sequencing_meth" "Sequencing by synthesis" prep in
  let prep := Frame.setitem_scalar "pcr_primers" primers prep in
  let prep := Frame.setitem_scalar "target_subfragment" subfragment prep in
  let prep := Frame.setitem_scalar "target_gene" gene prep in
  let prep := Frame.setitem_scalar "library_construction_protocol" protocol prep in
  fold_left add_extra_col extra_cols prep.

(** The labels of [column_order] a table lacks. *)
Definition not_in_index (prep : DataFrame) : list string :=
  filter (fun c => negb (Frame.has_column c prep)) column_order.

(** A plate table of two samples for 16S sequencing. *)
Definition plate_labels : list string :=
  List.map fst (column_renamer "16S").

Definition plate_line (sample well : string) : Series :=
  List.map (fun c =>
              (c, if String.eqb c "Sample" then sample
                  else if String.eqb c "Well" then well
                  else if String.eqb c "Sample Plate" then "Plate_7"
                  else if String.eqb c "Project Name" then "Amplicon_101"
                  else "n/a"))
           plate_labels.

Definition plate_sheet : DataFrame :=
  mkframe plate_labels
          [ (LInt 0, plate_line "soil.1" "A1");
            (LInt 1, plate_line "soil.2" "A2") ].

(** A column that holds one text in every row of a table. *)
Definition constant_cells (v : string) (df : DataFrame) : list (option string) :=
  List.map (fun _ => Some v) (rows df).

(** [prep[column_order]] on a table that has the columns. *)
Definition ordered (prep : DataFrame) : DataFrame :=
  mkframe column_order
          (List.map (fun r => (fst r, Frame.project column_order (snd r)))
                    (rows prep)).

(** The table the function has built before the loop over [extra_cols]. *)
Definition written_table (values : string * string * string * string) (R : DataFrame)
  : DataFrame :=
  let '(primers, subfragment, gene, protocol) := values in
  let prep := with_column "orig_name" (cells "sample_name" R) R in
  let prep := with_column "well_description"
                (dotted_cells (cells "sample_plate" R) (cells "sample_name" R)
                              (cells "well_id" R)) prep in
  let prep := Frame.setitem_scalar "center_name" "UCSDMI" prep in
  let prep := Frame.setitem_scalar "run_center" "UCSDMI" prep in
  let prep := Frame.setitem_scalar "platform" "Illumina" prep in
  let prep := Frame.setitem_scalar "sequencing_meth" "Sequencing by synthesis" prep in
  let prep := Frame.setitem_scalar "pcr_primers" primers prep in
  let prep := Frame.setitem_scalar "target_subfragment" subfragment prep in
  let prep := Frame.setitem_scalar "target_gene" gene prep in
  Frame.setitem_scalar "library_construction_protocol" protocol prep.

(** The table the function returns for the plate table of two samples. *)
Definition plate_prep : DataFrame :=
  match generate_qiita_prep_file plate_sheet "16S" with
  | Ok prep => prep
  | Raise _ => plate_sheet
  end.


(** * Properties *)

(** ** Strings *)

Section StringFacts.

Variable p : ascii -> bool.

Lemma take_drop (n : nat) (s : string) :
  (Str.take n s ++ Str.drop n s)%string = s.
Proof.
  revert s; induction n as [|n IH]; intros [|c s]; simpl; try reflexivity.
  now rewrite IH.
Qed.

Lemma take_app (d r : string) : Str.take (Str.len d) (d ++ r) = d.
Proof.
  induction d as [|c d IH]; simpl.
  - now destruct r.
  - now rewrite IH.
Qed.

Lemma drop_app (d r : string) : Str.drop (Str.len d) (d ++ r) = r.
Proof. induction d as [|c d IH]; simpl; auto. Qed.

Lemma len_app (a b : string) : Str.len (a ++ b) = Str.len a + Str.len b.
Proof. induction a as [|c a IH]; simpl; auto. Qed.

Lemma take_while_drop_while (s : string) :
  (Str.take_while p s ++ Str.drop_while p s)%string = s.
Proof.
  induction s as [|c s IH]; simpl; auto.
  destruct (p c); simpl; [now rewrite IH | reflexivity].
Qed.

Lemma all_take_while (s : string) : Str.all p (Str.take_while p s) = true.
Proof.
  induction s as [|c s IH]; simpl; auto.
  destruct (p c) eqn:E; simpl; auto. now rewrite E.
Qed.

Lemma all_app (a b : string) :
  Str.all p (a ++ b) = Str.all p a && Str.all p b.
Proof.
  induction a as [|c a IH]; simpl; auto.
  rewrite IH. now rewrite andb_assoc.
Qed.

End StringFacts.

Lemma app_assoc_str (a b c : string) :
  ((a ++ b) ++ c)%string = (a ++ (b ++ c))%string.
Proof. induction a as [|x a IH]; simpl; congruence. Qed.

(** ** Run-ID parser *)

Example parse_run_id_novaseq :
  parse_illumina_run_id "200318_A00953_0082_AH5TWYDSXY"
  = Ok ("2020-03-18", "A00953_0082_AH5TWYDSXY").
Proof. reflexivity. Qed.

Example parse_run_id_iseq :
  parse_illumina_run_id "20220303_FS10001773_6_BRB11606-1914"
  = Ok ("2022-03-03", "FS10001773_6_BRB11606-1914").
Proof. reflexivity. Qed.

Example parse_run_id_token_stops_at_hyphen :
  parse_illumina_run_id "200318_M05314_0001_000000000-ABCDE"
  = Ok ("2020-03-18", "M05314_0001_000000000").
Proof. reflexivity. Qed.

Example parse_run_id_no_such_day :
  parse_illumina_run_id "200230_A00953"
  = Raise (ValueError "day is out of range for month").
Proof. reflexivity. Qed.

Example parse_run_id_leftover :
  parse_illumina_run_id "201301_A00953"
  = Raise (ValueError "unconverted data remains: 1").
Proof. reflexivity. Qed.

Example remove_qiita_id_suffix :
  remove_qiita_id "CaporasoIllumina_550" = "CaporasoIllumina".
Proof. reflexivity. Qed.

Example remove_qiita_id_no_suffix :
  remove_qiita_id "NoSuffixHere" = "NoSuffixHere".
Proof. reflexivity. Qed.

Example model_and_center_known :
  get_model_and_center "A00953_0082_AH5TWYDSXY"
  = Ok ("Illumina NovaSeq 6000", "IGM").
Proof. reflexivity. Qed.

Example model_and_center_by_prefix :
  get_model_and_center "MN99999_0082" = Ok ("Illumina MiniSeq", "UCSDMI").
Proof. reflexivity. Qed.

Example normpath_run_directory :
  Path.basename (Path.normpath "/sequencing/./runs//200318_A00953_0082_AH5TWYDSXY/")
  = "200318_A00953_0082_AH5TWYDSXY".
Proof. reflexivity. Qed.

(** The matcher finds a match exactly on the texts of the pattern, and its
    groups are the date and the longest token. *)
Lemma date_re_complete (n : nat) (word : ascii -> bool) (date rest : string) :
  Str.len date = n ->
  Str.all Char.is_decimal date = true ->
  date_re n word (date ++ String "_"%char rest)
  = Some (date, Str.take_while word rest).
Proof.
  intros Hlen Hdig. unfold date_re. subst n.
  rewrite take_app, drop_app, Nat.eqb_refl, Hdig. reflexivity.
Qed.

Lemma date_re_sound (n : nat) (word : ascii -> bool) (run_id g1 g2 : string) :
  date_re n word run_id = Some (g1, g2) ->
  matches_date_pattern n word run_id.
Proof.
  unfold date_re. intros H.
  destruct (Str.len (Str.take n run_id) =? n) eqn:Hlen; [|discriminate].
  destruct (Str.all Char.is_decimal (Str.take n run_id)) eqn:Hdig; [|discriminate].
  simpl in H.
  destruct (Str.drop n run_id) as [|c rest] eqn:Hdrop; [discriminate|].
  destruct (Ascii.eqb c "_") eqn:Hc; [|discriminate].
  apply Ascii.eqb_eq in Hc. subst c.
  exists (Str.take n run_id), (Str.take_while word rest), (Str.drop_while word rest).
  rewrite take_while_drop_while, <- Hdrop, take_drop.
  repeat split; auto.
  - now apply Nat.eqb_eq.
  - apply all_take_while.
Qed.

Lemma date_re_none (n : nat) (word : ascii -> bool) (run_id : string) :
  ~ matches_date_pattern n word run_id -> date_re n word run_id = None.
Proof.
  intros H. destruct (date_re n word run_id) as [[g1 g2]|] eqn:E; auto.
  exfalso. apply H. eapply date_re_sound; eauto.
Qed.

(** C7.  A run identifier that matches neither the pattern with a six-digit
    date nor the one with an eight-digit date is rejected with the
    [ValueError] that describes both accepted formats; no result is
    returned for it. *)
Theorem parse_illumina_run_id_rejects (run_id : string) :
  ~ matches_date_pattern 6 Char.is_word run_id ->
  ~ matches_date_pattern 8 word8 run_id ->
  parse_illumina_run_id run_id = Raise (unrecognized_run_id run_id)
  /\ forall out, parse_illumina_run_id run_id <> Ok out.
Proof.
  intros H6 H8.
  assert (E : parse_illumina_run_id run_id = Raise (unrecognized_run_id run_id)).
  { unfold parse_illumina_run_id, matches6, matches8.
    now rewrite (date_re_none _ _ _ H6), (date_re_none _ _ _ H8). }
  split; [exact E|]. intros out. rewrite E. discriminate.
Qed.

Lemma date_re_matches (n : nat) (word : ascii -> bool) (run_id : string) :
  matches_date_pattern n word run_id -> date_re n word run_id <> None.
Proof.
  intros (date & token & rest & -> & Hlen & Hdig & _).
  rewrite date_re_complete by assumption. discriminate.
Qed.

Lemma parse_illumina_run_id_rejects_witness :
  parse_illumina_run_id "run_200318"
  = Raise (unrecognized_run_id "run_200318")
  /\ forall out, parse_illumina_run_id "run_200318" <> Ok out.
Proof.
  apply parse_illumina_run_id_rejects;
    intros H; apply date_re_matches in H; apply H; reflexivity.
Defined.

(** *** Six-digit dates *)

Lemma decimal_cases (c : ascii) :
  Char.is_decimal c = true -> In c decimal_chars.
Proof.
  destruct c as [[] [] [] [] [] [] [] []]; cbv; intros H;
    try discriminate H; auto 12.
Qed.

Lemma forall_decimal (P : ascii -> bool) :
  forallb P decimal_chars = true ->
  forall c, Char.is_decimal c = true -> P c = true.
Proof.
  intros H c Hc. rewrite forallb_forall in H. apply H, decimal_cases, Hc.
Qed.

(** The first reading of month and day on four digits that spell a month
    from 01 to 12 and a day from 01 to 31 takes two digits for each. *)
Lemma read_month_day_digits (c d e f : ascii) :
  Char.is_decimal c = true -> Char.is_decimal d = true ->
  Char.is_decimal e = true -> Char.is_decimal f = true ->
  1 <= Str.to_nat (two c d) <= 12 ->
  1 <= Str.to_nat (two e f) <= 31 ->
  hd_error (Datetime.read_month_day (String c (String d (two e f))))
  = Some (Str.to_nat (two c d), Str.to_nat (two e f), EmptyString).
Proof.
  intros Hc Hd He Hf Hm Hday.
  pose (ok := fun c d e f =>
    let m := Str.to_nat (two c d) in
    let dd := Str.to_nat (two e f) in
    implb ((1 <=? m) && (m <=? 12) && (1 <=? dd) && (dd <=? 31))
      match hd_error (Datetime.read_month_day (String c (String d (two e f)))) with
      | Some (m', d', r) => (m' =? m) && (d' =? dd) && Str.is_empty r
      | None => false
      end).
  assert (A : forallb (fun c => forallb (fun d => forallb (fun e =>
                forallb (fun f => ok c d e f) decimal_chars) decimal_chars)
                decimal_chars) decimal_chars = true) by (vm_compute; reflexivity).
  pose proof (forall_decimal _ (forall_decimal _ (forall_decimal _
                (forall_decimal _ A c Hc) d Hd) e He) f Hf) as B.
  unfold ok in B; cbv zeta in B.
  replace ((1 <=? Str.to_nat (two c d)) && (Str.to_nat (two c d) <=? 12)
           && (1 <=? Str.to_nat (two e f)) && (Str.to_nat (two e f) <=? 31))
    with true in B.
  2:{ symmetry. rewrite !andb_true_iff, !Nat.leb_le. lia. }
  simpl implb in B.
  destruct (hd_error _) as [[[m' d'] r]|]; [|discriminate].
  rewrite !andb_true_iff, !Nat.eqb_eq in B. destruct B as [[-> ->] Hr].
  destruct r; [reflexivity | discriminate].
Qed.

(** Two digits give a year of four places with the century of the pivot,
    and the month and day print back as they were read. *)
Lemma year_digits (a b : ascii) :
  Char.is_decimal a = true -> Char.is_decimal b = true ->
  Str.of_nat (pivot_year (Str.to_nat (two a b)))
  = ((if (Str.to_nat (two a b) <=? 68)%nat then "20" else "19") ++ two a b)%string
  /\ Datetime.is_leap (pivot_year (Str.to_nat (two a b)))
     = Datetime.is_leap (2000 + Str.to_nat (two a b)).
Proof.
  intros Ha Hb.
  pose (ok := fun a b =>
    let n := Str.to_nat (two a b) in
    String.eqb (Str.of_nat (pivot_year n))
               ((if n <=? 68 then "20" else "19") ++ two a b)
    && Bool.eqb (Datetime.is_leap (pivot_year n)) (Datetime.is_leap (2000 + n))).
  assert (A : forallb (fun a => forallb (fun b => ok a b) decimal_chars)
                      decimal_chars = true) by (vm_compute; reflexivity).
  pose proof (forall_decimal _ (forall_decimal _ A a Ha) b Hb) as B.
  unfold ok in B; cbv zeta in B.
  apply andb_true_iff in B. destruct B as [B1 B2].
  apply String.eqb_eq in B1. apply Bool.eqb_prop in B2. now split.
Qed.

Lemma two_digits_print (a b : ascii) :
  Char.is_decimal a = true -> Char.is_decimal b = true ->
  Str.of_nat_2 (Str.to_nat (two a b)) = two a b.
Proof.
  intros Ha Hb.
  assert (A : forallb (fun a => forallb (fun b =>
                String.eqb (Str.of_nat_2 (Str.to_nat (two a b))) (two a b))
                decimal_chars) decimal_chars = true) by (vm_compute; reflexivity).
  pose proof (forall_decimal _ (forall_decimal _ A a Ha) b Hb) as B.
  now apply String.eqb_eq in B.
Qed.

Lemma days_in_month_le_31 (y m : nat) : Datetime.days_in_month y m <= 31.
Proof.
  unfold Datetime.days_in_month.
  do 12 (destruct m as [|m]; [try lia; destruct (Datetime.is_leap y); lia|]). lia.
Qed.

Lemma days_in_month_leap (y y' m : nat) :
  Datetime.is_leap y = Datetime.is_leap y' ->
  Datetime.days_in_month y m = Datetime.days_in_month y' m.
Proof. intros H. unfold Datetime.days_in_month. now rewrite H. Qed.

Lemma six_chars (date : string) :
  Str.len date = 6 ->
  exists a b c d e f, date = String a (String b (String c (String d (two e f)))).
Proof.
  intros H.
  do 6 (destruct date as [|? date]; [discriminate H|]).
  destruct date; [|discriminate H]. unfold two. eauto 7.
Qed.

(** What [strptime] and [strftime] make of a calendar-valid six-digit
    date. *)
Lemma strptime_six_digits (date : string) :
  Str.len date = 6 ->
  Str.all Char.is_decimal date = true ->
  calendar_valid date = true ->
  exists dt, Datetime.strptime Datetime.fmt_y_m_d date = Ok dt
             /\ Datetime.strftime dt = date_pivot date.
Proof.
  intros Hlen Hdig Hval.
  destruct (six_chars date Hlen) as (a & b & c & d & e & f & ->).
  cbn [Str.all two] in Hdig. rewrite !andb_true_iff in Hdig.
  destruct Hdig as (Ha & Hb & Hc & Hd & He & Hf & _).
  unfold calendar_valid in Hval.
  change (yy_of _) with (two a b) in Hval.
  change (mm_of _) with (two c d) in Hval.
  change (dd_of _) with (two e f) in Hval.
  cbv zeta in Hval. rewrite !andb_true_iff, !Nat.leb_le in Hval.
  destruct Hval as [[[Hm1 Hm2] Hd1] Hd2].
  pose proof (days_in_month_le_31 (2000 + Str.to_nat (two a b)) (Str.to_nat (two c d))) as H31.
  destruct (year_digits a b Ha Hb) as [Hy Hleap].
  exists (Datetime.mkdate (pivot_year (Str.to_nat (two a b)))
                          (Str.to_nat (two c d)) (Str.to_nat (two e f))).
  split.
  - unfold Datetime.strptime, Datetime.read_year.
    change (Str.take 2 _) with (two a b).
    change (Str.drop 2 _) with (String c (String d (two e f))).
    replace (Str.all Char.is_decimal (two a b)) with true
      by (cbn [Str.all two]; now rewrite Ha, Hb).
    cbn [Str.len String.length two Nat.eqb andb].
    rewrite read_month_day_digits by (auto; lia).
    cbn [Str.is_empty negb].
    change (if Str.to_nat (two a b) <=? 68
            then Str.to_nat (two a b) + 2000 else Str.to_nat (two a b) + 1900)
      with (pivot_year (Str.to_nat (two a b))).
    replace (pivot_year (Str.to_nat (two a b)) =? 0) with false
      by (symmetry; apply Nat.eqb_neq; unfold pivot_year;
          destruct (_ <=? 68); lia).
    rewrite (days_in_month_leap _ (2000 + Str.to_nat (two a b)) _ Hleap).
    replace (_ <? _) with false by (symmetry; apply Nat.ltb_ge; lia).
    reflexivity.
  - unfold Datetime.strftime, date_pivot.
    cbn [Datetime.year Datetime.month Datetime.day].
    change (yy_of _) with (two a b).
    change (mm_of _) with (two c d).
    change (dd_of _) with (two e f).
    rewrite Hy, !two_digits_print by assumption.
    now rewrite app_assoc_str.
Qed.

(** C2, as the code has it.  For a run identifier made of six decimal
    digits that spell a calendar-valid date, an underscore and any text,
    the first output is the date as [YYYY-MM-DD] with the century 20 for
    the years 00 to 68 and 19 for the years 69 to 99, and the second
    output is the run of word characters that follows the underscore. *)
Theorem parse_illumina_run_id_six_digits (date rest : string) :
  Str.len date = 6 ->
  Str.all Char.is_decimal date = true ->
  calendar_valid date = true ->
  parse_illumina_run_id (date ++ String "_"%char rest)
  = Ok (date_pivot date, Str.take_while Char.is_word rest)
  /\ (Str.to_nat (yy_of date) <= 68 -> date_pivot date = date_20YY date).
Proof.
  intros Hlen Hdig Hval. split.
  - unfold parse_illumina_run_id, matches6.
    rewrite date_re_complete by assumption.
    destruct (strptime_six_digits date Hlen Hdig Hval) as (dt & -> & <-).
    reflexivity.
  - intros Hy. unfold date_pivot, date_20YY.
    apply Nat.leb_le in Hy. now rewrite Hy.
Qed.

Lemma parse_illumina_run_id_six_digits_witness :
  parse_illumina_run_id ("200318" ++ String "_"%char "A00953_0082_AH5TWYDSXY")
  = Ok (date_pivot "200318", Str.take_while Char.is_word "A00953_0082_AH5TWYDSXY")
  /\ (Str.to_nat (yy_of "200318") <= 68 -> date_pivot "200318" = date_20YY "200318").
Proof.
  apply (parse_illumina_run_id_six_digits "200318" "A00953_0082_AH5TWYDSXY");
    reflexivity.
Defined.

(** C2, as the specification states it, fails on the years from 69 on: the
    first of January of the year 99 is a calendar-valid six-digit date, and
    the parser returns 1999, not 2099. *)
Lemma parse_illumina_run_id_not_20YY :
  Str.len "990101" = 6
  /\ Str.all Char.is_decimal "990101" = true
  /\ calendar_valid "990101" = true
  /\ parse_illumina_run_id ("990101" ++ String "_"%char "M05314_0001")
     = Ok ("1999-01-01", "M05314_0001")
  /\ parse_illumina_run_id ("990101" ++ String "_"%char "M05314_0001")
     <> Ok (date_20YY "990101", Str.take_while Char.is_word "M05314_0001").
Proof. repeat split; try reflexivity. vm_compute. discriminate. Qed.

(** ** Name scrubbing *)

Section Runs.

Variable keep : ascii -> bool.
Variable repl : string.

Lemma concat_runs_runs (s : string) : concat_runs (runs keep s) = s.
Proof.
  induction s as [|c s IH]; simpl; auto.
  destruct (runs keep s) as [|[k r] rest]; simpl in *.
  - now subst.
  - destruct (Bool.eqb (keep c) k); simpl; now rewrite IH.
Qed.

Lemma runs_are_maximal (s : string) : runs_maximal keep (runs keep s).
Proof.
  induction s as [|c s IH]; simpl; auto.
  destruct (runs keep s) as [|[k r] rest]; simpl in *.
  - repeat split; try discriminate. now rewrite eqb_reflx.
  - destruct IH as (Hne & Hall & Hnext & Hrest).
    destruct (Bool.eqb (keep c) k) eqn:E; simpl.
    + repeat split; auto; try discriminate. now rewrite E.
    + repeat split; auto; try discriminate.
      * now rewrite eqb_reflx.
      * destruct (keep c), k; simpl in *; congruence.
Qed.

(** The scan and the runs: outside a run the scan renders all runs; in
    a run that was replaced it skips what is left of that run. *)
Lemma sub_runs_render (s : string) :
  sub_runs keep repl false s = render_runs repl (runs keep s)
  /\ sub_runs keep repl true s
     = match runs keep s with
       | (false, _) :: rest => render_runs repl rest
       | l => render_runs repl l
       end.
Proof.
  induction s as [|c s [IHf IHt]]; simpl; auto.
  destruct (keep c) eqn:Hc.
  - rewrite IHf.
    destruct (runs keep s) as [|[[] r] rest]; simpl; auto.
  - rewrite IHt.
    destruct (runs keep s) as [|[[] r] rest]; simpl; auto.
Qed.

Lemma sub_runs_all (p : ascii -> bool) (in_run : bool) (s : string) :
  Str.all p repl = true ->
  (forall c, keep c = true -> p c = true) ->
  Str.all p (sub_runs keep repl in_run s) = true.
Proof.
  intros Hrepl Hkeep. revert in_run.
  induction s as [|c s IH]; intros in_run; simpl; auto.
  destruct (keep c) eqn:Hc; simpl.
  - now rewrite (Hkeep c Hc), IH.
  - destruct in_run; auto. now rewrite all_app, Hrepl, IH.
Qed.

End Runs.

(** C8.  The scrubbed name has only characters of the class
    [0-9a-zA-Z\-\.]; it is the name with every maximal run of characters
    outside the class replaced by one full stop and the runs inside the
    class left as they are; and ["sample 1!"] becomes ["sample.1."]. *)
Theorem qiita_scrub_name_runs (name : string) :
  Str.all qiita_char (qiita_scrub_name name) = true
  /\ qiita_scrub_name name = render_runs "." (runs qiita_char name)
  /\ concat_runs (runs qiita_char name) = name
  /\ runs_maximal qiita_char (runs qiita_char name)
  /\ qiita_scrub_name "sample 1!" = "sample.1.".
Proof.
  repeat split.
  - apply sub_runs_all; auto.
  - apply sub_runs_render.
  - apply concat_runs_runs.
  - apply runs_are_maximal.
Qed.

(** ** Dictionaries and tables *)

Lemma get_set_same (k v : string) (d : Series) :
  Dict.get k (Dict.set k v d) = Some v.
Proof.
  induction d as [|[k' v'] d IH]; simpl.
  - now rewrite String.eqb_refl.
  - destruct (String.eqb k k') eqn:E; simpl; rewrite E; auto.
Qed.

Lemma get_set_other (k k' v : string) (d : Series) :
  k <> k' -> Dict.get k (Dict.set k' v d) = Dict.get k d.
Proof.
  intros Hne. induction d as [|[k2 v2] d IH]; simpl.
  - apply String.eqb_neq in Hne. now rewrite Hne.
  - destruct (String.eqb k' k2) eqn:E; simpl.
    + apply String.eqb_eq in E. subst k2.
      apply String.eqb_neq in Hne. now rewrite Hne.
    + now rewrite IH.
Qed.

Lemma set_unchanged (k v : string) (d : Series) :
  Dict.get k d = Some v -> Dict.set k v d = d.
Proof.
  induction d as [|[k' v'] d IH]; simpl; [discriminate|].
  destruct (String.eqb k k') eqn:E.
  - intros [= ->]. reflexivity.
  - intros H. now rewrite IH.
Qed.

Lemma mem_app_r (c : string) (l : list string) : mem c (l ++ [c]) = true.
Proof.
  unfold mem. rewrite existsb_app. simpl.
  now rewrite String.eqb_refl, orb_true_r.
Qed.

Lemma mem_add_column_same (c : string) (cols : list string) :
  mem c (Frame.add_column c cols) = true.
Proof.
  unfold Frame.add_column. destruct (mem c cols) eqn:E; auto using mem_app_r.
Qed.

Lemma mem_add_column_mono (c c' : string) (cols : list string) :
  mem c cols = true -> mem c (Frame.add_column c' cols) = true.
Proof.
  unfold Frame.add_column. intros H. destruct (mem c' cols); auto.
  unfold mem in *. rewrite existsb_app, H. reflexivity.
Qed.

Lemma add_column_present (c : string) (cols : list string) :
  mem c cols = true -> Frame.add_column c cols = cols.
Proof. unfold Frame.add_column. now intros ->. Qed.

Lemma map_id_on {A} (f : A -> A) (l : list A) :
  (forall x, In x l -> f x = x) -> List.map f l = l.
Proof.
  induction l as [|x l IH]; simpl; intros H; auto.
  rewrite H, IH; auto.
Qed.

(** Writing a value a column already holds in every row changes nothing. *)
Lemma setitem_scalar_unchanged (c v : string) (df : DataFrame) :
  Frame.has_column c df = true ->
  (forall r, In r (rows df) -> Dict.get c (snd r) = Some v) ->
  Frame.setitem_scalar c v df = df.
Proof.
  intros Hc Hrows. destruct df as [cols rs]. unfold Frame.setitem_scalar; simpl in *.
  unfold Frame.has_column in Hc; simpl in Hc.
  rewrite add_column_present by assumption. f_equal.
  apply map_id_on. intros [l s] Hin. simpl.
  now rewrite set_unchanged by (apply (Hrows _ Hin)).
Qed.

(** ** Study-specific transform *)

Lemma isdigit_not_sign (c : ascii) :
  Char.isdigit c = true ->
  Ascii.eqb c "+"%char || Ascii.eqb c "-"%char = false.
Proof.
  destruct c as [[] [] [] [] [] [] [] []]; cbv; intros H;
    try discriminate H; reflexivity.
Qed.

Lemma len_repeat (c : ascii) (n : nat) : Str.len (Str.repeat c n) = n.
Proof. induction n; simpl; auto. Qed.

Lemma zfill_enough (w : nat) (s : string) : w <= Str.len s -> Str.zfill w s = s.
Proof. intros H. unfold Str.zfill. apply Nat.leb_le in H. now rewrite H. Qed.

Lemma zero_fill_idempotent (name name' : string) :
  zero_fill name = Ok name' -> zero_fill name' = Ok name'.
Proof.
  unfold zero_fill at 1.
  destruct (negb (Str.contains "blank" (Str.lower name))) eqn:Hb.
  2:{ intros [= <-]. unfold zero_fill. now rewrite Hb. }
  destruct name as [|c s]; [discriminate|].
  destruct (Char.isdigit c) eqn:Hd.
  2:{ intros [= <-]. unfold zero_fill. now rewrite Hb, Hd. }
  intros [= <-].
  destruct (Nat.leb_spec 9 (Str.len (String c s))) as [Hlen|Hlen].
  - rewrite zfill_enough by assumption. unfold zero_fill.
    rewrite Hb, Hd. now rewrite zfill_enough.
  - assert (E : Str.zfill 9 (String c s)
                = (Str.repeat "0"%char (9 - Str.len (String c s)) ++ String c s)%string).
    { unfold Str.zfill.
      replace (9 <=? Str.len (String c s)) with false
        by (symmetry; apply Nat.leb_gt; assumption).
      now rewrite isdigit_not_sign. }
    rewrite E.
    assert (L : Str.len (Str.repeat "0"%char (9 - Str.len (String c s)) ++ String c s) = 9).
    { rewrite len_app, len_repeat. lia. }
    destruct (9 - Str.len (String c s)) as [|k] eqn:Hk; [lia|].
    unfold zero_fill.
    match goal with |- context [negb ?x] => destruct (negb x) end; [|reflexivity].
    cbn [Str.repeat String.append].
    replace (Char.isdigit "0") with true by reflexivity.
    now rewrite zfill_enough by (cbn [Str.repeat String.append] in L; lia).
Qed.

Lemma zero_fill_nonempty (c : ascii) (s : string) :
  exists name', zero_fill (String c s) = Ok name'.
Proof.
  unfold zero_fill.
  destruct (negb _); eauto. destruct (Char.isdigit c); eauto.
Qed.

Lemma apply_cells_nonempty (cells : list (option string)) :
  Forall nonempty_name cells ->
  exists filled,
    apply_cells zero_fill cells = Ok (List.map Some filled)
    /\ length filled = length cells
    /\ apply_cells zero_fill (List.map Some filled) = Ok (List.map Some filled).
Proof.
  induction 1 as [|cell cells (c & s & ->) _ (filled & E1 & L & E2)].
  - exists []. auto.
  - destruct (zero_fill_nonempty c s) as (v & Hv).
    exists (v :: filled). unfold apply_cells in *. cbn [mapM List.map res_bind].
    rewrite Hv, (zero_fill_idempotent _ _ Hv). cbn [res_bind].
    rewrite E1, E2. cbn. auto.
Qed.

Lemma apply_cells_empty_name (cells : list (option string)) :
  Forall is_text cells ->
  In (Some EmptyString) cells ->
  apply_cells zero_fill cells = Raise (IndexError "string index out of range").
Proof.
  induction 1 as [|cell cells Hcell _ IH]; intros Hin; [contradiction|].
  unfold apply_cells in *. cbn [mapM].
  destruct cell as [[|c s]|]; [reflexivity| |now elim Hcell].
  destruct (zero_fill_nonempty c s) as (v & ->). cbn [res_bind].
  destruct Hin as [Hin|Hin]; [discriminate|]. now rewrite IH.
Qed.

Section SampleNameColumn.

Lemma sample_names_setitem_scalar (c v : string) (df : DataFrame) :
  c <> "sample_name" ->
  sample_names (Frame.setitem_scalar c v df) = sample_names df.
Proof.
  intros Hne. unfold sample_names, Frame.setitem_scalar. cbn [rows].
  rewrite map_map. apply map_ext. intros [l s]. cbn [snd].
  apply get_set_other. congruence.
Qed.

Lemma has_column_setitem_scalar (c c' v : string) (df : DataFrame) :
  Frame.has_column c df = true ->
  Frame.has_column c (Frame.setitem_scalar c' v df) = true.
Proof. apply mem_add_column_mono. Qed.

Lemma has_column_setitem_scalar_same (c v : string) (df : DataFrame) :
  Frame.has_column c (Frame.setitem_scalar c v df) = true.
Proof. apply mem_add_column_same. Qed.

Lemma cells_setitem_scalar_same (c v : string) (df : DataFrame) r :
  In r (rows (Frame.setitem_scalar c v df)) -> Dict.get c (snd r) = Some v.
Proof.
  unfold Frame.setitem_scalar. cbn [rows]. rewrite in_map_iff.
  intros (r0 & <- & _). apply get_set_same.
Qed.

Lemma cells_setitem_scalar_other (c c' v v' : string) (df : DataFrame) :
  c <> c' ->
  (forall r, In r (rows df) -> Dict.get c (snd r) = Some v) ->
  forall r, In r (rows (Frame.setitem_scalar c' v' df)) ->
            Dict.get c (snd r) = Some v.
Proof.
  intros Hne H r. unfold Frame.setitem_scalar. cbn [rows]. rewrite in_map_iff.
  intros (r0 & <- & Hin). cbn [snd]. rewrite get_set_other by assumption. auto.
Qed.

Lemma setitem_cells_names (filled : list string) (df df1 : DataFrame) :
  Frame.setitem_cells "sample_name" (List.map Some filled) df = Ok df1 ->
  sample_names df1 = List.map Some filled
  /\ Frame.has_column "sample_name" df1 = true.
Proof.
  unfold Frame.setitem_cells.
  destruct (_ =? _) eqn:Hlen; [|discriminate]. intros [= <-].
  apply Nat.eqb_eq in Hlen. rewrite length_map in Hlen.
  split; [|apply mem_add_column_same].
  unfold sample_names. cbn [rows]. rewrite map_map.
  revert filled Hlen. induction (rows df) as [|r rs IH]; intros [|v filled] Hlen;
    try discriminate; cbn; auto.
  cbn in Hlen. rewrite get_set_same. f_equal. apply IH. lia.
Qed.

Lemma setitem_cells_same_names (filled : list string) (df : DataFrame) :
  Frame.has_column "sample_name" df = true ->
  sample_names df = List.map Some filled ->
  Frame.setitem_cells "sample_name" (List.map Some filled) df = Ok df.
Proof.
  intros Hcol Hnames. unfold Frame.setitem_cells.
  assert (Hlen : length (List.map Some filled) = length (rows df)).
  { rewrite <- Hnames. unfold sample_names. now rewrite length_map. }
  rewrite Hlen, Nat.eqb_refl. destruct df as [cols rs].
  unfold Frame.has_column in Hcol. cbn [columns rows] in *.
  rewrite add_column_present by assumption. do 2 f_equal.
  unfold sample_names in Hnames. cbn [rows] in Hnames.
  clear Hlen Hcol. revert filled Hnames.
  induction rs as [|[l s] rs IH]; intros [|v filled] Hnames;
    try discriminate; cbn; auto.
  cbn in Hnames. injection Hnames as Hv Hrest.
  rewrite set_unchanged by assumption. f_equal. now apply IH.
Qed.

End SampleNameColumn.

(** The constant columns of the study, written over a frame. *)
Lemma agp_constants_fixed (df : DataFrame) :
  let df' :=
    Frame.setitem_scalar "experiment_design_description"
      "samples of skin, saliva and feces and other samples from the AGP"
      (Frame.setitem_scalar "library_construction_protocol" "Knight Lab KHP"
         (Frame.setitem_scalar "center_name" "UCSDMI" df)) in
  sample_names df' = sample_names df
  /\ (Frame.has_column "sample_name" df = true ->
      Frame.has_column "sample_name" df' = true)
  /\ Frame.setitem_scalar "center_name" "UCSDMI" df' = df'
  /\ Frame.setitem_scalar "library_construction_protocol" "Knight Lab KHP" df' = df'
  /\ Frame.setitem_scalar "experiment_design_description"
       "samples of skin, saliva and feces and other samples from the AGP" df' = df'.
Proof.
  intros df'. subst df'. repeat split.
  - rewrite !sample_names_setitem_scalar by discriminate. reflexivity.
  - intros H. now repeat apply has_column_setitem_scalar.
  - apply setitem_scalar_unchanged.
    + do 2 apply has_column_setitem_scalar. apply has_column_setitem_scalar_same.
    + do 2 (apply cells_setitem_scalar_other; [discriminate|]).
      apply cells_setitem_scalar_same.
  - apply setitem_scalar_unchanged.
    + apply has_column_setitem_scalar. apply has_column_setitem_scalar_same.
    + apply cells_setitem_scalar_other; [discriminate|].
      apply cells_setitem_scalar_same.
  - apply setitem_scalar_unchanged.
    + apply has_column_setitem_scalar_same.
    + apply cells_setitem_scalar_same.
Qed.

Lemma agp_transform_unfold (frame : DataFrame) (filled : list string) :
  Frame.has_column "sample_name" frame = true ->
  apply_cells zero_fill (sample_names frame) = Ok (List.map Some filled) ->
  length filled = length (rows frame) ->
  exists frame1,
    Frame.setitem_cells "sample_name" (List.map Some filled) frame = Ok frame1
    /\ agp_transform frame "10317"
       = Ok (Frame.setitem_scalar "experiment_design_description"
               "samples of skin, saliva and feces and other samples from the AGP"
               (Frame.setitem_scalar "library_construction_protocol" "Knight Lab KHP"
                  (Frame.setitem_scalar "center_name" "UCSDMI" frame1))).
Proof.
  intros Hcol Happly Hlen.
  unfold agp_transform. cbn [String.eqb Ascii.eqb Bool.eqb].
  unfold Frame.getitem. rewrite Hcol. cbn [res_bind].
  fold (sample_names frame). rewrite Happly. cbn [res_bind].
  unfold Frame.setitem_cells. rewrite length_map, Hlen, Nat.eqb_refl.
  cbn [res_bind]. eauto.
Qed.

(** Applied to its own result, the transform of the study returns it. *)
Lemma agp_transform_twice (frame : DataFrame) :
  Frame.has_column "sample_name" frame = true ->
  Forall nonempty_name (sample_names frame) ->
  exists once,
    agp_transform frame "10317" = Ok once
    /\ agp_transform once "10317" = Ok once.
Proof.
  intros Hcol Hnames.
  destruct (apply_cells_nonempty _ Hnames) as (filled & E1 & L & E2).
  unfold sample_names in L. rewrite length_map in L.
  destruct (agp_transform_unfold frame filled Hcol E1 L) as (frame1 & Hset & Hagp).
  destruct (setitem_cells_names _ _ _ Hset) as [Hn1 Hc1].
  destruct (agp_constants_fixed frame1) as (Hn & Hc & F1 & F2 & F3).
  eexists. split; [exact Hagp|].
  match goal with |- agp_transform ?f _ = _ => set (once := f) in * end.
  assert (Hnames' : sample_names once = List.map Some filled)
    by (now rewrite Hn, Hn1).
  assert (Hlen : length filled = length (rows once)).
  { transitivity (length (sample_names once)).
    - rewrite Hnames'. now rewrite length_map.
    - unfold sample_names. now rewrite length_map. }
  assert (Happly : apply_cells zero_fill (sample_names once) = Ok (List.map Some filled))
    by (now rewrite Hnames').
  destruct (agp_transform_unfold once filled (Hc Hc1) Happly Hlen)
    as (once1 & Hset' & ->).
  rewrite setitem_cells_same_names in Hset' by auto.
  injection Hset' as <-. now rewrite F1, F2, F3.
Qed.

(** C6.  On a table whose sample names are non-empty texts the transform
    for the study 10317 returns a table on which it changes nothing more;
    for any other study identifier it returns the table it was given. *)
Theorem agp_transform_idempotent (frame : DataFrame) :
  (Frame.has_column "sample_name" frame = true ->
   Forall nonempty_name (sample_names frame) ->
   exists once,
     agp_transform frame "10317" = Ok once
     /\ agp_transform once "10317" = Ok once)
  /\ (forall study_id,
        study_id <> "10317" -> agp_transform frame study_id = Ok frame).
Proof.
  split.
  - apply agp_transform_twice.
  - intros study_id Hne. unfold agp_transform.
    apply String.eqb_neq in Hne. now rewrite Hne.
Qed.

Lemma agp_transform_idempotent_witness :
  (exists once,
     agp_transform three_samples "10317" = Ok once
     /\ agp_transform once "10317" = Ok once)
  /\ agp_transform three_samples "550" = Ok three_samples.
Proof.
  destruct (agp_transform_idempotent three_samples) as [H1 H2]. split.
  - apply H1; [reflexivity|].
    change (Forall nonempty_name [Some "12345"; Some "BLANK.1"; Some "sample.3"]).
    repeat (apply Forall_cons; [unfold nonempty_name; eauto|]). apply Forall_nil.
  - apply H2. discriminate.
Defined.

Example agp_transform_three_samples :
  option_map sample_names
    (match agp_transform three_samples "10317" with Ok f => Some f | Raise _ => None end)
  = Some [Some "000012345"; Some "BLANK.1"; Some "sample.3"].
Proof. reflexivity. Qed.

(** C10.  With the study 10317 and a text in every cell of the sample
    names, the transform returns a table exactly when every name is
    non-empty; a table with an empty name makes it raise the [IndexError]
    of the index 0 of an empty string. *)
Theorem agp_transform_total_iff_nonempty (frame : DataFrame) :
  Frame.has_column "sample_name" frame = true ->
  Forall is_text (sample_names frame) ->
  ((exists out, agp_transform frame "10317" = Ok out)
   <-> Forall nonempty_name (sample_names frame))
  /\ (In (Some EmptyString) (sample_names frame) ->
      agp_transform frame "10317"
      = Raise (IndexError "string index out of range")).
Proof.
  intros Hcol Htext.
  assert (Hraise : In (Some EmptyString) (sample_names frame) ->
                   agp_transform frame "10317"
                   = Raise (IndexError "string index out of range")).
  { intros Hin. unfold agp_transform. cbn [String.eqb Ascii.eqb Bool.eqb].
    unfold Frame.getitem. rewrite Hcol. cbn [res_bind].
    fold (sample_names frame).
    now rewrite (apply_cells_empty_name _ Htext Hin). }
  split; [split|exact Hraise].
  - intros (out & Hout).
    rewrite Forall_forall in *. intros cell Hin.
    specialize (Htext cell Hin).
    destruct cell as [[|c s]|]; [| unfold nonempty_name; eauto | now elim Htext].
    rewrite (Hraise Hin) in Hout. discriminate.
  - intros Hnames.
    destruct (agp_transform_twice frame Hcol Hnames) as (once & -> & _). eauto.
Qed.

Lemma agp_transform_total_iff_nonempty_witness :
  agp_transform unnamed_sample "10317"
  = Raise (IndexError "string index out of range").
Proof.
  refine (proj2 (agp_transform_total_iff_nonempty unnamed_sample _ _) _).
  - reflexivity.
  - change (Forall is_text [Some "12345"; Some EmptyString]).
    repeat (apply Forall_cons; [discriminate|]). apply Forall_nil.
  - right; left; reflexivity.
Defined.

(** ** File-pair locator *)

Lemma length_insert_sorted (x : string) (l : list string) :
  length (insert_sorted x l) = S (length l).
Proof.
  induction l as [|y l IH]; simpl; auto.
  destruct (Str.leb x y); simpl; auto.
Qed.

Lemma length_sorted (l : list string) : length (sorted l) = length l.
Proof.
  induction l as [|x l IH]; simpl; auto.
  now rewrite length_insert_sorted, IH.
Qed.

Lemma take_common_prefix (n : nat) (f r : string) :
  n <= Str.len (common_prefix f r) ->
  Str.take n (common_prefix f r) = Str.take n f.
Proof.
  revert f r; induction n as [|n IH]; intros [|a f] [|b r]; simpl; auto; try lia.
  destruct (Ascii.eqb a b); simpl; [|lia].
  intros H. f_equal. apply IH. unfold Str.len in *. lia.
Qed.

(** The loop stops at the end of the common prefix, if the names differ. *)
Lemma first_mismatch_common_prefix (k : nat) (f r : string) :
  Str.len f = Str.len r ->
  first_mismatch k f r
  = Ok (if String.eqb f r then None else Some (k + Str.len (common_prefix f r))).
Proof.
  revert k r; induction f as [|a f IH]; intros k [|b r] Hlen; try discriminate.
  - reflexivity.
  - cbn [first_mismatch common_prefix String.eqb].
    destruct (Ascii.eqb a b) eqn:E.
    + rewrite IH by (cbn in Hlen; unfold Str.len; congruence).
      destruct (String.eqb f r); auto. do 2 f_equal.
      unfold Str.len; simpl; lia.
    + do 2 f_equal. unfold Str.len; simpl; lia.
Qed.

Lemma run_prefix_of_names (f r : string) :
  Str.len f = Str.len r ->
  f <> r ->
  2 <= Str.len (common_prefix f r) ->
  (i <- loop_index f r ;; Ok (Some (slice_to f i)))%res
  = Ok (Some (trim 2 (common_prefix f r))).
Proof.
  intros Hlen Hne H2. unfold loop_index.
  rewrite first_mismatch_common_prefix by assumption.
  apply String.eqb_neq in Hne. rewrite Hne. cbn [res_bind Nat.add].
  unfold slice_to, trim.
  replace (_ <? 0)%Z with false by (symmetry; apply Z.ltb_ge; lia).
  replace (Z.to_nat _) with (Str.len (common_prefix f r) - 2) by lia.
  now rewrite take_common_prefix by lia.
Qed.


Section Locator.

Variable w : World.
Variables run_path project sample_id lane pipeline path : string.
Hypothesis Hpath :
  pipeline_path w (Path.join run_path project) pipeline = Ok path.

Let results := glob w (Path.join path (search_me sample_id lane)).

Lemma get_run_prefix_results (m : Mem) :
  get_run_prefix w run_path project sample_id lane pipeline m
  = (if length results =? 2 then lift (prefix_of_pair w results)
     else if 2 <? length results then
            bind (warn (too_many_matches results sample_id lane))
                 (fun _ => ret None)
          else ret None) m.
Proof.
  unfold get_run_prefix. cbv zeta. unfold bind at 1, lift at 1.
  now rewrite Hpath.
Qed.

Lemma get_run_prefix_two (forward reverse : string) (m : Mem) :
  sorted results = [forward; reverse] ->
  get_run_prefix w run_path project sample_id lane pipeline m
  = (prefix_of_pair w results, m).
Proof.
  intros Hs. rewrite get_run_prefix_results.
  assert (L : length results = 2) by (now rewrite <- length_sorted, Hs).
  now rewrite L.
Qed.

End Locator.




(** C5, as the code has it.  Once the directory of the pipeline is
    chosen, the locator returns no prefix and raises nothing when the
    search gives no file or one file, when it gives more than two (it then
    warns of the ambiguous match), and when it gives two of which the
    first in order decompresses to no byte, or the first can be opened and
    the second decompresses to no byte. *)
Theorem get_run_prefix_none
  (w : World) (run_path project sample_id lane pipeline path : string) (m : Mem) :
  pipeline_path w (Path.join run_path project) pipeline = Ok path ->
  let results := glob w (Path.join path (search_me sample_id lane)) in
  let call := get_run_prefix w run_path project sample_id lane pipeline m in
  (length results = 0 \/ length results = 1 -> call = (Ok None, m))
  /\ (2 < length results ->
      call = (Ok None,
              mkmem (table m)
                    (warnings m ++ [too_many_matches results sample_id lane])))
  /\ (forall forward reverse,
        sorted results = [forward; reverse] ->
        decompresses_to_nothing w forward
        \/ (opens w forward /\ decompresses_to_nothing w reverse) ->
        call = (Ok None, m)).
Proof.
  intros Hpath results call. subst call. repeat split.
  - intros H. rewrite (get_run_prefix_results _ _ _ _ _ _ _ Hpath). fold results.
    destruct H as [-> | ->]; reflexivity.
  - intros H. rewrite (get_run_prefix_results _ _ _ _ _ _ _ Hpath). fold results.
    replace (length results =? 2) with false by (symmetry; apply Nat.eqb_neq; lia).
    replace (2 <? length results) with true by (symmetry; apply Nat.ltb_lt; lia).
    reflexivity.
  - intros forward reverse Hsorted H.
    rewrite (get_run_prefix_two _ _ _ _ _ _ _ Hpath forward reverse) by assumption.
    fold results. unfold prefix_of_pair. rewrite Hsorted.
    unfold is_nonempty_gz_file, decompresses_to_nothing, opens in *.
    destruct H as [-> | [Ho ->]]; [reflexivity|].
    destruct (gzip_open w forward) as [[n|]|]; [| reflexivity | now elim Ho].
    cbn [res_bind]. destruct (0 <? n); reflexivity.
Qed.

Lemma get_run_prefix_none_witness :
  get_run_prefix one_project run_dir "Project_1" "SampleB" "1"
                 default_pipeline no_memory
  = (Ok None, no_memory)
  /\ get_run_prefix one_project run_dir "Project_1" "SampleD" "1"
                    default_pipeline no_memory
     = (Ok None,
        mkmem (table no_memory)
              (warnings no_memory
               ++ [too_many_matches
                     (glob one_project
                        (Path.join project_dir (search_me "SampleD" "1")))
                     "SampleD" "1"]))
  /\ get_run_prefix one_project run_dir "Project_1" "SampleC" "1"
                    default_pipeline no_memory
     = (Ok None, no_memory).
Proof.
  split; [|split].
  - refine (proj1 (get_run_prefix_none one_project run_dir "Project_1" "SampleB"
                     "1" default_pipeline project_dir no_memory eq_refl) _).
    left. reflexivity.
  - refine (proj1 (proj2 (get_run_prefix_none one_project run_dir "Project_1"
                            "SampleD" "1" default_pipeline project_dir no_memory
                            eq_refl)) _).
    vm_compute. lia.
  - refine (proj2 (proj2 (get_run_prefix_none one_project run_dir "Project_1"
                            "SampleC" "1" default_pipeline project_dir no_memory
                            eq_refl))
                  (in_project "SampleC_S3_L001_R1_001.fastq.gz")
                  (in_project "SampleC_S3_L001_R2_001.fastq.gz") eq_refl _).
    left. reflexivity.
Defined.

(** C5, as the specification states it, fails when the first of two files
    cannot be opened: the file is opened outside the [try] of the test,
    and the files are tested in order, so the call raises although the
    second file decompresses to no byte. *)
Lemma get_run_prefix_raises_on_unopened :
  sorted (glob unopened_forward (Path.join project_dir (search_me "SampleA" "1")))
  = [ in_project "SampleA_S1_L001_R1_001.fastq.gz";
      in_project "SampleA_S1_L001_R2_001.fastq.gz" ]
  /\ decompresses_to_nothing unopened_forward
                             (in_project "SampleA_S1_L001_R2_001.fastq.gz")
  /\ get_run_prefix unopened_forward run_dir "Project_1" "SampleA" "1"
                    default_pipeline no_memory
     = (Raise (OSError (in_project "SampleA_S1_L001_R1_001.fastq.gz")), no_memory).
Proof. repeat split. Qed.

(** ** The monad of the assemblers *)

Lemma bind_ok {A B} (c : M A) (k : A -> M B) (m m1 : Mem) (a : A) :
  c m = (Ok a, m1) -> bind c k m = k a m1.
Proof. unfold bind. now intros ->. Qed.

Lemma bind_inv_ok {A B} (c : M A) (k : A -> M B) (m m2 : Mem) (b : B) :
  bind c k m = (Ok b, m2) ->
  exists a m1, c m = (Ok a, m1) /\ k a m1 = (Ok b, m2).
Proof.
  unfold bind. destruct (c m) as [[a|e] m1]; [eauto | discriminate].
Qed.

Lemma lift_inv_ok {A} (r : res A) (m m1 : Mem) (a : A) :
  lift r m = (Ok a, m1) -> r = Ok a /\ m1 = m.
Proof. unfold lift. now intros [= -> ->]. Qed.

Lemma grows_refl (m : Mem) : grows m m.
Proof. split; auto. exists []. now rewrite app_nil_r. Qed.

Lemma grows_trans (a b c : Mem) : grows a b -> grows b c -> grows a c.
Proof.
  intros [T1 (x & W1)] [T2 (y & W2)]. split; [congruence|].
  exists (x ++ y). now rewrite W2, W1, app_assoc.
Qed.

Lemma quiet_ret {A} (a : A) : quiet (ret a).
Proof. intros m. apply grows_refl. Qed.

Lemma quiet_raise {A} (e : exn) : quiet (@raise A e).
Proof. intros m. apply grows_refl. Qed.

Lemma quiet_lift {A} (r : res A) : quiet (lift r).
Proof. intros m. apply grows_refl. Qed.

Lemma quiet_warn (msg : string) : quiet (warn msg).
Proof. intros m. split; simpl; eauto. Qed.

Lemma quiet_bind {A B} (c : M A) (k : A -> M B) :
  quiet c -> (forall a, quiet (k a)) -> quiet (bind c k).
Proof.
  intros Hc Hk m. unfold bind. specialize (Hc m).
  destruct (c m) as [[a|e] m1]; simpl in *; auto.
  eapply grows_trans; [exact Hc | apply Hk].
Qed.

Lemma quiet_foldM {A B} (f : B -> A -> M B) (l : list A) (acc : B) :
  (forall acc x, quiet (f acc x)) -> quiet (foldM f l acc).
Proof.
  intros Hf. revert acc. induction l as [|x l IH]; intros acc; simpl.
  - apply quiet_ret.
  - apply quiet_bind; auto.
Qed.

Lemma quiet_if {A} (b : bool) (c d : M A) :
  quiet c -> quiet d -> quiet (if b then c else d).
Proof. now destruct b. Qed.

Ltac quiet_step :=
  first [ apply quiet_ret | apply quiet_raise | apply quiet_lift
        | apply quiet_warn | apply quiet_if
        | apply quiet_bind; [|intros ?] | apply quiet_foldM; intros ? ? ].

Lemma quiet_get_run_prefix (w : World) (run_path project sample_id lane pipeline : string) :
  quiet (get_run_prefix w run_path project sample_id lane pipeline).
Proof. unfold get_run_prefix. repeat quiet_step. Qed.


Lemma quiet_check_invalid_names (names : list (option string)) :
  quiet (_check_invalid_names names).
Proof. unfold _check_invalid_names. repeat quiet_step. Qed.

Lemma quiet_finish_lane (cols : list string) (data : list Series)
      (qiita_id : string) (key : prep_key) (output : preps) :
  quiet (finish_lane cols data qiita_id key output).
Proof.
  unfold finish_lane. destruct key as [[rid project] lane].
  repeat quiet_step.
Qed.

Lemma quiet_sheet_sample w run_path pipeline run project lane data row :
  quiet (sheet_sample w run_path pipeline run project lane data row).
Proof.
  unfold sheet_sample. destruct row as [sample_id sample].
  apply quiet_bind; [apply quiet_get_run_prefix|].
  intros [p|]; repeat quiet_step.
Qed.

Lemma quiet_sheet_lane w run_path pipeline run project output group :
  quiet (sheet_lane w run_path pipeline run project output group).
Proof.
  unfold sheet_lane. destruct group as [lane lane_sheet].
  apply quiet_bind; [|intros data; apply quiet_finish_lane].
  apply quiet_foldM. intros. apply quiet_sheet_sample.
Qed.

Lemma quiet_sheet_project w run_path pipeline run output group :
  quiet (sheet_project w run_path pipeline run output group).
Proof.
  unfold sheet_project. destruct group as [project project_sheet].
  apply quiet_bind; [apply quiet_lift|]. intros lanes.
  apply quiet_foldM. intros. apply quiet_sheet_lane.
Qed.



(** ** The caller's table *)

Lemma get_remove_same (k : string) (d : Series) : Dict.get k (Dict.remove k d) = None.
Proof.
  induction d as [|[k' v'] d IH]; simpl; auto.
  destruct (String.eqb k k') eqn:E; simpl; auto. now rewrite E.
Qed.

Lemma get_remove_other (k k' : string) (d : Series) :
  k <> k' -> Dict.get k (Dict.remove k' d) = Dict.get k d.
Proof.
  intros Hne. induction d as [|[k2 v2] d IH]; simpl; auto.
  destruct (String.eqb k' k2) eqn:E; simpl.
  - apply String.eqb_eq in E. subst k2.
    apply String.eqb_neq in Hne. now rewrite Hne.
  - now rewrite IH.
Qed.

Lemma get_set_cell_same (k : string) (v : option string) (d : Series) :
  Dict.get k (Frame.set_cell k v d) = v.
Proof. destruct v; simpl; [apply get_set_same | apply get_remove_same]. Qed.

Lemma get_set_cell_other (k k' : string) (v : option string) (d : Series) :
  k <> k' -> Dict.get k (Frame.set_cell k' v d) = Dict.get k d.
Proof.
  intros H. destruct v; simpl; [now apply get_set_other | now apply get_remove_other].
Qed.


Lemma mem_filter_other (c c' : string) (cols : list string) :
  c <> c' ->
  mem c (filter (fun x => negb (String.eqb x c')) cols) = mem c cols.
Proof.
  intros Hne. unfold mem. induction cols as [|x cols IH]; simpl; auto.
  destruct (String.eqb x c') eqn:E; simpl.
  - apply String.eqb_eq in E. subst x.
    apply String.eqb_neq in Hne. now rewrite Hne.
  - now rewrite IH.
Qed.

Lemma mem_add_column_other (c c' : string) (cols : list string) :
  c <> c' -> mem c (Frame.add_column c' cols) = mem c cols.
Proof.
  intros Hne. unfold Frame.add_column. destruct (mem c' cols); auto.
  unfold mem. rewrite existsb_app. simpl.
  apply String.eqb_neq in Hne. now rewrite Hne, !orb_false_r.
Qed.

Lemma combine_map_self {A B} (f : A -> B) (l : list A) :
  combine l (List.map f l) = List.map (fun x => (x, f x)) l.
Proof. induction l as [|x l IH]; simpl; congruence. Qed.


Lemma normalize_description_keeps (m : Mem) :
  Frame.has_column "well_description" (table m) = true ->
  normalize_description m = (Ok tt, m).
Proof.
  intros H. unfold normalize_description, bind, get_table. now rewrite H.
Qed.

(** The part of [preparations_for_run] that follows its checks. *)
Lemma preparations_for_run_steps (w : World) (run_path pipeline : string) (m : Mem)
      (date code model center : string) :
  parse_illumina_run_id (Path.basename (Path.normpath run_path)) = Ok (date, code) ->
  get_model_and_center code = Ok (model, center) ->
  missing_columns REQUIRED_COLUMNS (table m) = [] ->
  preparations_for_run w run_path pipeline m
  = bind normalize_description
         (fun _ =>
            bind get_table
                 (fun sheet =>
                    bind (lift (Frame.groupby "sample_project" sheet))
                         (fun projects =>
                            foldM (sheet_project w run_path pipeline
                                     (mkrun (Path.basename (Path.normpath run_path))
                                            date center model))
                                  projects []))) m.
Proof.
  intros Hparse Hmodel Hcols. unfold preparations_for_run.
  unfold bind at 1, lift at 1. rewrite Hparse.
  unfold bind at 1, lift at 1. rewrite Hmodel.
  unfold bind at 1, get_table at 1. rewrite Hcols. reflexivity.
Qed.



Lemma mapM_length {A B} (f : A -> res B) (l : list A) (ys : list B) :
  mapM f l = Ok ys -> length ys = length l.
Proof.
  revert ys; induction l as [|x l IH]; simpl; intros ys.
  - now intros [= <-].
  - destruct (f x) as [y|e]; simpl; [|discriminate].
    destruct (mapM f l) as [ys'|e]; simpl; [|discriminate].
    intros [= <-]. simpl. f_equal. now apply IH.
Qed.

Lemma mapM_all_ok {A B} (f : A -> res B) (l : list A) :
  Forall (fun x => exists y, f x = Ok y) l -> exists ys, mapM f l = Ok ys.
Proof.
  induction 1 as [|x l (y & Hy) _ (ys & Hys)]; simpl; eauto.
  rewrite Hy, Hys. simpl. eauto.
Qed.

Lemma in_mem (x : string) (l : list string) : In x l -> mem x l = true.
Proof.
  intros H. unfold mem. apply existsb_exists. exists x.
  split; [assumption | apply String.eqb_refl].
Qed.

Lemma mem_in (x : string) (l : list string) : mem x l = true -> In x l.
Proof.
  unfold mem. intros H. apply existsb_exists in H. destruct H as (y & Hy & E).
  apply String.eqb_eq in E. now subst y.
Qed.

(** The three opening statements of the mapping-file variant, on a table
    that has rows: the sample identifiers are computed row by row. *)
Lemma prepare_mapping_file_cases (m : Mem) :
  rows (table m) <> [] ->
  prepare_mapping_file m
  = match mapM sample_id_of (rows (with_lane (table m))) with
    | Ok ids => (Ok tt, mkmem (with_sample_ids ids (table m)) (warnings m))
    | Raise e => (Raise e, mkmem (with_lane (table m)) (warnings m))
    end.
Proof.
  destruct m as [mf ws]. cbn [table warnings]. intros Hrows.
  unfold prepare_mapping_file, bind, get_table, put_table, lift.
  cbn [table warnings]. fold (with_lane mf).
  change (fun x : label * Series =>
            (name <- Frame.item "sample_name" (snd x) ;;
             Ok (Some (re_sub_outside bcl_char "_" name)))%res) with sample_id_of.
  unfold apply_rows.
  destruct (rows (with_lane mf)) as [|x l] eqn:R.
  - exfalso. apply Hrows. unfold with_lane, Frame.setitem_range_series in R.
    cbn [rows] in R. apply map_eq_nil in R.
    unfold Frame.lower_columns in R. cbn [rows] in R. now apply map_eq_nil in R.
  - destruct (mapM sample_id_of (x :: l)) as [ids|e] eqn:Hids; [|reflexivity].
    pose proof (mapM_length _ _ _ Hids) as L.
    cbn [res_bind setitem_applied]. unfold Frame.setitem_cells, with_sample_ids.
    rewrite R, L, Nat.eqb_refl. reflexivity.
Qed.

(** On a table without rows the assignment of the identifiers is given a
    copy of the table. *)
Lemma prepare_mapping_file_empty (m : Mem) :
  rows (table m) = [] ->
  prepare_mapping_file m
  = match setitem_applied "Sample_ID" (AsTable (with_lane (table m)))
                          (with_lane (table m)) with
    | Ok df => (Ok tt, mkmem df (warnings m))
    | Raise e => (Raise e, mkmem (with_lane (table m)) (warnings m))
    end.
Proof.
  destruct m as [mf ws]. cbn [table warnings]. intros Hrows.
  unfold prepare_mapping_file, bind, get_table, put_table, lift.
  cbn [table warnings]. fold (with_lane mf).
  unfold apply_rows.
  replace (rows (with_lane mf)) with (@nil (label * Series)); [reflexivity|].
  unfold with_lane, Frame.setitem_range_series, Frame.lower_columns. cbn [rows].
  now rewrite Hrows.
Qed.



Lemma sample_id_of_named (rows_ : list (label * Series)) :
  Forall (fun x => Dict.get "sample_name" (snd x) <> None) rows_ ->
  exists ids, mapM sample_id_of rows_ = Ok ids.
Proof.
  intros H. apply mapM_all_ok. eapply Forall_impl; [|exact H].
  intros [l s] Hs. unfold sample_id_of, Frame.item. cbn [snd] in *.
  destruct (Dict.get "sample_name" s); [cbn; eauto | now elim Hs].
Qed.

Lemma with_lane_named (mf : DataFrame) :
  Forall has_sample_name (rows mf) ->
  Forall (fun x => Dict.get "sample_name" (snd x) <> None) (rows (with_lane mf)).
Proof.
  intros Hall. unfold with_lane, Frame.setitem_range_series, Frame.lower_columns.
  cbn [rows]. rewrite map_map, Forall_map.
  eapply Forall_impl; [|exact Hall].
  intros [l s] Hs. unfold has_sample_name in Hs. cbn [fst snd] in *.
  now rewrite get_set_cell_other by discriminate.
Qed.

(** On a table that has rows, each with a sample name, the opening
    statements return. *)
Lemma prepare_mapping_file_named (m : Mem) :
  rows (table m) <> [] ->
  Forall has_sample_name (rows (table m)) ->
  exists ids,
    mapM sample_id_of (rows (with_lane (table m))) = Ok ids
    /\ prepare_mapping_file m
       = (Ok tt, mkmem (with_sample_ids ids (table m)) (warnings m)).
Proof.
  intros Hrows Hall.
  destruct (sample_id_of_named _ (with_lane_named _ Hall)) as (ids & Hids).
  exists ids. split; [exact Hids|].
  now rewrite prepare_mapping_file_cases, Hids.
Qed.



Lemma columns_with_lane (mf : DataFrame) :
  columns (with_lane mf)
  = Frame.add_column "lane" (List.map Str.lower (columns mf)).
Proof. reflexivity. Qed.





(** ** Mapping-file variant: the missing run prefix *)

Section NeverRaised.

Variable e : exn.

Lemma never_ret {A} (a : A) : never_raises e (ret a).
Proof. intros m. discriminate. Qed.

Lemma never_warn (msg : string) : never_raises e (warn msg).
Proof. intros m. discriminate. Qed.

Lemma never_raise {A} (e' : exn) : e' <> e -> never_raises e (@raise A e').
Proof. intros H m. cbn. congruence. Qed.

Lemma never_lift {A} (r : res A) : r <> Raise e -> never_raises e (lift r).
Proof. intros H m. exact H. Qed.

Lemma never_bind {A B} (c : M A) (k : A -> M B) :
  never_raises e c -> (forall a, never_raises e (k a)) -> never_raises e (bind c k).
Proof.
  intros Hc Hk m. unfold bind. specialize (Hc m).
  destruct (c m) as [[a|e'] m1]; cbn in *; [apply Hk|].
  intros [= ->]. now apply Hc.
Qed.

Lemma never_foldM {A B} (f : B -> A -> M B) (l : list A) (acc : B) :
  (forall acc x, never_raises e (f acc x)) -> never_raises e (foldM f l acc).
Proof.
  intros Hf. revert acc. induction l as [|x l IH]; intros acc; cbn [foldM].
  - apply never_ret.
  - apply never_bind; auto.
Qed.

Lemma never_if {A} (b : bool) (c d : M A) :
  never_raises e c -> never_raises e d -> never_raises e (if b then c else d).
Proof. now destruct b. Qed.

Lemma res_bind_spares {A B} (r : res A) (k : A -> res B) :
  r <> Raise e -> (forall a, k a <> Raise e) -> res_bind r k <> Raise e.
Proof.
  intros Hr Hk. destruct r as [a|e']; cbn; auto.
  intros [= ->]. now apply Hr.
Qed.

Lemma mapM_spares {A B} (f : A -> res B) (l : list A) :
  (forall x, f x <> Raise e) -> mapM f l <> Raise e.
Proof.
  intros Hf. induction l as [|x l IH]; cbn; [discriminate|].
  apply res_bind_spares; auto. intros y.
  apply res_bind_spares; auto. discriminate.
Qed.

End NeverRaised.

Ltac spares :=
  repeat first
    [ discriminate
    | apply res_bind_spares; [|intros ?]
    | apply mapM_spares; intros ?
    | match goal with
      | |- (if ?b then _ else _) <> _ => destruct b
      | |- match ?x with _ => _ end <> _ => destruct x
      end ].

Ltac never :=
  repeat first
    [ apply never_ret | apply never_warn
    | apply never_raise; discriminate
    | apply never_if
    | apply never_bind; [|intros ?]
    | apply never_foldM; intros ? ? ].

Lemma fill_row_spares (sample : Series) (a : list (string * field_source)) (r : Series) :
  fill_row sample a r <> Raise missing_run_prefix.
Proof.
  revert r; induction a as [|[k src] a IH]; intros r; cbn; [discriminate|].
  apply res_bind_spares; auto.
  destruct src; cbn; unfold Frame.attr, Frame.item; spares.
Qed.

Lemma agp_transform_spares (frame : DataFrame) (study_id : string) :
  agp_transform frame study_id <> Raise missing_run_prefix.
Proof.
  unfold agp_transform, Frame.getitem, apply_cells, zero_fill, Frame.setitem_cells.
  spares.
Qed.

Lemma loop_index_spares (f r : string) : loop_index f r <> Raise missing_run_prefix.
Proof.
  unfold loop_index. apply res_bind_spares; [|intros found; spares].
  generalize 0. revert r.
  induction f as [|a f IH]; intros [|b r] i; cbn; spares. apply IH.
Qed.

Lemma prefix_of_pair_spares (w : World) (results : list string) :
  prefix_of_pair w results <> Raise missing_run_prefix.
Proof.
  unfold prefix_of_pair, is_nonempty_gz_file.
  destruct (sorted results) as [|forward [|reverse [|]]]; try discriminate.
  apply res_bind_spares; [spares|]. intros ok_f.
  apply res_bind_spares; [spares|]. intros ok_r.
  destruct (ok_f && ok_r); [|discriminate].
  destruct (negb _); [discriminate|].
  apply res_bind_spares; [apply loop_index_spares | discriminate].
Qed.

Lemma never_finish_lane cols data qiita_id key output :
  never_raises missing_run_prefix (finish_lane cols data qiita_id key output).
Proof.
  unfold finish_lane. destruct key as [[rid project] lane].
  apply never_bind; [never|]. intros _.
  apply never_bind; [apply never_lift, agp_transform_spares|]. intros prep.
  apply never_bind;
    [apply never_lift; unfold Frame.getitem; spares|]. intros names.
  apply never_bind; [|intros _; never].
  unfold _check_invalid_names.
  apply never_bind; [apply never_lift; spares | intros flags; never].
Qed.

Lemma never_get_run_prefix_mf (w : World) (run_path project : string) :
  never_raises missing_run_prefix (get_run_prefix_mf w run_path project).
Proof.
  unfold get_run_prefix_mf. apply never_if; [|never].
  apply never_lift, prefix_of_pair_spares.
Qed.

Lemma never_mapping_project (w : World) (run_path : string) output group :
  never_raises missing_run_prefix (mapping_project w run_path output group).
Proof.
  unfold mapping_project. destruct group as [project project_sheet].
  apply never_if; [apply never_raise; discriminate|].
  apply never_bind; [apply never_get_run_prefix_mf|]. intros [run_prefix|].
  - apply never_bind; [apply never_lift; discriminate|]. intros run_id.
    apply never_bind; [apply never_lift; unfold Frame.groupby; spares|]. intros lanes.
    apply never_foldM. intros acc [lane lane_sheet]. unfold mapping_lane.
    apply never_bind; [apply never_lift; unfold Frame.set_index; spares|].
    intros indexed.
    apply never_bind; [|intros data; apply never_finish_lane].
    apply never_lift. unfold mapping_lane_rows. apply mapM_spares.
    intros [sample_name sample]. apply fill_row_spares.
  - intros m. cbn. discriminate.
Qed.

(** The missing-prefix [ValueError] is raised by no call. *)
Lemma never_missing_run_prefix (w : World) (run_path : string) :
  never_raises missing_run_prefix (preparations_for_run_mapping_file w run_path).
Proof.
  unfold preparations_for_run_mapping_file.
  apply never_bind.
  - unfold prepare_mapping_file, get_table, put_table.
    apply never_bind; [intros m; discriminate|]. intros mf.
    apply never_bind; [intros m; discriminate|]. intros _.
    apply never_bind; [intros m; discriminate|]. intros mf1.
    apply never_bind; [intros m; discriminate|]. intros _.
    apply never_bind; [intros m; discriminate|]. intros mf2.
    apply never_bind;
      [apply never_lift; unfold apply_rows; destruct (rows mf2); [discriminate|];
       apply res_bind_spares; [|intros ?; discriminate];
       apply mapM_spares; intros x; unfold Frame.item; spares|].
    intros ids.
    apply never_bind;
      [apply never_lift; unfold setitem_applied, Frame.getitem, Frame.setitem_cells;
       spares; destruct (Frame.has_column "Sample_ID" mf2); vm_compute; discriminate|].
    intros mf3 m. discriminate.
  - intros _. apply never_bind; [intros m; discriminate|]. intros mf.
    apply never_if; [apply never_raise; discriminate|].
    apply never_bind; [apply never_lift; unfold Frame.groupby; spares|].
    intros projects. apply never_foldM. intros. apply never_mapping_project.
Qed.

(** C1, on the code.  For a project whose name carries a study identifier
    and for which the locator of the mapping-file variant returns no
    prefix, the body of the project loop raises the [AttributeError] of
    [None.split], before the test that would raise the missing-prefix
    [ValueError]; so does the whole call on a mapping file of one sample
    in a run directory without amplicon files; and no call raises the
    missing-prefix [ValueError]. *)
Theorem mapping_file_without_prefix
  (w : World) (run_path project : string) (project_sheet : DataFrame)
  (output : preps) (m m' : Mem) :
  qiita_id_of project <> project ->
  get_run_prefix_mf w run_path project m = (Ok None, m') ->
  mapping_project w run_path output (project, project_sheet) m
  = (Raise none_has_no_split, m')
  /\ fst (preparations_for_run_mapping_file one_project run_dir
            (mkmem one_amplicon_sample []))
     = Raise none_has_no_split
  /\ (forall m0,
        fst (preparations_for_run_mapping_file w run_path m0)
        <> Raise missing_run_prefix).
Proof.
  intros Hid Hnone. repeat split.
  - unfold mapping_project. apply String.eqb_neq in Hid. rewrite Hid.
    now rewrite (bind_ok _ _ _ _ _ Hnone).
  - apply never_missing_run_prefix.
Qed.

Lemma mapping_file_without_prefix_witness :
  mapping_project one_project run_dir []
                  ("Amplicon_101", one_amplicon_sample) no_memory
  = (Raise none_has_no_split, no_memory).
Proof.
  refine (proj1 (mapping_file_without_prefix one_project run_dir "Amplicon_101"
                   one_amplicon_sample [] no_memory no_memory _ _)).
  - vm_compute. discriminate.
  - reflexivity.
Defined.

(** ** Run-sheet variant: the samples of a table *)

Lemma get_run_prefix_locate (w : World) (run_path project sample_id lane pipeline : string)
      (m : Mem) :
  fst (get_run_prefix w run_path project sample_id lane pipeline m)
  = locate w run_path pipeline project sample_id lane.
Proof.
  unfold locate, get_run_prefix, bind, lift.
  destruct (pipeline_path w _ pipeline) as [path|e]; [|reflexivity].
  destruct (length _ =? 2); [reflexivity|].
  destruct (2 <? length _); reflexivity.
Qed.

Section SheetLane.

Variable w : World.
Variables run_path pipeline : string.
Variable run : run_info.
Variables project lane : string.

Let row_of (sp : Series * string) (row : Series) : Prop :=
  sheet_row run project lane (fst sp) (snd sp) = Ok row.

(** The loop over the samples adds one record for each sample the locator
    has a prefix for, and nothing for the others. *)
Lemma sheet_samples_found (l : list (label * Series)) :
  forall (data0 data : list Series) (m m' : Mem),
    foldM (sheet_sample w run_path pipeline run project lane) l data0 m
    = (Ok data, m') ->
    exists new,
      data = data0 ++ new
      /\ Forall2 row_of (found_in w run_path pipeline project lane l) new.
Proof.
  induction l as [|[sample_id sample] l IH]; intros data0 data m m' H.
  - cbn in H. injection H as <- <-. exists []. rewrite app_nil_r. split; constructor.
  - cbn [foldM] in H. apply bind_inv_ok in H. destruct H as (data1 & m1 & Hstep & Hrest).
    unfold sheet_sample in Hstep. apply bind_inv_ok in Hstep.
    destruct Hstep as (prefix & m0 & Hloc & Hrow).
    assert (L : locate w run_path pipeline project (label_str sample_id) lane = Ok prefix)
      by (now rewrite <- (get_run_prefix_locate _ _ _ _ _ _ m), Hloc).
    destruct (IH _ _ _ _ Hrest) as (new & -> & Hnew).
    unfold found_in. cbn [flat_map fst snd]. rewrite L.
    destruct prefix as [p|].
    + apply bind_inv_ok in Hrow. destruct Hrow as (row & m2 & Hlift & Hret).
      apply lift_inv_ok in Hlift. destruct Hlift as [Hfill ->].
      injection Hret as <- <-.
      exists (row :: new). rewrite <- app_assoc. split; [reflexivity|].
      cbn [app]. constructor; assumption.
    + injection Hrow as <- <-. exists new. split; [reflexivity | assumption].
Qed.

End SheetLane.

Lemma prep_key_eqb_eq (a b : prep_key) : prep_key_eqb a b = true <-> a = b.
Proof.
  destruct a as [[a1 a2] a3], b as [[b1 b2] b3]. unfold prep_key_eqb.
  rewrite !andb_true_iff, !String.eqb_eq. split.
  - now intros [[-> ->] ->].
  - intros [= -> -> ->]. auto.
Qed.

Lemma prep_key_eqb_refl (a : prep_key) : prep_key_eqb a a = true.
Proof. now apply prep_key_eqb_eq. Qed.

Lemma output_get_set_same (k : prep_key) (v : DataFrame) (d : preps) :
  Output.get k (Output.set k v d) = Some v.
Proof.
  induction d as [|[k' v'] d IH]; simpl.
  - now rewrite prep_key_eqb_refl.
  - destruct (prep_key_eqb k k') eqn:E; simpl; rewrite E; auto.
Qed.

Lemma output_get_set_keeps (k k' : prep_key) (v : DataFrame) (d : preps) :
  Output.get k d <> None -> Output.get k (Output.set k' v d) <> None.
Proof.
  induction d as [|[k2 v2] d IH]; simpl; [congruence|].
  destruct (prep_key_eqb k' k2) eqn:E'; simpl;
    destruct (prep_key_eqb k k2) eqn:E; auto; discriminate.
Qed.

Lemma output_in_set (k key : prep_key) (v prep : DataFrame) (d : preps) :
  In (k, v) (Output.set key prep d) -> (k = key /\ v = prep) \/ In (k, v) d.
Proof.
  induction d as [|[k2 v2] d IH]; simpl.
  - intros [[= <- <-]|[]]. auto.
  - destruct (prep_key_eqb key k2) eqn:E; simpl.
    + apply prep_key_eqb_eq in E. subst k2.
      intros [[= <- <-]|H]; auto.
    + intros [H|H]; auto. destruct (IH H); auto.
Qed.

Lemma output_get_in (k : prep_key) (v : DataFrame) (d : preps) :
  Output.get k d = Some v -> In (k, v) d.
Proof.
  induction d as [|[k2 v2] d IH]; simpl; [discriminate|].
  destruct (prep_key_eqb k k2) eqn:E.
  - apply prep_key_eqb_eq in E. subst k2. intros [= ->]. auto.
  - auto.
Qed.

Lemma in_grows (x : string) (m m' : Mem) :
  grows m m' -> In x (warnings m) -> In x (warnings m').
Proof. intros [_ (extra & ->)] H. apply in_or_app. auto. Qed.

(** What the end of a lane gives when it returns. *)
Lemma finish_lane_ok (cols : list string) (data : list Series) (qiita_id : string)
      (rid project lane : string) (output out' : preps) (m m' : Mem) :
  finish_lane cols data qiita_id (rid, project, lane) output m = (Ok out', m') ->
  exists prep,
    agp_transform (Frame.of_records cols data) qiita_id = Ok prep
    /\ out' = Output.set (rid, project, lane) prep output
    /\ (data = [] -> In (no_data project lane) (warnings m')).
Proof.
  unfold finish_lane. intros H.
  apply bind_inv_ok in H. destruct H as ([] & m1 & Hwarn & H).
  apply bind_inv_ok in H. destruct H as (prep & m2 & Hagp & H).
  apply lift_inv_ok in Hagp. destruct Hagp as [Hagp ->].
  apply bind_inv_ok in H. destruct H as (names & m3 & Hnames & H).
  apply lift_inv_ok in Hnames. destruct Hnames as [Hnames ->].
  apply bind_inv_ok in H. destruct H as ([] & m4 & Hcheck & H).
  injection H as <- <-.
  exists prep. repeat split; auto.
  intros ->. cbn [length Nat.eqb] in Hwarn. unfold warn in Hwarn.
  injection Hwarn as Hm1.
  pose proof (quiet_check_invalid_names names m1) as G.
  rewrite Hcheck in G. eapply in_grows; [exact G|].
  subst m1. cbn [warnings]. apply in_or_app. right. now left.
Qed.

(** What the body of the lane loop gives when it returns. *)
Lemma sheet_lane_ok (w : World) (run_path pipeline : string) (run : run_info)
      (project lane : string) (lane_sheet : DataFrame)
      (output out' : preps) (m m' : Mem) :
  sheet_lane w run_path pipeline run project output (lane, lane_sheet) m = (Ok out', m') ->
  exists prep,
    table_of run project lane
             (found_in w run_path pipeline project lane (rows lane_sheet)) prep
    /\ out' = Output.set (run_id_of run, project, lane) prep output
    /\ (found_in w run_path pipeline project lane (rows lane_sheet) = [] ->
        In (no_data project lane) (warnings m')).
Proof.
  unfold sheet_lane, Frame.iterrows. intros H.
  apply bind_inv_ok in H. destruct H as (data & m1 & Hdata & H).
  apply sheet_samples_found in Hdata. destruct Hdata as (new & -> & Hnew).
  cbn [app] in H. apply finish_lane_ok in H.
  destruct H as (prep & Hagp & -> & Hwarn).
  exists prep. repeat split; auto.
  - exists new. auto.
  - intros E. apply Hwarn. rewrite E in Hnew. now inversion Hnew.
Qed.

(** *** Loops *)

Lemma foldM_ok_inv {A B} (f : B -> A -> M B) (I : B -> Prop) (l : list A) :
  (forall acc x m acc' m', In x l -> I acc -> f acc x m = (Ok acc', m') -> I acc') ->
  forall acc m out mf, I acc -> foldM f l acc m = (Ok out, mf) -> I out.
Proof.
  induction l as [|x l IH]; intros Hstep acc m out mf Hacc H.
  - cbn in H. now injection H as <- <-.
  - cbn [foldM] in H. apply bind_inv_ok in H. destruct H as (acc1 & m1 & H1 & H2).
    eapply IH; [| |exact H2].
    + intros. eapply Hstep; eauto. now right.
    + eapply Hstep; eauto. now left.
Qed.

Lemma foldM_ok_each {A B} (f : B -> A -> M B)
      (R : B * Mem -> B * Mem -> Prop) (l : list A) :
  (forall a, R a a) ->
  (forall a b c, R a b -> R b c -> R a c) ->
  (forall acc x m acc' m', In x l -> f acc x m = (Ok acc', m') -> R (acc, m) (acc', m')) ->
  forall acc m out mf,
    foldM f l acc m = (Ok out, mf) ->
    R (acc, m) (out, mf)
    /\ forall x, In x l ->
                 exists acc1 m1 acc2 m2,
                   f acc1 x m1 = (Ok acc2, m2) /\ R (acc2, m2) (out, mf).
Proof.
  intros Hrefl Htrans. induction l as [|x l IH]; intros Hstep acc m out mf H.
  - cbn in H. injection H as <- <-. split; [apply Hrefl | intros ? []].
  - cbn [foldM] in H. apply bind_inv_ok in H. destruct H as (acc1 & m1 & H1 & H2).
    destruct (IH (fun acc x m acc' m' Hin => Hstep acc x m acc' m' (or_intror Hin))
                 _ _ _ _ H2) as [Hr Heach].
    pose proof (Hstep _ _ _ _ _ (or_introl eq_refl) H1) as Hfirst.
    split; [eapply Htrans; eauto|].
    intros y [<-|Hin]; [|now apply Heach].
    exists acc, m, acc1, m1. auto.
Qed.

Lemma extends_refl (a : preps * Mem) : extends a a.
Proof. split; auto. Qed.

Lemma extends_trans (a b c : preps * Mem) : extends a b -> extends b c -> extends a c.
Proof. intros [H1 H2] [H3 H4]. split; auto. Qed.

(** *** Groups *)

Lemma in_insert_sorted (x y : string) (l : list string) :
  In x (insert_sorted y l) <-> x = y \/ In x l.
Proof.
  induction l as [|z l IH]; simpl; [intuition|].
  destruct (Str.leb y z); simpl; [intuition|]. rewrite IH. intuition.
Qed.

Lemma in_sorted (x : string) (l : list string) : In x (sorted l) <-> In x l.
Proof.
  induction l as [|y l IH]; simpl; [tauto|].
  rewrite in_insert_sorted, IH. intuition.
Qed.

Lemma in_distinct (x : string) (l : list string) : In x (Frame.distinct l) <-> In x l.
Proof.
  induction l as [|y l IH]; simpl; [tauto|].
  rewrite filter_In, IH, negb_true_iff, String.eqb_neq.
  destruct (string_dec x y) as [->|Hne]; intuition.
Qed.

Lemma groupby_groups (c : string) (df : DataFrame) (groups : list (string * DataFrame)) :
  Frame.groupby c df = Ok groups ->
  (forall k g, In (k, g) groups -> g = Frame.select c k df)
  /\ (forall row k, In row (rows df) -> Dict.get c (snd row) = Some k ->
                    In (k, Frame.select c k df) groups).
Proof.
  unfold Frame.groupby. destruct (Frame.has_column c df); [|discriminate].
  intros [= <-]. split.
  - intros k g H. apply in_map_iff in H. destruct H as (k' & [= <- <-] & _). reflexivity.
  - intros row k Hin Hget. apply in_map_iff. exists k. split; [reflexivity|].
    apply in_sorted, in_distinct. unfold Frame.present_values.
    apply in_flat_map. exists row. split; [assumption|]. rewrite Hget. now left.
Qed.

Lemma rows_select_twice (project lane : string) (sheet : DataFrame) :
  rows (Frame.select "lane" lane (Frame.select "sample_project" project sheet))
  = group_rows project lane sheet.
Proof.
  unfold Frame.select, group_rows, in_group, cell_is. cbn [rows].
  induction (rows sheet) as [|r rs IH]; simpl; auto.
  destruct (Dict.get "sample_project" (snd r)) as [v|]; simpl; auto.
  destruct (String.eqb v project); simpl; auto.
  destruct (Dict.get "lane" (snd r)) as [v'|]; simpl; auto.
  destruct (String.eqb v' lane); simpl; auto. now rewrite IH.
Qed.

Lemma in_rows_select (c k : string) (df : DataFrame) (row : label * Series) :
  In row (rows df) -> Dict.get c (snd row) = Some k ->
  In row (rows (Frame.select c k df)).
Proof.
  intros Hin Hget. unfold Frame.select. cbn [rows]. apply filter_In.
  split; [assumption|]. now rewrite Hget, String.eqb_refl.
Qed.

(** *** The entries of the output *)

Section SheetProjects.

Variable w : World.
Variables run_path pipeline : string.
Variable run : run_info.
Variable sheet : DataFrame.

Let entries_ok (out : preps) : Prop :=
  forall key prep, In (key, prep) out ->
                   holds_located w run_path pipeline run sheet key prep.

Lemma sheet_lane_entries (project : string) (lanes : list (string * DataFrame)) :
  Frame.groupby "lane" (Frame.select "sample_project" project sheet) = Ok lanes ->
  forall acc m out mf,
    entries_ok acc ->
    foldM (sheet_lane w run_path pipeline run project) lanes acc m = (Ok out, mf) ->
    entries_ok out.
Proof.
  intros Hlanes. apply foldM_ok_inv.
  intros acc [lane lane_sheet] m acc' m' Hin Hacc Hstep.
  apply (proj1 (groupby_groups _ _ _ Hlanes)) in Hin. subst lane_sheet.
  apply sheet_lane_ok in Hstep. destruct Hstep as (prep & Htable & -> & _).
  rewrite rows_select_twice in Htable.
  intros key prep' Hentry. apply output_in_set in Hentry.
  destruct Hentry as [[-> ->]|Hold]; [|now apply Hacc].
  split; [reflexivity | exact Htable].
Qed.

Lemma sheet_project_entries (projects : list (string * DataFrame)) :
  Frame.groupby "sample_project" sheet = Ok projects ->
  forall acc m out mf,
    entries_ok acc ->
    foldM (sheet_project w run_path pipeline run) projects acc m = (Ok out, mf) ->
    entries_ok out.
Proof.
  intros Hprojects. apply foldM_ok_inv.
  intros acc [project project_sheet] m acc' m' Hin Hacc Hstep.
  apply (proj1 (groupby_groups _ _ _ Hprojects)) in Hin. subst project_sheet.
  unfold sheet_project in Hstep. apply bind_inv_ok in Hstep.
  destruct Hstep as (lanes & m1 & Hlanes & Hfold).
  apply lift_inv_ok in Hlanes. destruct Hlanes as [Hlanes ->].
  eapply sheet_lane_entries; eauto.
Qed.

(** Every step of the loops keeps the entries and the warnings there
    are. *)
Lemma sheet_lane_extends (project : string) acc group m acc' m' :
  sheet_lane w run_path pipeline run project acc group m = (Ok acc', m') ->
  extends (acc, m) (acc', m').
Proof.
  intros H. pose proof (quiet_sheet_lane w run_path pipeline run project acc group m) as G.
  rewrite H in G. destruct group as [lane lane_sheet].
  apply sheet_lane_ok in H. destruct H as (prep & _ & -> & _).
  split; cbn [fst snd].
  - intros k. apply output_get_set_keeps.
  - intros x. now apply in_grows.
Qed.

Lemma sheet_project_extends acc group m acc' m' :
  sheet_project w run_path pipeline run acc group m = (Ok acc', m') ->
  extends (acc, m) (acc', m').
Proof.
  destruct group as [project project_sheet]. unfold sheet_project. intros H.
  apply bind_inv_ok in H. destruct H as (lanes & m1 & Hlanes & Hfold).
  apply lift_inv_ok in Hlanes. destruct Hlanes as [_ ->].
  eapply (foldM_ok_each _ extends); eauto using extends_refl, extends_trans.
  intros. eapply sheet_lane_extends; eauto.
Qed.

(** A group of the sheet has its entry, and its warning when no sample of
    it is located. *)
Lemma sheet_project_reaches (projects : list (string * DataFrame))
      (out : preps) (m mf : Mem) (row : label * Series) (project lane : string) :
  Frame.groupby "sample_project" sheet = Ok projects ->
  foldM (sheet_project w run_path pipeline run) projects [] m = (Ok out, mf) ->
  In row (rows sheet) ->
  Dict.get "sample_project" (snd row) = Some project ->
  Dict.get "lane" (snd row) = Some lane ->
  Output.get (run_id_of run, project, lane) out <> None
  /\ (located w run_path pipeline project lane sheet = [] ->
      In (no_data project lane) (warnings mf)).
Proof.
  intros Hprojects Hfold Hrow Hproject Hlane.
  pose proof (proj2 (groupby_groups _ _ _ Hprojects) _ _ Hrow Hproject) as Hin.
  destruct (foldM_ok_each _ extends _ extends_refl extends_trans
              (fun acc x m acc' m' _ => sheet_project_extends acc x m acc' m')
              _ _ _ _ Hfold) as [_ Heach].
  destruct (Heach _ Hin) as (acc1 & m1 & acc2 & m2 & Hstep & Hext).
  unfold sheet_project in Hstep. apply bind_inv_ok in Hstep.
  destruct Hstep as (lanes & m1' & Hlanes & Hfold').
  apply lift_inv_ok in Hlanes. destruct Hlanes as [Hlanes ->].
  pose proof (in_rows_select _ _ _ _ Hrow Hproject) as Hrow'.
  pose proof (proj2 (groupby_groups _ _ _ Hlanes) _ _ Hrow' Hlane) as Hin'.
  destruct (foldM_ok_each _ extends _ extends_refl extends_trans
              (fun acc x m acc' m' _ => sheet_lane_extends project acc x m acc' m')
              _ _ _ _ Hfold') as [_ Heach'].
  destruct (Heach' _ Hin') as (acc3 & m3 & acc4 & m4 & Hstep' & Hext').
  apply sheet_lane_ok in Hstep'. destruct Hstep' as (prep & _ & -> & Hwarn).
  rewrite rows_select_twice in Hwarn.
  destruct (extends_trans _ _ _ Hext' Hext) as [Hkeys Hwarns]. cbn [fst snd] in *.
  split.
  - apply Hkeys. rewrite output_get_set_same. discriminate.
  - intros Hnone. apply Hwarns. now apply Hwarn.
Qed.

End SheetProjects.

(** *** The rows of a preparation table *)

Lemma fill_row_app (sample : Series) (a b : list (string * field_source)) (r : Series) :
  fill_row sample (a ++ b) r
  = (r1 <- fill_row sample a r ;; fill_row sample b r1)%res.
Proof.
  revert r; induction a as [|[k src] a IH]; intros r; cbn; auto.
  destruct (field_value sample src); cbn; auto.
Qed.

Lemma fill_row_keeps (sample : Series) (k : string)
      (a : list (string * field_source)) (r r' : Series) :
  ~ In k (List.map fst a) ->
  fill_row sample a r = Ok r' ->
  Dict.get k r' = Dict.get k r.
Proof.
  revert r; induction a as [|[k' src] a IH]; intros r Hk H; cbn in *.
  - now injection H as <-.
  - destruct (field_value sample src) as [v|]; cbn in H; [|discriminate].
    rewrite (IH _ (fun X => Hk (or_intror X)) H).
    apply get_set_other. intros ->. apply Hk. now left.
Qed.

Lemma fill_row_lit (sample : Series) (k v : string)
      (pre post : list (string * field_source)) (r r' : Series) :
  ~ In k (List.map fst post) ->
  fill_row sample (pre ++ (k, Lit v) :: post) r = Ok r' ->
  Dict.get k r' = Some v.
Proof.
  intros Hk H. rewrite fill_row_app in H.
  destruct (fill_row sample pre r) as [r1|]; cbn in H; [|discriminate].
  rewrite (fill_row_keeps _ _ _ _ _ Hk H). apply get_set_same.
Qed.

Lemma sheet_row_prefix (run : run_info) (project lane : string)
      (sample : Series) (p : string) (row : Series) :
  sheet_row run project lane sample p = Ok row ->
  Dict.get "run_prefix" row = Some p.
Proof.
  unfold sheet_row. intros H.
  eapply (fill_row_lit sample "run_prefix" p
            (firstn 6 (sheet_assignments run project (remove_qiita_id project) lane p))
            (skipn 7 (sheet_assignments run project (remove_qiita_id project) lane p)));
    [|exact H].
  cbn. intuition discriminate.
Qed.

Lemma get_project (k : string) (cols : list string) (d : Series) :
  Dict.get k (Frame.project cols d) = if mem k cols then Dict.get k d else None.
Proof.
  unfold Frame.project, mem. induction cols as [|c cols IH]; cbn; auto.
  destruct (String.eqb k c) eqn:E; cbn.
  - apply String.eqb_eq in E. subst c.
    destruct (Dict.get k d) as [v|] eqn:G; cbn.
    + now rewrite String.eqb_refl.
    + rewrite IH. now destruct (existsb _ cols).
  - destruct (Dict.get c d) as [v|]; cbn; [rewrite E|]; apply IH.
Qed.

Lemma map_snd_number_from (i : nat) (data : list Series) :
  List.map snd (Frame.number_from i data) = data.
Proof. revert i; induction data as [|d data IH]; intros i; cbn; congruence. Qed.

Lemma cells_of_records (k : string) (cols : list string) (data : list Series) :
  mem k cols = true ->
  Frame.getitem k (Frame.of_records cols data)
  = Ok (List.map (Dict.get k) data).
Proof.
  intros Hk. unfold Frame.getitem, Frame.has_column, Frame.of_records.
  cbn [columns rows]. rewrite Hk. f_equal.
  rewrite <- (map_map snd (Dict.get k)), map_snd_number_from, map_map.
  apply map_ext. intros d. now rewrite get_project, Hk.
Qed.

Lemma rows_of_records (cols : list string) (data : list Series) :
  length (rows (Frame.of_records cols data)) = length data.
Proof.
  unfold Frame.of_records. cbn [rows].
  rewrite <- (length_map snd), map_snd_number_from. apply length_map.
Qed.

Lemma getitem_setitem_scalar (k c v : string) (df : DataFrame) :
  k <> c -> Frame.has_column k df = true ->
  Frame.getitem k (Frame.setitem_scalar c v df) = Frame.getitem k df.
Proof.
  intros Hne Hk. unfold Frame.getitem.
  rewrite has_column_setitem_scalar, Hk by assumption. f_equal.
  unfold Frame.setitem_scalar. cbn [rows]. rewrite map_map.
  apply map_ext. intros r. cbn [snd]. now apply get_set_other.
Qed.

Lemma getitem_setitem_cells (k c : string) (cells : list (option string))
      (df df1 : DataFrame) :
  k <> c -> Frame.has_column k df = true ->
  Frame.setitem_cells c cells df = Ok df1 ->
  Frame.getitem k df1 = Frame.getitem k df
  /\ Frame.has_column k df1 = true
  /\ length (rows df1) = length (rows df).
Proof.
  intros Hne Hk. unfold Frame.setitem_cells.
  destruct (_ =? _) eqn:L; [|discriminate]. intros [= <-].
  apply Nat.eqb_eq in L.
  assert (Hk1 : mem k (Frame.add_column c (columns df)) = true)
    by (now apply mem_add_column_mono).
  unfold Frame.getitem, Frame.has_column. cbn [columns rows].
  unfold Frame.has_column in Hk. rewrite Hk1, Hk.
  repeat split.
  - f_equal. rewrite map_map. revert cells L.
    induction (rows df) as [|r rs IH]; intros [|v cells] L; try discriminate; cbn; auto.
    rewrite get_set_cell_other by assumption. f_equal. apply IH. cbn in L. lia.
  - rewrite length_map, length_combine, L. apply Nat.min_id.
Qed.

(** The study transform keeps the rows and the cells of the run prefix. *)
Lemma agp_transform_keeps_prefix (frame prep : DataFrame) (study_id : string) :
  Frame.has_column "run_prefix" frame = true ->
  agp_transform frame study_id = Ok prep ->
  Frame.getitem "run_prefix" prep = Frame.getitem "run_prefix" frame
  /\ length (rows prep) = length (rows frame).
Proof.
  intros Hcol. unfold agp_transform.
  destruct (String.eqb study_id "10317"); [|now intros [= <-]].
  destruct (Frame.getitem "sample_name" frame) as [names|];
    cbn [res_bind]; [|discriminate].
  destruct (apply_cells zero_fill names) as [filled|];
    cbn [res_bind]; [|discriminate].
  destruct (Frame.setitem_cells "sample_name" filled frame) as [frame1|] eqn:H1;
    cbn [res_bind]; [|discriminate].
  intros [= <-].
  assert (Hne : "run_prefix" <> "sample_name") by discriminate.
  destruct (getitem_setitem_cells "run_prefix" "sample_name" _ _ _ Hne Hcol H1)
    as (G & C & L).
  rewrite !getitem_setitem_scalar
    by (try discriminate; repeat apply has_column_setitem_scalar; exact C).
  split; [exact G|].
  unfold Frame.setitem_scalar. cbn [rows]. now rewrite !length_map.
Qed.

Lemma table_of_prefixes (run : run_info) (project lane : string)
      (found : list (Series * string)) (prep : DataFrame) :
  table_of run project lane found prep ->
  length (rows prep) = length found
  /\ Frame.getitem "run_prefix" prep = Ok (List.map (fun sp => Some (snd sp)) found).
Proof.
  intros (data & Hrows & Hagp).
  assert (Hcol : Frame.has_column "run_prefix" (Frame.of_records PREP_COLUMNS data) = true)
    by reflexivity.
  destruct (agp_transform_keeps_prefix _ _ _ Hcol Hagp) as [G L].
  rewrite G, L, rows_of_records, cells_of_records by reflexivity.
  split; [symmetry; eapply Forall2_length; eauto|].
  f_equal. clear Hagp Hcol G L.
  induction Hrows as [|sp row found data Hrow _ IH]; cbn; auto.
  now rewrite (sheet_row_prefix _ _ _ _ _ _ Hrow), IH.
Qed.

(** *** The whole call *)

Lemma normalize_description_total (m : Mem) :
  exists m1,
    normalize_description m = (Ok tt, m1)
    /\ (forall c, c <> "description" -> c <> "well_description" ->
                  Frame.has_column c (table m1) = Frame.has_column c (table m))
    /\ List.map group_key (rows (table m1)) = List.map group_key (rows (table m)).
Proof.
  destruct (Frame.has_column "well_description" (table m)) eqn:Hwd.
  { exists m. rewrite normalize_description_keeps by assumption. auto. }
  destruct (Frame.has_column "description" (table m)) eqn:Hd.
  - destruct m as [[cols rs] ws].
    unfold Frame.has_column in *. cbn [table columns] in *.
    unfold normalize_description, bind, get_table, warn, lift, put_table, ret.
    cbn [table warnings]. unfold Frame.has_column. cbn [columns].
    rewrite Hwd. cbn [negb]. rewrite Hd.
    unfold Frame.getitem, Frame.has_column. cbn [columns rows]. rewrite Hd.
    unfold Frame.setitem_cells. cbn [rows columns].
    rewrite length_map, Nat.eqb_refl.
    unfold Frame.drop, Frame.has_column. cbn [columns rows].
    rewrite mem_add_column_mono by assumption.
    eexists. split; [reflexivity|]. cbn [table columns rows]. split.
    + intros c H1 H2. rewrite mem_filter_other by assumption.
      now apply mem_add_column_other.
    + rewrite combine_map_self, !map_map. apply map_ext.
      intros [l r]. unfold group_key. cbn [fst snd].
      now rewrite !get_remove_other, !get_set_cell_other by discriminate.
  - eexists. split; [|split].
    + unfold normalize_description, bind, get_table. rewrite Hwd, Hd.
      cbn [negb]. unfold warn, ret. reflexivity.
    + reflexivity.
    + reflexivity.
Qed.

Lemma preparations_for_run_ok (w : World) (run_path pipeline : string)
      (m mf : Mem) (out : preps) :
  preparations_for_run w run_path pipeline m = (Ok out, mf) ->
  exists date code model center m1 projects,
    parse_illumina_run_id (Path.basename (Path.normpath run_path)) = Ok (date, code)
    /\ get_model_and_center code = Ok (model, center)
    /\ normalize_description m = (Ok tt, m1)
    /\ Frame.groupby "sample_project" (table m1) = Ok projects
    /\ foldM (sheet_project w run_path pipeline
                (mkrun (Path.basename (Path.normpath run_path)) date center model))
             projects [] m1 = (Ok out, mf)
    /\ table mf = table m1.
Proof.
  unfold preparations_for_run. intros H.
  apply bind_inv_ok in H. destruct H as ([date code] & m0 & Hp & H).
  apply lift_inv_ok in Hp. destruct Hp as [Hp ->].
  apply bind_inv_ok in H. destruct H as ([model center] & m0 & Hm & H).
  apply lift_inv_ok in Hm. destruct Hm as [Hm ->].
  apply bind_inv_ok in H. destruct H as (sheet & m0 & Hs & H).
  unfold get_table in Hs. injection Hs as <- <-.
  destruct (0 <? length _); [discriminate|].
  apply bind_inv_ok in H. destruct H as ([] & m1 & Hn & H).
  apply bind_inv_ok in H. destruct H as (sheet1 & m2 & Hs1 & H).
  unfold get_table in Hs1. injection Hs1 as <- <-.
  apply bind_inv_ok in H. destruct H as (projects & m2 & Hg & H).
  apply lift_inv_ok in Hg. destruct Hg as [Hg ->].
  exists date, code, model, center, m1, projects. repeat split; auto.
  pose proof (quiet_foldM (sheet_project w run_path pipeline
                (mkrun (Path.basename (Path.normpath run_path)) date center model))
                projects [] (fun acc x => quiet_sheet_project _ _ _ _ acc x) m1) as G.
  rewrite H in G. apply G.
Qed.

Lemma foldM_all_ok {A B} (f : B -> A -> M B) (l : list A) :
  (forall acc x m, In x l -> exists acc' m', f acc x m = (Ok acc', m')) ->
  forall acc m, exists out mf, foldM f l acc m = (Ok out, mf).
Proof.
  induction l as [|x l IH]; intros Hf acc m; cbn [foldM].
  - unfold ret. eauto.
  - destruct (Hf acc x m (or_introl eq_refl)) as (acc' & m' & Hx).
    rewrite (bind_ok _ _ _ _ _ Hx). apply IH. intros. apply Hf. now right.
Qed.

Lemma finish_lane_empty (qiita_id : string) (key : prep_key) (output : preps) (m : Mem) :
  exists out' m', finish_lane PREP_COLUMNS [] qiita_id key output m = (Ok out', m').
Proof.
  destruct key as [[rid project] lane]. unfold finish_lane.
  cbn [length Nat.eqb].
  unfold bind at 1, warn at 1.
  assert (A : exists prep,
             agp_transform (Frame.of_records PREP_COLUMNS []) qiita_id = Ok prep
             /\ Frame.getitem "sample_name" prep = Ok []).
  { unfold agp_transform. destruct (String.eqb qiita_id "10317"); eexists; split;
      reflexivity. }
  destruct A as (prep & Hagp & Hnames).
  unfold bind at 1, lift at 1. rewrite Hagp.
  unfold bind at 1, lift at 1. rewrite Hnames.
  cbn. unfold ret. eauto.
Qed.

Lemma sheet_samples_none (w : World) (run_path pipeline : string) (run : run_info)
      (project lane : string) (l : list (label * Series)) :
  (forall row, In row l ->
               locate w run_path pipeline project (label_str (fst row)) lane = Ok None) ->
  forall data m,
    exists m',
      foldM (sheet_sample w run_path pipeline run project lane) l data m
      = (Ok data, m').
Proof.
  induction l as [|[sample_id sample] l IH]; intros Hnone data m; cbn [foldM].
  - unfold ret. eauto.
  - pose proof (get_run_prefix_locate w run_path project (label_str sample_id)
                  lane pipeline m) as L.
    pose proof (Hnone (sample_id, sample) (or_introl eq_refl)) as N.
    cbn [fst] in N. rewrite N in L.
    unfold sheet_sample at 1.
    destruct (get_run_prefix w run_path project (label_str sample_id) lane pipeline m)
      as [r m'] eqn:E.
    cbn in L. subst r.
    unfold bind at 1. unfold bind at 1. rewrite E. unfold ret at 1.
    apply IH. intros row Hin. apply Hnone. now right.
Qed.

Section NothingLocated.

Variable w : World.
Variables run_path pipeline : string.
Variable run : run_info.
Variable sheet : DataFrame.

Hypothesis Hnone :
  forall row project lane,
    In row (rows sheet) ->
    Dict.get "sample_project" (snd row) = Some project ->
    Dict.get "lane" (snd row) = Some lane ->
    locate w run_path pipeline project (label_str (fst row)) lane = Ok None.

Lemma group_rows_none (project lane : string) (row : label * Series) :
  In row (group_rows project lane sheet) ->
  locate w run_path pipeline project (label_str (fst row)) lane = Ok None.
Proof.
  unfold group_rows, in_group, cell_is. intros H. apply filter_In in H.
  destruct H as [Hin Hb]. apply andb_true_iff in Hb. destruct Hb as [Hp Hl].
  destruct (Dict.get "sample_project" (snd row)) as [p|] eqn:Ep; [|discriminate].
  destruct (Dict.get "lane" (snd row)) as [l|] eqn:El; [|discriminate].
  apply String.eqb_eq in Hp, Hl. subst p l. now apply Hnone.
Qed.

Lemma sheet_project_none (projects : list (string * DataFrame)) :
  Frame.has_column "lane" sheet = true ->
  Frame.groupby "sample_project" sheet = Ok projects ->
  forall acc m,
    exists out mf,
      foldM (sheet_project w run_path pipeline run) projects acc m = (Ok out, mf).
Proof.
  intros Hlane Hprojects. apply foldM_all_ok.
  intros acc [project project_sheet] m Hin.
  apply (proj1 (groupby_groups _ _ _ Hprojects)) in Hin. subst project_sheet.
  unfold sheet_project.
  destruct (Frame.groupby "lane" (Frame.select "sample_project" project sheet))
    as [lanes|] eqn:Hlanes.
  2:{ unfold Frame.groupby, Frame.has_column in Hlanes. cbn [Frame.select columns] in Hlanes.
      unfold Frame.has_column in Hlane. rewrite Hlane in Hlanes. discriminate. }
  unfold bind at 1, lift at 1.
  apply foldM_all_ok. intros acc' [lane lane_sheet] m' Hin.
  apply (proj1 (groupby_groups _ _ _ Hlanes)) in Hin. subst lane_sheet.
  unfold sheet_lane, Frame.iterrows. rewrite rows_select_twice.
  destruct (sheet_samples_none w run_path pipeline run project lane
              (group_rows project lane sheet) (group_rows_none project lane) [] m')
    as (m2 & Hdata).
  rewrite (bind_ok _ _ _ _ _ Hdata). apply finish_lane_empty.
Qed.

End NothingLocated.

(** C3.  When [preparations_for_run] returns, every table of its output
    is under the run identifier of the path and holds exactly the samples
    of its project and lane for which the locator returned a prefix, each
    row with that prefix; a sample without a prefix has no row.  Every
    project and lane of the sheet has its table, and when none of its
    samples is located the table is empty and the call has warned that the
    group has no data.  A sample without a prefix raises nothing: the body
    of the sample loop returns the records it was given; and a sheet none
    of whose samples is located does not make the call fail: once the
    checks of the run identifier, the instrument and the columns pass, the
    call returns. *)
Theorem preparations_for_run_only_located
  (w : World) (run_path pipeline : string) (m : Mem) :
  (forall out mf,
     preparations_for_run w run_path pipeline m = (Ok out, mf) ->
     (forall rid project lane prep,
        Output.get (rid, project, lane) out = Some prep ->
        rid = Path.basename (Path.normpath run_path)
        /\ (exists run,
              table_of run project lane
                       (located w run_path pipeline project lane (table mf)) prep)
        /\ length (rows prep)
           = length (located w run_path pipeline project lane (table mf))
        /\ Frame.getitem "run_prefix" prep
           = Ok (List.map (fun sp => Some (snd sp))
                          (located w run_path pipeline project lane (table mf))))
     /\ (forall row project lane,
           In row (rows (table mf)) ->
           Dict.get "sample_project" (snd row) = Some project ->
           Dict.get "lane" (snd row) = Some lane ->
           exists prep,
             Output.get (Path.basename (Path.normpath run_path), project, lane) out
             = Some prep
             /\ (located w run_path pipeline project lane (table mf) = [] ->
                 rows prep = []
                 /\ In (no_data project lane) (warnings mf))))
  /\ (forall date code model center,
        parse_illumina_run_id (Path.basename (Path.normpath run_path)) = Ok (date, code) ->
        get_model_and_center code = Ok (model, center) ->
        missing_columns REQUIRED_COLUMNS (table m) = [] ->
        Frame.has_column "sample_project" (table m) = true ->
        Frame.has_column "lane" (table m) = true ->
        (forall row project lane,
           In row (rows (table m)) ->
           Dict.get "sample_project" (snd row) = Some project ->
           Dict.get "lane" (snd row) = Some lane ->
           locate w run_path pipeline project (label_str (fst row)) lane = Ok None) ->
        exists out mf, preparations_for_run w run_path pipeline m = (Ok out, mf))
  /\ (forall run project lane data sample_id sample m0,
        locate w run_path pipeline project (label_str sample_id) lane = Ok None ->
        exists m',
          sheet_sample w run_path pipeline run project lane data
                       (sample_id, sample) m0 = (Ok data, m')
          /\ table m' = table m0).
Proof.
  split; [|split].
  - intros out mf H.
    destruct (preparations_for_run_ok _ _ _ _ _ _ H)
      as (date & code & model & center & m1 & projects & _ & _ & _ & Hg & Hfold & Ht).
    rewrite Ht.
    set (run := mkrun (Path.basename (Path.normpath run_path)) date center model) in *.
    assert (Hentries : forall key prep,
               In (key, prep) out ->
               holds_located w run_path pipeline run (table m1) key prep).
    { eapply (sheet_project_entries w run_path pipeline run (table m1) projects Hg);
        [|exact Hfold]. intros ? ? []. }
    assert (Hget : forall rid project lane prep,
               Output.get (rid, project, lane) out = Some prep ->
               rid = Path.basename (Path.normpath run_path)
               /\ table_of run project lane
                    (located w run_path pipeline project lane (table m1)) prep).
    { intros rid project lane prep Hk. apply output_get_in in Hk.
      apply Hentries in Hk. exact Hk. }
    split.
    + intros rid project lane prep Hk.
      destruct (Hget _ _ _ _ Hk) as [-> Htable].
      destruct (table_of_prefixes _ _ _ _ _ Htable) as [L G].
      repeat split; eauto.
    + intros row project lane Hrow Hp Hl.
      destruct (sheet_project_reaches w run_path pipeline run (table m1) projects
                  out m1 mf row project lane Hg Hfold Hrow Hp Hl) as [Hsome Hwarn].
      destruct (Output.get _ out) as [prep|] eqn:Hk; [|now elim Hsome].
      exists prep. split; [reflexivity|]. intros Hnone. split; [|now apply Hwarn].
      destruct (Hget _ _ _ _ Hk) as [_ Htable].
      destruct (table_of_prefixes _ _ _ _ _ Htable) as [L _].
      rewrite Hnone in L. now apply length_zero_iff_nil.
  - intros date code model center Hparse Hmodel Hcols Hsp Hlane Hnone.
    rewrite (preparations_for_run_steps _ _ _ _ _ _ _ _ Hparse Hmodel Hcols).
    destruct (normalize_description_total m) as (m1 & Hn & Hcolumns & Hkeys).
    rewrite (bind_ok _ _ _ _ _ Hn). unfold bind at 1, get_table at 1.
    assert (Hsp1 : Frame.has_column "sample_project" (table m1) = true)
      by (rewrite Hcolumns by discriminate; exact Hsp).
    assert (Hlane1 : Frame.has_column "lane" (table m1) = true)
      by (rewrite Hcolumns by discriminate; exact Hlane).
    destruct (Frame.groupby "sample_project" (table m1)) as [projects|] eqn:Hg.
    2:{ unfold Frame.groupby in Hg. rewrite Hsp1 in Hg. discriminate. }
    unfold bind at 1, lift at 1.
    assert (Hnone1 : forall row project lane,
               In row (rows (table m1)) ->
               Dict.get "sample_project" (snd row) = Some project ->
               Dict.get "lane" (snd row) = Some lane ->
               locate w run_path pipeline project (label_str (fst row)) lane = Ok None).
    { intros row' project lane Hin Hp Hl.
      assert (Hk : In (group_key row') (List.map group_key (rows (table m))))
        by (rewrite <- Hkeys; now apply in_map).
      apply in_map_iff in Hk. destruct Hk as (row & Hkey & Hrow).
      unfold group_key in Hkey. injection Hkey as Hf Hp' Hl'.
      rewrite <- Hf. apply Hnone; auto; congruence. }
    apply (sheet_project_none w run_path pipeline _ (table m1) Hnone1 projects Hlane1 Hg).
  - intros run project lane data sample_id sample m0 Hnone.
    destruct (sheet_samples_none w run_path pipeline run project lane
                [(sample_id, sample)]) with (data := data) (m := m0) as (m' & H).
    { intros row [<-|[]]. exact Hnone. }
    cbn [foldM] in H. apply bind_inv_ok in H. destruct H as (data' & m1 & H & Hret).
    injection Hret as -> ->. exists m'. split; [exact H|].
    pose proof (quiet_sheet_sample w run_path pipeline run project lane data
                  (sample_id, sample) m0) as G.
    rewrite H in G. apply G.
Qed.

Lemma preparations_for_run_only_located_witness :
  run_sheet_call = (Ok run_sheet_output, snd run_sheet_call)
  /\ (exists prep,
        Output.get ("200318_A00953_0082_AH5TWYDSXY", "Project_1", "1")
                   run_sheet_output = Some prep
        /\ length (rows prep) = 1
        /\ Frame.getitem "run_prefix" prep = Ok [Some "SampleA_S1_L001"])
  /\ (exists prep,
        Output.get ("200318_A00953_0082_AH5TWYDSXY", "Other_2", "1")
                   run_sheet_output = Some prep
        /\ rows prep = []
        /\ In (no_data "Other_2" "1") (warnings (snd run_sheet_call)))
  /\ (exists out mf,
        preparations_for_run empty_run run_dir default_pipeline
                             (mkmem unlocated_samples []) = (Ok out, mf)).
Proof.
  assert (E : run_sheet_call = (Ok run_sheet_output, snd run_sheet_call))
    by (vm_compute; reflexivity).
  destruct (proj1 (preparations_for_run_only_located one_project run_dir
                     default_pipeline (mkmem run_sheet []))
                  _ _ E) as [Hrows Hgroups].
  split; [exact E|]. split; [|split].
  - destruct (Hgroups (nth 0 (rows (table (snd run_sheet_call))) (LInt 0, []))
                       "Project_1" "1") as (prep & Hk & _);
      [vm_compute; left; reflexivity | reflexivity | reflexivity |].
    destruct (Hrows _ _ _ _ Hk) as (_ & _ & L & G).
    exists prep. split; [exact Hk|]. split.
    + rewrite L. reflexivity.
    + rewrite G. reflexivity.
  - destruct (Hgroups (nth 4 (rows (table (snd run_sheet_call))) (LInt 0, []))
                       "Other_2" "1") as (prep & Hk & Hempty);
      [vm_compute; do 4 right; left; reflexivity | reflexivity | reflexivity |].
    exists prep. split; [exact Hk|]. apply Hempty. reflexivity.
  - apply (proj1 (proj2 (preparations_for_run_only_located empty_run run_dir
                           default_pipeline (mkmem unlocated_samples [])))
                 "2020-03-18" "A00953_0082_AH5TWYDSXY"
                 "Illumina NovaSeq 6000" "IGM"); reflexivity.
Defined.

Example run_sheet_tables :
  List.map (fun kv => (fst kv, sample_names (snd kv))) run_sheet_output
  = [ (("200318_A00953_0082_AH5TWYDSXY", "Other_2", "1"), []);
      (("200318_A00953_0082_AH5TWYDSXY", "Project_1", "1"), [Some "SampleA"]) ].
Proof. reflexivity. Qed.

(** * Further properties of the code *)

(** ** Run-ID parser: eight-digit dates and impossible dates *)

Lemma four_digits_print (a b c d : ascii) :
  Char.is_decimal a = true -> Char.is_decimal b = true ->
  Char.is_decimal c = true -> Char.is_decimal d = true ->
  1 <= Str.to_nat (four a b c d) ->
  Str.of_nat (Str.to_nat (four a b c d)) = Str.drop_while is_zero (four a b c d)
  /\ (1000 <= Str.to_nat (four a b c d) ->
      Str.drop_while is_zero (four a b c d) = four a b c d).
Proof.
  intros Ha Hb Hc Hd Hy.
  pose (ok := fun a b c d =>
    let n := Str.to_nat (four a b c d) in
    implb (1 <=? n)
          (String.eqb (Str.of_nat n) (Str.drop_while is_zero (four a b c d)))
    && implb (1000 <=? n)
             (String.eqb (Str.drop_while is_zero (four a b c d)) (four a b c d))).
  assert (A : forallb (fun a => forallb (fun b => forallb (fun c => forallb (fun d =>
                ok a b c d) decimal_chars) decimal_chars) decimal_chars)
                decimal_chars = true)
    by (vm_compute; reflexivity).
  pose proof (forall_decimal _ (forall_decimal _ (forall_decimal _
                (forall_decimal _ A a Ha) b Hb) c Hc) d Hd) as B.
  unfold ok in B. cbv zeta in B. apply andb_true_iff in B. destruct B as [B1 B2].
  split.
  - apply Nat.leb_le in Hy. rewrite Hy in B1. now apply String.eqb_eq in B1.
  - intros H. apply Nat.leb_le in H. rewrite H in B2. now apply String.eqb_eq in B2.
Qed.

Lemma eight_chars (date : string) :
  Str.len date = 8 ->
  exists a b c d e f g h,
    date = String a (String b (String c (String d (four e f g h)))).
Proof.
  intros H.
  do 8 (destruct date as [|? date]; [discriminate H|]).
  destruct date; [|discriminate H]. unfold four, two. eauto 9.
Qed.

Lemma decimal_not_underscore (c : ascii) :
  Char.is_decimal c = true -> Ascii.eqb c "_" = false.
Proof.
  intros H. destruct (Ascii.eqb c "_") eqn:E; auto.
  apply Ascii.eqb_eq in E. subst c. discriminate H.
Qed.

(** An eight-digit date is not read by the six-digit pattern: its seventh
    character is a digit where the pattern asks for the underscore. *)
Lemma matches6_eight_digits (date rest : string) :
  Str.len date = 8 ->
  Str.all Char.is_decimal date = true ->
  matches6 (date ++ rest) = None.
Proof.
  intros Hlen Hdig.
  destruct (eight_chars date Hlen) as (a & b & c & d & e & f & g & h & ->).
  cbn [Str.all four two] in Hdig. rewrite !andb_true_iff in Hdig.
  destruct Hdig as (Ha & Hb & Hc & Hd & He & Hf & Hg & Hh & _).
  unfold matches6, date_re. cbn [four two String.append Str.take Str.drop Str.len
                                  String.length Nat.eqb Str.all].
  rewrite Ha, Hb, Hc, Hd, He, Hf. cbn [andb].
  now rewrite (decimal_not_underscore g Hg).
Qed.

Lemma strptime_eight_digits (date : string) :
  Str.len date = 8 ->
  Str.all Char.is_decimal date = true ->
  calendar_valid8 date = true ->
  (exists dt, Datetime.strptime Datetime.fmt_Y_m_d date = Ok dt
              /\ Datetime.strftime dt = date_Y date)
  /\ (1000 <= Str.to_nat (yyyy_of date) -> date_Y date = date_YYYY date).
Proof.
  intros Hlen Hdig Hval.
  destruct (eight_chars date Hlen) as (a & b & c & d & e & f & g & h & ->).
  cbn [Str.all four two] in Hdig. rewrite !andb_true_iff in Hdig.
  destruct Hdig as (Ha & Hb & Hc & Hd & He & Hf & Hg & Hh & _).
  unfold calendar_valid8 in Hval. unfold date_Y, date_YYYY.
  change (yyyy_of _) with (four a b c d) in *.
  change (mm8_of _) with (two e f) in *.
  change (dd8_of _) with (two g h) in *.
  cbv zeta in Hval. rewrite !andb_true_iff, !Nat.leb_le in Hval.
  destruct Hval as [[[[Hy Hm1] Hm2] Hd1] Hd2].
  destruct (four_digits_print a b c d Ha Hb Hc Hd Hy) as [Hprint Hfour].
  pose proof (days_in_month_le_31 (Str.to_nat (four a b c d)) (Str.to_nat (two e f))) as H31.
  split; [|intros H; now rewrite Hfour].
  exists (Datetime.mkdate (Str.to_nat (four a b c d))
                          (Str.to_nat (two e f)) (Str.to_nat (two g h))).
  split.
  - unfold Datetime.strptime, Datetime.read_year.
    change (Str.take 4 _) with (four a b c d).
    change (Str.drop 4 _) with (String e (String f (two g h))).
    replace (Str.all Char.is_decimal (four a b c d)) with true
      by (cbn [Str.all four two]; now rewrite Ha, Hb, Hc, Hd).
    cbn [Str.len String.length four two Nat.eqb andb].
    rewrite read_month_day_digits by (auto; lia).
    cbn [Str.is_empty negb].
    change (String a (String b (String c (String d EmptyString)))) with (four a b c d).
    replace (Str.to_nat (four a b c d) =? 0) with false
      by (symmetry; apply Nat.eqb_neq; lia).
    replace (_ <? _) with false by (symmetry; apply Nat.ltb_ge; lia).
    reflexivity.
  - unfold Datetime.strftime.
    cbn [Datetime.year Datetime.month Datetime.day].
    now rewrite Hprint, !two_digits_print by assumption.
Qed.

(** X1.  A run identifier made of eight decimal digits that spell a
    calendar-valid date [YYYYMMDD] (a year from 1 to 9999), an underscore
    and any text is read by the second pattern only.  The first output is
    the year, the month and the day joined with hyphens, the year written
    as the C library of Linux prints it, without leading zeros: that is
    [YYYY-MM-DD] for the years from 1000 on, and [999-01-01] for
    [09990101].  The second output is the run of word characters and
    hyphens that follows the underscore. *)
Theorem parse_illumina_run_id_eight_digits (date rest : string) :
  Str.len date = 8 ->
  Str.all Char.is_decimal date = true ->
  calendar_valid8 date = true ->
  parse_illumina_run_id (date ++ String "_"%char rest)
  = Ok (date_Y date, Str.take_while word8 rest)
  /\ (1000 <= Str.to_nat (yyyy_of date) -> date_Y date = date_YYYY date).
Proof.
  intros Hlen Hdig Hval. unfold parse_illumina_run_id.
  rewrite matches6_eight_digits by assumption.
  unfold matches8. rewrite date_re_complete by assumption.
  destruct (strptime_eight_digits date Hlen Hdig Hval) as [(dt & -> & <-) H].
  split; [reflexivity | exact H].
Qed.

Lemma parse_illumina_run_id_eight_digits_witness :
  (parse_illumina_run_id ("20220303" ++ String "_"%char "FS10001773_6_BRB11606-1914")
   = Ok ("2022-03-03", "FS10001773_6_BRB11606-1914"))
  /\ (parse_illumina_run_id ("09990101" ++ String "_"%char "M05314_0001")
      = Ok ("999-01-01", "M05314_0001")).
Proof.
  split.
  - apply (parse_illumina_run_id_eight_digits "20220303" "FS10001773_6_BRB11606-1914");
      reflexivity.
  - apply (parse_illumina_run_id_eight_digits "09990101" "M05314_0001"); reflexivity.
Defined.

(** Every reading of month and day that uses up four digits takes two of
    them for a month from 1 to 12 and two for a day from 1 on. *)
Lemma read_month_day_exact (c d e f : ascii) (m' d' : nat) :
  Char.is_decimal c = true -> Char.is_decimal d = true ->
  Char.is_decimal e = true -> Char.is_decimal f = true ->
  hd_error (Datetime.read_month_day (String c (String d (two e f))))
  = Some (m', d', EmptyString) ->
  m' = Str.to_nat (two c d) /\ d' = Str.to_nat (two e f)
  /\ 1 <= m' <= 12 /\ 1 <= d'.
Proof.
  intros Hc Hd He Hf.
  pose (ok := fun c d e f =>
    match hd_error (Datetime.read_month_day (String c (String d (two e f)))) with
    | Some (m', d', r) =>
        implb (Str.is_empty r)
              ((m' =? Str.to_nat (two c d)) && (d' =? Str.to_nat (two e f))
               && (1 <=? m') && (m' <=? 12) && (1 <=? d'))
    | None => true
    end).
  assert (A : forallb (fun c => forallb (fun d => forallb (fun e =>
                forallb (fun f => ok c d e f) decimal_chars) decimal_chars)
                decimal_chars) decimal_chars = true) by (vm_compute; reflexivity).
  pose proof (forall_decimal _ (forall_decimal _ (forall_decimal _
                (forall_decimal _ A c Hc) d Hd) e He) f Hf) as B.
  unfold ok in B. intros E. rewrite E in B. cbn [Str.is_empty implb] in B.
  rewrite !andb_true_iff, !Nat.eqb_eq, !Nat.leb_le in B. lia.
Qed.

Lemma strptime_raises_its_own (f : Datetime.format) (s run_id : string) (e : exn) :
  Datetime.strptime f s = Raise e ->
  (exists msg, e = ValueError msg) /\ e <> unrecognized_run_id run_id.
Proof.
  unfold Datetime.strptime, Datetime.no_match, unrecognized_run_id.
  destruct (Datetime.read_year f s) as [[y rest]|].
  - destruct (hd_error _) as [[[m d] rest']|].
    + destruct (negb _); [intros [= <-]; split; [eauto | discriminate]|].
      destruct (y =? 0); [intros [= <-]; split; [eauto | discriminate]|].
      destruct (_ <? _); [intros [= <-]; split; [eauto | discriminate]|].
      discriminate.
    + intros [= <-]; split; [eauto | discriminate].
  - intros [= <-]; split; [eauto | discriminate].
Qed.

Lemma strptime_six_digits_invalid (date : string) :
  Str.len date = 6 ->
  Str.all Char.is_decimal date = true ->
  calendar_valid date = false ->
  exists e, Datetime.strptime Datetime.fmt_y_m_d date = Raise e.
Proof.
  intros Hlen Hdig Hval.
  destruct (Datetime.strptime Datetime.fmt_y_m_d date) as [dt|e] eqn:E; [|eauto].
  exfalso.
  destruct (six_chars date Hlen) as (a & b & c & d & e & f & ->).
  cbn [Str.all two] in Hdig. rewrite !andb_true_iff in Hdig.
  destruct Hdig as (Ha & Hb & Hc & Hd & He & Hf & _).
  unfold calendar_valid in Hval.
  change (yy_of _) with (two a b) in Hval.
  change (mm_of _) with (two c d) in Hval.
  change (dd_of _) with (two e f) in Hval.
  cbv zeta in Hval.
  destruct (year_digits a b Ha Hb) as [_ Hleap].
  unfold Datetime.strptime, Datetime.read_year in E.
  change (Str.take 2 _) with (two a b) in E.
  change (Str.drop 2 _) with (String c (String d (two e f))) in E.
  replace (Str.all Char.is_decimal (two a b)) with true in E
    by (cbn [Str.all two]; now rewrite Ha, Hb).
  cbn [Str.len String.length two Nat.eqb andb] in E.
  destruct (hd_error _) as [[[m' d'] r]|] eqn:Hhd; [|discriminate E].
  destruct r as [|x r]; [|discriminate E].
  destruct (read_month_day_exact c d e f m' d' Hc Hd He Hf Hhd)
    as (-> & -> & Hm & Hd1).
  cbn [Str.is_empty negb] in E.
  change (if Str.to_nat (two a b) <=? 68
          then Str.to_nat (two a b) + 2000 else Str.to_nat (two a b) + 1900)
    with (pivot_year (Str.to_nat (two a b))) in E.
  destruct (pivot_year _ =? 0); [discriminate E|].
  rewrite (days_in_month_leap _ (2000 + Str.to_nat (two a b)) _ Hleap) in E.
  destruct (_ <? _) eqn:Hlt; [discriminate E|].
  apply Nat.ltb_ge in Hlt.
  rewrite !andb_false_iff, !Nat.leb_gt in Hval. lia.
Qed.

(** X2.  A run identifier with six decimal digits before its underscore
    that do not spell a calendar-valid date is not returned a date: the
    call raises a [ValueError], the one of the date parser and not the one
    about the format of the identifier. *)
Theorem parse_illumina_run_id_invalid_date (date rest : string) :
  Str.len date = 6 ->
  Str.all Char.is_decimal date = true ->
  calendar_valid date = false ->
  exists msg,
    parse_illumina_run_id (date ++ String "_"%char rest) = Raise (ValueError msg)
    /\ ValueError msg <> unrecognized_run_id (date ++ String "_"%char rest).
Proof.
  intros Hlen Hdig Hval. unfold parse_illumina_run_id, matches6.
  rewrite date_re_complete by assumption.
  destruct (strptime_six_digits_invalid date Hlen Hdig Hval) as [e E].
  rewrite E.
  destruct (strptime_raises_its_own _ _ (date ++ String "_"%char rest) e E)
    as [[msg ->] Hne].
  exists msg. split; [reflexivity | exact Hne].
Qed.

Lemma parse_illumina_run_id_invalid_date_witness :
  exists msg,
    parse_illumina_run_id ("210230" ++ String "_"%char "A00953_0082") = Raise (ValueError msg)
    /\ ValueError msg <> unrecognized_run_id ("210230" ++ String "_"%char "A00953_0082").
Proof.
  apply (parse_illumina_run_id_invalid_date "210230" "A00953_0082"); reflexivity.
Defined.

(** ** Project names and study identifiers *)

Lemma rev_onto_app (s acc : string) :
  Str.rev_onto s acc = (Str.rev s ++ acc)%string.
Proof.
  unfold Str.rev. revert acc.
  induction s as [|c s IH]; intros acc; simpl; auto.
  rewrite IH, (IH (String c EmptyString)), app_assoc_str. reflexivity.
Qed.

Lemma rev_cons (c : ascii) (s : string) :
  Str.rev (String c s) = (Str.rev s ++ String c EmptyString)%string.
Proof. unfold Str.rev at 1. simpl. apply rev_onto_app. Qed.

Lemma app_empty_right (s : string) : (s ++ EmptyString)%string = s.
Proof. induction s as [|c s IH]; simpl; congruence. Qed.

Lemma rev_app (a b : string) :
  Str.rev (a ++ b) = (Str.rev b ++ Str.rev a)%string.
Proof.
  induction a as [|c a IH]; simpl.
  - now rewrite app_empty_right.
  - now rewrite !rev_cons, IH, app_assoc_str.
Qed.

Lemma rev_involutive (s : string) : Str.rev (Str.rev s) = s.
Proof.
  induction s as [|c s IH]; auto.
  rewrite rev_cons, rev_app, IH. reflexivity.
Qed.

Lemma all_rev (p : ascii -> bool) (s : string) :
  Str.all p (Str.rev s) = Str.all p s.
Proof.
  induction s as [|c s IH]; auto.
  rewrite rev_cons, all_app, IH. simpl.
  destruct (p c), (Str.all p s); reflexivity.
Qed.

Lemma rev_empty (s : string) : Str.rev s = EmptyString -> s = EmptyString.
Proof. intros H. rewrite <- (rev_involutive s), H. reflexivity. Qed.

Lemma all_impl (p q : ascii -> bool) (s : string) :
  (forall c, p c = true -> q c = true) ->
  Str.all p s = true -> Str.all q s = true.
Proof.
  intros Hpq. induction s as [|c s IH]; simpl; auto.
  rewrite !andb_true_iff. intros [H1 H2]. auto.
Qed.

Lemma take_while_all (p : ascii -> bool) (s : string) :
  Str.all p s = true -> Str.take_while p s = s.
Proof.
  induction s as [|c s IH]; simpl; auto.
  rewrite andb_true_iff. intros [-> H]. now rewrite IH.
Qed.

Lemma take_while_stops (p : ascii -> bool) (a b : string) (c : ascii) :
  Str.all p a = true -> p c = false ->
  Str.take_while p (a ++ String c b) = a.
Proof.
  intros Ha Hc. induction a as [|x a IH]; simpl in *.
  - now rewrite Hc.
  - apply andb_true_iff in Ha. destruct Ha as [-> Ha]. now rewrite IH.
Qed.

Lemma drop_while_stops (p : ascii -> bool) (a b : string) (c : ascii) :
  Str.all p a = true -> p c = false ->
  Str.drop_while p (a ++ String c b) = String c b.
Proof.
  intros Ha Hc. induction a as [|x a IH]; simpl in *.
  - now rewrite Hc.
  - apply andb_true_iff in Ha. destruct Ha as [-> Ha]. now rewrite IH.
Qed.

Lemma is_empty_false (s : string) : s <> EmptyString -> Str.is_empty s = false.
Proof. destruct s; [congruence | reflexivity]. Qed.

(** The pattern finds the name and the digits a project name is made of. *)
Lemma qiita_id_re_appended (name digits : string) :
  name <> EmptyString -> no_newline name -> study_digits digits ->
  qiita_id_re (name ++ String "_"%char digits) = Some (name, digits).
Proof.
  intros Hname Hnl [Hdig Hdec]. unfold qiita_id_re.
  change (name ++ String "_"%char digits)%string
    with (name ++ (String "_"%char EmptyString ++ digits))%string.
  rewrite !rev_app.
  change (Str.rev (String "_"%char EmptyString)) with (String "_"%char EmptyString).
  rewrite app_assoc_str. cbn [String.append].
  assert (Hrd : Str.all Char.is_decimal (Str.rev digits) = true)
    by now rewrite all_rev.
  assert (Hne : Str.rev digits <> EmptyString)
    by (intros E; apply Hdig; now apply rev_empty).
  destruct (Str.rev digits) as [|d0 rd] eqn:Erd; [congruence|].
  cbn [String.append].
  assert (Hd0 : Ascii.eqb d0 Char.newline = false).
  { cbn [Str.all] in Hrd. apply andb_true_iff in Hrd. destruct Hrd as [H _].
    destruct (Ascii.eqb d0 Char.newline) eqn:E; auto.
    apply Ascii.eqb_eq in E. subst d0. discriminate H. }
  rewrite Hd0.
  change (String d0 (rd ++ String "_"%char (Str.rev name)))%string
    with (String d0 rd ++ String "_"%char (Str.rev name))%string.
  rewrite take_while_stops, drop_while_stops by (auto; reflexivity).
  rewrite Ascii.eqb_refl.
  rewrite take_while_all by (unfold no_newline in Hnl; now rewrite all_rev).
  cbn [Str.is_empty negb andb].
  rewrite is_empty_false by (intros E; apply Hname; now apply rev_empty).
  cbn [negb]. rewrite <- Erd, !rev_involutive. reflexivity.
Qed.

(** On a text of one line, a match of the pattern splits the text. *)
Lemma qiita_id_re_sound (project g1 g2 : string) :
  no_newline project ->
  qiita_id_re project = Some (g1, g2) ->
  project = (g1 ++ String "_"%char g2)%string
  /\ g1 <> EmptyString /\ study_digits g2.
Proof.
  intros Hnl. unfold qiita_id_re.
  assert (Hr : Str.all not_newline (Str.rev project) = true)
    by (unfold no_newline in Hnl; now rewrite all_rev).
  assert (E0 : match Str.rev project with
               | String c r' => if Ascii.eqb c Char.newline then r' else Str.rev project
               | EmptyString => Str.rev project
               end = Str.rev project).
  { destruct (Str.rev project) as [|c r'] eqn:E; auto.
    cbn [Str.all] in Hr. apply andb_true_iff in Hr. destruct Hr as [Hc _].
    unfold not_newline in Hc. apply negb_true_iff in Hc. now rewrite Hc. }
  rewrite E0. clear E0.
  pose proof (take_while_drop_while Char.is_decimal (Str.rev project)) as Hsplit.
  destruct (Str.drop_while Char.is_decimal (Str.rev project)) as [|c before] eqn:Hdrop;
    [discriminate|].
  destruct (Ascii.eqb c "_") eqn:Hc; [|discriminate].
  apply Ascii.eqb_eq in Hc. subst c.
  destruct (Str.is_empty (Str.take_while Char.is_decimal (Str.rev project))) eqn:Hd;
    [discriminate|].
  cbn [negb andb].
  assert (Hb : Str.all not_newline before = true).
  { rewrite <- Hsplit, all_app in Hr. apply andb_true_iff in Hr.
    destruct Hr as [_ Hr]. cbn [Str.all] in Hr.
    now apply andb_true_iff in Hr. }
  assert (Hg : Str.take_while (fun x => negb (Ascii.eqb x Char.newline)) before = before)
    by now apply take_while_all.
  rewrite Hg.
  destruct (Str.is_empty before) eqn:Hbe; [discriminate|].
  intros [= <- <-].
  repeat split.
  - apply (f_equal Str.rev) in Hsplit.
    rewrite rev_involutive, rev_app, rev_cons, app_assoc_str in Hsplit.
    now symmetry.
  - intros E. apply rev_empty in E. subst before. discriminate Hbe.
  - intros E. apply rev_empty in E. rewrite E in Hd. discriminate Hd.
  - rewrite all_rev. apply all_take_while.
Qed.

Lemma starts_with_len (a b : string) :
  Str.starts_with a b = true -> Str.len a <= Str.len b.
Proof.
  revert b; induction a as [|x a IH]; intros [|y b]; simpl; try lia; try discriminate.
  rewrite andb_true_iff. intros [_ H]. specialize (IH _ H). lia.
Qed.

Lemma starts_with_all (q : ascii -> bool) (a b : string) :
  Str.starts_with a b = true -> Str.all q b = true -> Str.all q a = true.
Proof.
  revert b; induction a as [|x a IH]; intros [|y b]; simpl; auto; try discriminate.
  rewrite !andb_true_iff. intros [Hxy H] [Hy Hb].
  apply Ascii.eqb_eq in Hxy. subst y. eauto.
Qed.

Lemma starts_with_app (a b : string) : Str.starts_with a (a ++ b) = true.
Proof. induction a as [|x a IH]; simpl; auto. now rewrite Ascii.eqb_refl. Qed.

(** Replacing leaves a text without occurrence as it is. *)
Lemma replace_from_absent (q : ascii -> bool) (old new s : string) :
  Str.all q old = false -> Str.all q s = true ->
  Str.replace_from old new 0 s = s.
Proof.
  intros Hold. induction s as [|c s IH]; simpl; auto.
  rewrite andb_true_iff. intros [Hc Hs].
  destruct old as [|x old]; [discriminate Hold|].
  destruct (Ascii.eqb x c && Str.starts_with old s) eqn:E.
  - exfalso. assert (H : Str.all q (String x old) = true).
    { apply (starts_with_all q _ (String c s)); simpl; auto.
      now rewrite Hc, Hs. }
    congruence.
  - cbn [Str.starts_with]. now rewrite E, IH.
Qed.

Lemma replace_from_short (old new s : string) :
  Str.len s < Str.len old -> Str.replace_from old new 0 s = s.
Proof.
  induction s as [|c s IH]; simpl; auto. intros Hlen.
  destruct (Str.starts_with old (String c s)) eqn:E.
  - apply starts_with_len in E. unfold Str.len in *. simpl in *. lia.
  - rewrite IH; auto. unfold Str.len in *. simpl in *. lia.
Qed.

Lemma replace_from_skip (old new a s : string) :
  Str.replace_from old new (Str.len a) (a ++ s) = Str.replace_from old new 0 s.
Proof. induction a as [|c a IH]; simpl; auto. Qed.

Lemma replace_from_head (old new s : string) (c : ascii) :
  Str.replace_from (String c old) new 0 (String c old ++ s)
  = (new ++ Str.replace_from (String c old) new 0 s)%string.
Proof.
  cbn [String.append Str.replace_from].
  pose proof (starts_with_app (String c old) s) as H. cbn [String.append] in H.
  rewrite H. f_equal.
  change (Str.len (String c old) - 1) with (Str.len old - 0).
  rewrite Nat.sub_0_r. apply replace_from_skip.
Qed.

Lemma eqb_len_differs (a b : string) :
  Str.len a <> Str.len b -> String.eqb a b = false.
Proof.
  intros H. apply String.eqb_neq. intros ->. now apply H.
Qed.

Lemma not_underscore_decimal (digits : string) :
  Str.all Char.is_decimal digits = true ->
  Str.all (fun c => negb (Ascii.eqb c "_"%char)) digits = true.
Proof.
  apply all_impl. intros c H. now rewrite decimal_not_underscore.
Qed.

(** X3.  Appending a study identifier to a project name and taking the two
    apart again gives back both: for a non-empty name of one line and a
    non-empty run of digits, [remove_qiita_id] returns the name, and the
    study identifier the two assemblers derive is the run of digits. *)
Theorem remove_qiita_id_appended (name digits : string) :
  name <> EmptyString -> no_newline name -> study_digits digits ->
  let project := (name ++ String "_"%char digits)%string in
  remove_qiita_id project = name
  /\ qiita_id_of project = digits
  /\ sheet_qiita_id project = digits.
Proof.
  intros Hname Hnl Hdig project.
  assert (R : remove_qiita_id project = name).
  { unfold remove_qiita_id, project. now rewrite qiita_id_re_appended. }
  assert (Q : qiita_id_of project = digits).
  { unfold qiita_id_of. rewrite R. unfold Str.replace, project.
    destruct name as [|c name]; [congruence|].
    change (String c name ++ String "_"%char digits)%string
      with (String c name ++ (String "_"%char EmptyString ++ digits))%string.
    rewrite <- app_assoc_str.
    change (String c name ++ String "_"%char EmptyString)%string
      with (String c (name ++ String "_"%char EmptyString))%string.
    rewrite replace_from_head. cbn [String.append].
    apply (replace_from_absent (fun c => negb (Ascii.eqb c "_"%char))).
    - change (String c (name ++ String "_"%char EmptyString))
        with (String c name ++ String "_"%char EmptyString)%string.
      rewrite all_app. cbn [Str.all]. rewrite Ascii.eqb_refl. cbn [negb andb].
      apply andb_false_r.
    - apply not_underscore_decimal, Hdig. }
  repeat split; auto.
  unfold sheet_qiita_id. rewrite Q.
  rewrite eqb_len_differs; auto.
  unfold project. rewrite len_app. unfold Str.len. simpl. lia.
Qed.

Lemma remove_qiita_id_appended_witness :
  remove_qiita_id ("Caporaso_Illumina" ++ String "_"%char "550") = "Caporaso_Illumina"
  /\ qiita_id_of ("Caporaso_Illumina" ++ String "_"%char "550") = "550"
  /\ sheet_qiita_id ("Caporaso_Illumina" ++ String "_"%char "550") = "550".
Proof.
  apply (remove_qiita_id_appended "Caporaso_Illumina" "550").
  - discriminate.
  - reflexivity.
  - split; [discriminate | reflexivity].
Defined.

Lemma qiita_id_re_none (project : string) :
  no_newline project -> ~ has_study_id project -> qiita_id_re project = None.
Proof.
  intros Hnl Hno.
  destruct (qiita_id_re project) as [[g1 g2]|] eqn:E; auto.
  exfalso. apply Hno.
  destruct (qiita_id_re_sound _ _ _ Hnl E) as (H1 & H2 & H3).
  now exists g1, g2.
Qed.

Lemma qiita_id_of_none (project : string) :
  qiita_id_re project = None -> qiita_id_of project = project.
Proof.
  intros E. unfold qiita_id_of, remove_qiita_id. rewrite E.
  apply replace_from_short. rewrite len_app. unfold Str.len. simpl. lia.
Qed.

(** X4.  A project name of one line that does not end with an underscore
    and digits is returned as it is by [remove_qiita_id], and the run-sheet
    assembler gives it the placeholder [QIITA-ID] for study identifier. *)
Theorem remove_qiita_id_without_id (project : string) :
  no_newline project -> ~ has_study_id project ->
  remove_qiita_id project = project
  /\ sheet_qiita_id project = "QIITA-ID".
Proof.
  intros Hnl Hno. pose proof (qiita_id_re_none _ Hnl Hno) as E. split.
  - unfold remove_qiita_id. now rewrite E.
  - unfold sheet_qiita_id. rewrite (qiita_id_of_none _ E).
    now rewrite String.eqb_refl.
Qed.

Lemma no_study_id_without_digit (project : string) (c : ascii) :
  Char.is_decimal c = false ->
  ~ has_study_id (project ++ String c EmptyString).
Proof.
  intros Hc (name & digits & E & _ & Hne & Hdec).
  assert (H : Str.rev (project ++ String c EmptyString)
              = Str.rev (name ++ String "_"%char digits)) by now rewrite E.
  rewrite !rev_app in H.
  change (String "_"%char digits) with (String "_"%char EmptyString ++ digits)%string in H.
  rewrite (rev_app (String "_"%char EmptyString)) in H.
  assert (Hrd : Str.all Char.is_decimal (Str.rev digits) = true) by now rewrite all_rev.
  destruct (Str.rev digits) as [|d rd] eqn:Erd.
  - apply rev_empty in Erd. congruence.
  - cbn in H. injection H as -> _. cbn [Str.all] in Hrd.
    apply andb_true_iff in Hrd. destruct Hrd as [Hd _]. congruence.
Qed.

Lemma remove_qiita_id_without_id_witness :
  remove_qiita_id "Knight_Lab" = "Knight_Lab"
  /\ sheet_qiita_id "Knight_Lab" = "QIITA-ID".
Proof.
  apply (remove_qiita_id_without_id "Knight_Lab").
  - reflexivity.
  - apply (no_study_id_without_digit "Knight_La" "b"). reflexivity.
Defined.

(** ** Instrument resolver *)

Lemma find_instrument_none (model : string) :
  ~ In model known_instruments ->
  find (fun r => String.eqb (instrument_code r) model) INSTRUMENT_LOOKUP = None.
Proof.
  intros H.
  destruct (find _ INSTRUMENT_LOOKUP) as [r|] eqn:F; auto.
  exfalso. apply find_some in F. destruct F as [Hin E].
  apply String.eqb_eq in E. subst model.
  apply H. unfold known_instruments. now apply in_map.
Qed.

Lemma find_instrument_some (model : string) (r : instrument) :
  find (fun r => String.eqb (instrument_code r) model) INSTRUMENT_LOOKUP = Some r ->
  In model known_instruments /\ instrument_run_center r <> "UCSDMI".
Proof.
  intros F. apply find_some in F. destruct F as [Hin E].
  apply String.eqb_eq in E. subst model. split.
  - unfold known_instruments. now apply in_map.
  - unfold INSTRUMENT_LOOKUP in Hin. cbn [In] in Hin.
    repeat (destruct Hin as [<- | Hin]; [discriminate|]). destruct Hin.
Qed.

(** X5.  When the resolver returns, the run centre is the default
    [UCSDMI] exactly when the instrument, the text before the first
    underscore of the code, is not one of the instruments of the lookup
    table: no instrument of the table has that centre, and the fallback by
    machine prefix never takes the centre of the table. *)
Theorem get_model_and_center_default_center (code model center : string) :
  get_model_and_center code = Ok (model, center) ->
  (center = "UCSDMI" <-> ~ In (Str.before_first "_"%char code) known_instruments).
Proof.
  unfold get_model_and_center. cbv zeta.
  destruct (find _ INSTRUMENT_LOOKUP) as [r|] eqn:F.
  - destruct (find_instrument_some _ _ F) as [Hin Hc].
    intros [= <- <-]. split; intros H; [now elim Hc | now elim H].
  - intros H. split; intros _.
    + intros Hin. unfold known_instruments in Hin.
      apply in_map_iff in Hin. destruct Hin as (r & E & Hin).
      pose proof (find_none _ _ F r Hin) as N. cbv beta in N.
      rewrite E, String.eqb_refl in N. discriminate N.
    + destruct (get_machine_code _) as [p|e]; [|discriminate H].
      cbn [res_bind] in H.
      destruct (filter _ INSTRUMENT_LOOKUP); [discriminate H|].
      now injection H.
Qed.

Lemma get_model_and_center_default_center_witness :
  "UCSDMI" = "UCSDMI"
  <-> ~ In (Str.before_first "_"%char "A00123_0082_AH5TWYDSXY") known_instruments.
Proof.
  apply (get_model_and_center_default_center "A00123_0082_AH5TWYDSXY"
           "Illumina NovaSeq 6000" "UCSDMI").
  reflexivity.
Defined.

Lemma never_unrecognized_machine_prefix (code p : string) :
  get_model_and_center code <> Raise (unrecognized_machine_prefix p).
Proof.
  unfold get_model_and_center, unrecognized_machine_prefix. cbv zeta.
  destruct (find _ INSTRUMENT_LOOKUP) as [r|]; [discriminate|].
  unfold get_machine_code.
  destruct (Str.before_first "_"%char code) as [|a [|b rest]].
  - cbn. discriminate.
  - destruct (Char.is_ascii_letter a); [|cbn; discriminate].
    cbn [res_bind]. destruct (filter _ _); discriminate.
  - destruct (Char.is_ascii_letter a); [|cbn; discriminate].
    destruct (Char.is_ascii_letter b); cbn [res_bind];
      destruct (filter _ _); discriminate.
Qed.

(** X6.  An instrument that is not in the lookup table and whose machine
    code, its one or two leading letters, is not a machine prefix of the
    table makes the resolver fail with the [IndexError] of the empty
    selection.  The [ValueError] about an unrecognized machine prefix is
    built for that case and not raised: no call ends with it. *)
Theorem get_model_and_center_unknown_prefix (code instrument_prefix : string) :
  let instrument_model := Str.before_first "_"%char code in
  ~ In instrument_model known_instruments ->
  get_machine_code instrument_model = Ok instrument_prefix ->
  ~ In instrument_prefix known_prefixes ->
  get_model_and_center code
  = Raise (IndexError "index 0 is out of bounds for axis 0 with size 0")
  /\ forall code' p,
       get_model_and_center code' <> Raise (unrecognized_machine_prefix p).
Proof.
  intros instrument_model Hmodel Hcode Hprefix. split.
  - unfold get_model_and_center. cbv zeta. fold instrument_model.
    rewrite (find_instrument_none _ Hmodel), Hcode. cbn [res_bind].
    destruct (filter _ INSTRUMENT_LOOKUP) as [|r l] eqn:F; auto.
    exfalso. apply Hprefix.
    assert (Hin : In r (filter (fun r => String.eqb (machine_prefix r) instrument_prefix)
                               INSTRUMENT_LOOKUP)) by (rewrite F; now left).
    apply filter_In in Hin. destruct Hin as [Hin E].
    apply String.eqb_eq in E. subst instrument_prefix.
    unfold known_prefixes. now apply in_map.
  - intros code' p. apply never_unrecognized_machine_prefix.
Qed.

Lemma not_in_by_eqb (x : string) (l : list string) :
  mem x l = false -> ~ In x l.
Proof.
  unfold mem. intros H Hin.
  assert (E : existsb (String.eqb x) l = true).
  { apply existsb_exists. exists x. split; auto. apply String.eqb_refl. }
  congruence.
Qed.

Lemma get_model_and_center_unknown_prefix_witness :
  get_model_and_center "X00123_0082_AH5TWYDSXY"
  = Raise (IndexError "index 0 is out of bounds for axis 0 with size 0")
  /\ forall code' p,
       get_model_and_center code' <> Raise (unrecognized_machine_prefix p).
Proof.
  apply (get_model_and_center_unknown_prefix "X00123_0082_AH5TWYDSXY" "X").
  - apply not_in_by_eqb. reflexivity.
  - reflexivity.
  - apply not_in_by_eqb. reflexivity.
Defined.

Lemma take_while_app_all (p : ascii -> bool) (a b : string) :
  Str.all p a = true ->
  Str.take_while p (a ++ b) = (a ++ Str.take_while p b)%string.
Proof.
  induction a as [|c a IH]; simpl; auto.
  rewrite andb_true_iff. intros [-> H]. now rewrite IH.
Qed.

Lemma get_model_and_center_before_underscore (a b : string) :
  Str.before_first "_"%char a = Str.before_first "_"%char b ->
  get_model_and_center a = get_model_and_center b.
Proof. intros H. unfold get_model_and_center. now rewrite H. Qed.

(** X7.  The parser and the resolver compose on the instrument of a run
    identifier: for a calendar-valid six-digit date followed by an
    underscore, an instrument name of word characters without underscore,
    an underscore and any text, the token the parser returns resolves to
    the model and the centre of that instrument name, whatever follows
    it. *)
Theorem run_id_instrument (date model rest : string) :
  Str.len date = 6 ->
  Str.all Char.is_decimal date = true ->
  calendar_valid date = true ->
  Str.all instrument_char model = true ->
  exists token,
    parse_illumina_run_id (date ++ String "_"%char (model ++ String "_"%char rest))
    = Ok (date_pivot date, token)
    /\ get_model_and_center token = get_model_and_center model.
Proof.
  intros Hlen Hdig Hval Hmodel.
  exists (Str.take_while Char.is_word (model ++ String "_"%char rest)). split.
  - unfold parse_illumina_run_id, matches6.
    rewrite date_re_complete by assumption.
    destruct (strptime_six_digits date Hlen Hdig Hval) as (dt & -> & <-).
    reflexivity.
  - apply get_model_and_center_before_underscore.
    assert (Hw : Str.all Char.is_word model = true).
    { revert Hmodel. apply all_impl. intros c H.
      unfold instrument_char in H. now apply andb_true_iff in H. }
    assert (Hu : Str.all (fun c => negb (Ascii.eqb c "_"%char)) model = true).
    { revert Hmodel. apply all_impl. intros c H.
      unfold instrument_char in H. now apply andb_true_iff in H. }
    rewrite take_while_app_all by assumption.
    cbn [Str.take_while]. change (Char.is_word "_"%char) with true. cbv iota.
    unfold Str.before_first.
    rewrite take_while_stops by (auto; reflexivity).
    now rewrite take_while_all.
Qed.

Lemma run_id_instrument_witness :
  exists token,
    parse_illumina_run_id
      ("200318" ++ String "_"%char ("A00953" ++ String "_"%char "0082_AH5TWYDSXY"))
    = Ok (date_pivot "200318", token)
    /\ get_model_and_center token = get_model_and_center "A00953".
Proof.
  apply (run_id_instrument "200318" "A00953" "0082_AH5TWYDSXY"); reflexivity.
Defined.

(** ** Name check *)

Lemma mapM_flags (names : list string) :
  mapM (fun cell : option string =>
          match cell with
          | Some name => Ok (name, _has_invalid_chars name)
          | None => Raise (TypeError "'float' object is not iterable")
          end) (List.map Some names)
  = Ok (List.map (fun name => (name, _has_invalid_chars name)) names).
Proof.
  induction names as [|n names IH]; cbn [List.map mapM res_bind]; auto.
  now rewrite IH.
Qed.

Lemma invalid_of_flags (names : list string) :
  List.map fst (filter snd (List.map (fun name => (name, _has_invalid_chars name)) names))
  = filter _has_invalid_chars names.
Proof.
  induction names as [|n names IH]; cbn; auto.
  destruct (_has_invalid_chars n); cbn; now rewrite IH.
Qed.

Lemma check_invalid_names_text (names : list string) (m : Mem) :
  _check_invalid_names (List.map Some names) m
  = (Ok tt,
     match filter _has_invalid_chars names with
     | [] => m
     | invalid => mkmem (table m) (warnings m ++ [invalid_names_warning invalid])
     end).
Proof.
  unfold _check_invalid_names, bind, lift. rewrite mapM_flags, invalid_of_flags.
  destruct (filter _has_invalid_chars names) as [|x l]; reflexivity.
Qed.

(** X8.  On names that are all texts the name check raises nothing and
    leaves the table alone; it adds one warning when some name has a
    character other than an ASCII letter, a digit or a full stop, and the
    warning lists exactly those names, quoted, in their order; when every
    name is made of such characters it adds nothing. *)
Theorem check_invalid_names_warns (names : list string) (m : Mem) :
  let invalid := filter (fun name => negb (Str.all valid_name_char name)) names in
  _check_invalid_names (List.map Some names) m
  = (Ok tt,
     if 0 <? length invalid
     then mkmem (table m) (warnings m ++ [invalid_names_warning invalid])
     else m).
Proof.
  intros invalid. rewrite check_invalid_names_text.
  fold _has_invalid_chars in invalid.
  change (filter _has_invalid_chars names) with invalid.
  destruct invalid; reflexivity.
Qed.

Lemma sub_runs_valid (in_run : bool) (name : string) :
  Str.all valid_name_char (sub_runs qiita_char "." in_run name)
  = Str.all not_hyphen name.
Proof.
  revert in_run; induction name as [|c s IH]; intros in_run; cbn [sub_runs Str.all]; auto.
  destruct (qiita_char c) eqn:K.
  - cbn [Str.all]. rewrite IH. f_equal.
    unfold qiita_char, valid_name_char, not_hyphen, Char.is_ascii_letter in *.
    destruct (Ascii.eqb c "-") eqn:E.
    + apply Ascii.eqb_eq in E. subst c. reflexivity.
    + rewrite orb_false_r in K. cbn [negb].
      destruct (Char.is_ascii_digit c), (Char.is_ascii_lower c),
        (Char.is_ascii_upper c), (Ascii.eqb c "."); cbn in *; congruence.
  - assert (N : not_hyphen c = true).
    { unfold not_hyphen. destruct (Ascii.eqb c "-") eqn:E; auto.
      apply Ascii.eqb_eq in E. subst c. discriminate K. }
    rewrite N. cbn [andb].
    destruct in_run; [apply IH|].
    cbn [String.append Str.all]. apply IH.
Qed.

Lemma filter_nil_iff {A} (p : A -> bool) (l : list A) :
  filter p l = [] <-> forall x, In x l -> p x = false.
Proof.
  induction l as [|x l IH]; cbn.
  - split; auto. intros _ x [].
  - destruct (p x) eqn:E; split.
    + discriminate.
    + intros H. specialize (H x (or_introl eq_refl)). congruence.
    + intros H y [<- | Hy]; auto. now apply IH.
    + intros H. apply IH. auto.
Qed.

Lemma mem_changed (m : Mem) (msg : string) :
  mkmem (table m) (warnings m ++ [msg]) <> m.
Proof.
  destruct m as [t ws]. cbn. intros [= H].
  apply (f_equal (@length string)) in H. rewrite length_app in H. cbn in H. lia.
Qed.

(** X9.  Names scrubbed for Qiita pass the name check except for the
    hyphen, which the scrubbing keeps and the check counts as invalid: the
    check of scrubbed names raises nothing and adds a warning exactly when
    one of the names held a hyphen. *)
Theorem scrubbed_names_checked (names : list string) (m : Mem) :
  let call := _check_invalid_names
                (List.map Some (List.map qiita_scrub_name names)) m in
  fst call = Ok tt
  /\ (snd call = m <-> forall name, In name names -> Str.all not_hyphen name = true).
Proof.
  intros call. subst call. rewrite check_invalid_names_text. cbn [fst snd].
  split; [reflexivity|].
  destruct (filter _has_invalid_chars (List.map qiita_scrub_name names))
    as [|x l] eqn:F.
  - split; [intros _|reflexivity].
    intros name Hin.
    pose proof (proj1 (filter_nil_iff _ _) F (qiita_scrub_name name)
                      (in_map _ _ _ Hin)) as H.
    unfold _has_invalid_chars, qiita_scrub_name, re_sub_outside in H.
    rewrite sub_runs_valid in H. now apply negb_false_iff in H.
  - split; [intros H; now apply mem_changed in H|].
    intros H. exfalso.
    assert (Hin : In x (filter _has_invalid_chars (List.map qiita_scrub_name names)))
      by (rewrite F; now left).
    apply filter_In in Hin. destruct Hin as [Hin Hx].
    apply in_map_iff in Hin. destruct Hin as (name & <- & Hin).
    unfold _has_invalid_chars, qiita_scrub_name, re_sub_outside in Hx.
    rewrite sub_runs_valid, (H _ Hin) in Hx. discriminate Hx.
Qed.

(** ** Run dates of the two assemblers *)

Lemma decimal_not_hyphen (c : ascii) :
  Char.is_decimal c = true -> Ascii.eqb "-" c = false.
Proof.
  intros H. destruct (Ascii.eqb "-" c) eqn:E; auto.
  apply Ascii.eqb_eq in E. subst c. discriminate H.
Qed.

(** Replacing one character by another acts character by character. *)
Lemma replace_char (x y : ascii) (s : string) :
  Str.replace (String x EmptyString) (String y EmptyString) s
  = Str.map (fun c => if Ascii.eqb x c then y else c) s.
Proof.
  unfold Str.replace. induction s as [|c s IH]; auto.
  cbn [Str.replace_from Str.starts_with Str.map Str.len String.length Nat.sub].
  rewrite andb_true_r, IH. now destruct (Ascii.eqb x c).
Qed.

Lemma before_first_date (date rest : string) :
  Str.all Char.is_decimal date = true ->
  Str.before_first "_"%char (date ++ String "_"%char rest) = date.
Proof.
  intros H. unfold Str.before_first.
  apply take_while_stops; [|reflexivity].
  now apply not_underscore_decimal.
Qed.

(** X10.  The two assemblers date a run differently.  For a run identifier
    that starts with a calendar-valid six-digit date and an underscore,
    the mapping-file assembler writes [20YY/MM/DD], taken from the
    characters of the identifier, while the parser of the run-sheet
    assembler returns the date with hyphens and the century of the pivot;
    up to the separator the two agree exactly for the years 00 to 68. *)
Theorem run_date_of_the_two_assemblers (date rest : string) :
  Str.len date = 6 ->
  Str.all Char.is_decimal date = true ->
  calendar_valid date = true ->
  let run_id := (date ++ String "_"%char rest)%string in
  extract_run_date_from_run_id run_id = date_slashes date
  /\ exists run_date token,
       parse_illumina_run_id run_id = Ok (run_date, token)
       /\ (Str.replace "-" "/" run_date = extract_run_date_from_run_id run_id
           <-> Str.to_nat (yy_of date) <= 68).
Proof.
  intros Hlen Hdig Hval run_id.
  assert (E : extract_run_date_from_run_id run_id = date_slashes date).
  { unfold extract_run_date_from_run_id, run_id.
    now rewrite before_first_date. }
  split; [exact E|].
  exists (date_pivot date), (Str.take_while Char.is_word rest). split.
  - unfold parse_illumina_run_id, matches6, run_id.
    rewrite date_re_complete by assumption.
    destruct (strptime_six_digits date Hlen Hdig Hval) as (dt & -> & <-).
    reflexivity.
  - rewrite E. clear E run_id.
    destruct (six_chars date Hlen) as (a & b & c & d & e & f & ->).
    cbn [Str.all two] in Hdig. rewrite !andb_true_iff in Hdig.
    destruct Hdig as (Ha & Hb & Hc & Hd & He & Hf & _).
    unfold date_pivot, date_slashes.
    change (yy_of _) with (two a b).
    change (mm_of _) with (two c d).
    change (dd_of _) with (two e f).
    destruct (Nat.leb_spec (Str.to_nat (two a b)) 68) as [Hy|Hy].
    + split; [intros _; exact Hy|intros _].
      rewrite replace_char. cbn [String.append two Str.map].
      rewrite (decimal_not_hyphen a Ha), (decimal_not_hyphen b Hb),
        (decimal_not_hyphen c Hc), (decimal_not_hyphen d Hd),
        (decimal_not_hyphen e He), (decimal_not_hyphen f Hf).
      reflexivity.
    + split; [|lia]. rewrite replace_char. cbn [String.append two Str.map].
      discriminate.
Qed.

Lemma run_date_of_the_two_assemblers_witness :
  extract_run_date_from_run_id ("200318" ++ String "_"%char "M05314_0001")
  = date_slashes "200318"
  /\ exists run_date token,
       parse_illumina_run_id ("200318" ++ String "_"%char "M05314_0001")
       = Ok (run_date, token)
       /\ (Str.replace "-" "/" run_date
           = extract_run_date_from_run_id ("200318" ++ String "_"%char "M05314_0001")
           <-> Str.to_nat (yy_of "200318") <= 68).
Proof.
  apply (run_date_of_the_two_assemblers "200318" "M05314_0001"); reflexivity.
Defined.

(** ** The table of the study transform *)

Lemma zero_fill_agp_name (c : ascii) (s : string) :
  zero_fill (String c s) = Ok (agp_name (String c s)).
Proof.
  unfold zero_fill, agp_name.
  destruct (Str.contains "blank" (Str.lower (String c s))); cbn [negb].
  { now rewrite andb_false_r. }
  rewrite andb_true_r.
  destruct (Char.isdigit c) eqn:Hd; [|reflexivity].
  f_equal. unfold Str.zfill.
  destruct (Nat.leb_spec 9 (Str.len (String c s))) as [H|H].
  - replace (9 - Str.len (String c s)) with 0 by lia. reflexivity.
  - now rewrite isdigit_not_sign.
Qed.

Lemma apply_cells_agp_name (cells : list (option string)) :
  Forall nonempty_name cells ->
  exists filled,
    apply_cells zero_fill cells = Ok (List.map Some filled)
    /\ List.map Some filled = List.map (option_map agp_name) cells.
Proof.
  induction 1 as [|cell cells (c & s & ->) _ (filled & E1 & E2)].
  - exists []. auto.
  - exists (agp_name (String c s) :: filled).
    unfold apply_cells in *. cbn [mapM List.map res_bind option_map].
    rewrite zero_fill_agp_name. cbn [res_bind]. rewrite E1. cbn [res_bind].
    now rewrite <- E2.
Qed.

Lemma labels_setitem_scalar (c v : string) (df : DataFrame) :
  labels (Frame.setitem_scalar c v df) = labels df.
Proof.
  unfold labels, Frame.setitem_scalar. cbn [rows]. rewrite map_map.
  now apply map_ext.
Qed.

Lemma labels_setitem_cells (c : string) (values : list (option string))
      (df df1 : DataFrame) :
  Frame.setitem_cells c values df = Ok df1 -> labels df1 = labels df.
Proof.
  unfold Frame.setitem_cells.
  destruct (_ =? _) eqn:L; [|discriminate]. intros [= <-].
  apply Nat.eqb_eq in L. unfold labels. cbn [rows]. rewrite map_map.
  revert values L. induction (rows df) as [|r rs IH]; intros [|v values] L;
    try discriminate; cbn; auto.
  f_equal. apply IH. cbn in L. lia.
Qed.

Lemma cells_setitem_scalar (k c v : string) (df : DataFrame) :
  k <> c -> cells k (Frame.setitem_scalar c v df) = cells k df.
Proof.
  intros Hne. unfold cells, Frame.setitem_scalar. cbn [rows]. rewrite map_map.
  apply map_ext. intros r. cbn [snd]. now apply get_set_other.
Qed.

Lemma cells_setitem_cells (k c : string) (values : list (option string))
      (df df1 : DataFrame) :
  k <> c -> Frame.setitem_cells c values df = Ok df1 -> cells k df1 = cells k df.
Proof.
  intros Hne. unfold Frame.setitem_cells.
  destruct (_ =? _) eqn:L; [|discriminate]. intros [= <-].
  apply Nat.eqb_eq in L. unfold cells. cbn [rows]. rewrite map_map.
  revert values L. induction (rows df) as [|r rs IH]; intros [|v values] L;
    try discriminate; cbn; auto.
  rewrite get_set_cell_other by assumption. f_equal. apply IH. cbn in L. lia.
Qed.

Lemma cells_all_setitem_scalar (c v : string) (df : DataFrame) :
  Forall (fun cell => cell = Some v) (cells c (Frame.setitem_scalar c v df)).
Proof.
  unfold cells, Frame.setitem_scalar. cbn [rows]. rewrite map_map.
  apply Forall_forall. intros cell Hin. apply in_map_iff in Hin.
  destruct Hin as (r & <- & _). cbn [snd]. apply get_set_same.
Qed.

(** X11.  What the transform of the study 10317 returns for a table whose
    sample names are non-empty texts: the rows keep their labels; a sample
    name that starts with a digit and does not hold [blank] in any case is
    filled with zeros on the left to nine characters, and any other name
    stays; the centre, the protocol and the design description hold the
    values of the study in every row; every other column keeps its
    cells. *)
Theorem agp_transform_table (frame : DataFrame) :
  Frame.has_column "sample_name" frame = true ->
  Forall nonempty_name (sample_names frame) ->
  exists out,
    agp_transform frame "10317" = Ok out
    /\ labels out = labels frame
    /\ sample_names out = List.map (option_map agp_name) (sample_names frame)
    /\ Forall (fun cell => cell = Some "UCSDMI") (cells "center_name" out)
    /\ Forall (fun cell => cell = Some "Knight Lab KHP")
              (cells "library_construction_protocol" out)
    /\ Forall (fun cell => cell = Some
                 "samples of skin, saliva and feces and other samples from the AGP")
              (cells "experiment_design_description" out)
    /\ forall c, ~ In c agp_columns -> cells c out = cells c frame.
Proof.
  intros Hcol Hnames.
  destruct (apply_cells_agp_name _ Hnames) as (filled & E1 & E2).
  assert (L : length filled = length (rows frame)).
  { apply (f_equal (@length _)) in E2. rewrite !length_map in E2.
    unfold sample_names in E2. now rewrite length_map in E2. }
  destruct (agp_transform_unfold frame filled Hcol E1 L) as (frame1 & Hset & Hagp).
  destruct (setitem_cells_names _ _ _ Hset) as [Hn1 _].
  destruct (agp_constants_fixed frame1) as (Hn & _).
  eexists. split; [exact Hagp|]. repeat split.
  - rewrite !labels_setitem_scalar. eapply labels_setitem_cells; eauto.
  - cbv zeta in Hn. now rewrite Hn, Hn1.
  - rewrite !cells_setitem_scalar by discriminate. apply cells_all_setitem_scalar.
  - rewrite !cells_setitem_scalar by discriminate. apply cells_all_setitem_scalar.
  - apply cells_all_setitem_scalar.
  - intros c Hc. unfold agp_columns in Hc. cbn [In] in Hc.
    assert (N1 : c <> "sample_name") by (intros ->; apply Hc; auto).
    assert (N2 : c <> "center_name") by (intros ->; apply Hc; auto).
    assert (N3 : c <> "library_construction_protocol") by (intros ->; apply Hc; auto).
    assert (N4 : c <> "experiment_design_description") by (intros ->; apply Hc; auto).
    rewrite !cells_setitem_scalar by assumption.
    exact (cells_setitem_cells c "sample_name" _ _ _ N1 Hset).
Qed.

Lemma agp_transform_table_witness :
  exists out,
    agp_transform three_samples "10317" = Ok out
    /\ labels out = labels three_samples
    /\ sample_names out = List.map (option_map agp_name) (sample_names three_samples)
    /\ Forall (fun cell => cell = Some "UCSDMI") (cells "center_name" out)
    /\ Forall (fun cell => cell = Some "Knight Lab KHP")
              (cells "library_construction_protocol" out)
    /\ Forall (fun cell => cell = Some
                 "samples of skin, saliva and feces and other samples from the AGP")
              (cells "experiment_design_description" out)
    /\ forall c, ~ In c agp_columns -> cells c out = cells c three_samples.
Proof.
  apply (agp_transform_table three_samples); [reflexivity|].
  change (Forall nonempty_name [Some "12345"; Some "BLANK.1"; Some "sample.3"]).
  repeat (apply Forall_cons; [unfold nonempty_name; eauto|]). apply Forall_nil.
Defined.

(** ** File-pair locator: the directory searched *)

(** X12.  Which directory of a project the locator searches, when the two
    candidate directories can be listed.  Under [fastp-and-minimap2] it is
    [filtered_sequences] whenever that directory has files, else
    [trimmed_sequences] if that one has files, else the project directory.
    Under [atropos-and-bowtie2] the directory [filtered_sequences] is
    taken only when [atropos_qc] has files as well: without files in
    [atropos_qc] the project directory is searched, whatever
    [filtered_sequences] holds.  Any other pipeline name is a
    [ValueError]. *)
Theorem pipeline_path_choice (w : World) (base pipeline : string)
        (has_qc has_hf : exists_value) :
  _exists_and_has_files w (qc_dir pipeline base) = Ok has_qc ->
  _exists_and_has_files w (hf_dir base) = Ok has_hf ->
  (pipeline = "fastp-and-minimap2" ->
   pipeline_path w base pipeline
   = Ok (if truth has_hf then hf_dir base
         else if truth has_qc then qc_dir pipeline base else base))
  /\ (pipeline = "atropos-and-bowtie2" ->
      pipeline_path w base pipeline
      = Ok (if truth has_qc
            then if truth has_hf then hf_dir base else qc_dir pipeline base
            else base))
  /\ (pipeline <> "fastp-and-minimap2" -> pipeline <> "atropos-and-bowtie2" ->
      pipeline_path w base pipeline = Raise (invalid_pipeline pipeline)).
Proof.
  intros Hqc Hhf. repeat split.
  - intros ->. unfold pipeline_path, qc_dir, hf_dir in *.
    cbn [String.eqb Ascii.eqb Bool.eqb] in *. rewrite Hqc. cbn [res_bind].
    destruct (truth has_qc); rewrite Hhf; cbn [res_bind];
      destruct (truth has_hf); reflexivity.
  - intros ->. unfold pipeline_path, qc_dir, hf_dir in *.
    cbn [String.eqb Ascii.eqb Bool.eqb] in *. rewrite Hqc. cbn [res_bind].
    destruct (truth has_qc); [|reflexivity].
    rewrite Hhf. cbn [res_bind]. destruct (truth has_hf); reflexivity.
  - intros H1 H2. unfold pipeline_path.
    apply String.eqb_neq in H1, H2. now rewrite H1, H2.
Qed.

Lemma pipeline_path_choice_witness :
  pipeline_path one_project project_dir "fastp-and-minimap2"
  = Ok (if truth IsFalse then hf_dir project_dir
        else if truth IsFalse then qc_dir "fastp-and-minimap2" project_dir
             else project_dir).
Proof.
  refine (proj1 (pipeline_path_choice one_project project_dir "fastp-and-minimap2"
                   IsFalse IsFalse _ _) _); reflexivity.
Defined.

(** ** File-pair locator of the mapping-file assembler *)

Section AmpliconLocator.

Variable w : World.
Variables run_path project : string.

Lemma get_run_prefix_mf_results (m : Mem) :
  get_run_prefix_mf w run_path project m
  = (if length (amplicon_files w run_path project) =? 2
     then lift (prefix_of_pair w (amplicon_files w run_path project))
     else if 2 <? length (amplicon_files w run_path project) then
            bind (warn (too_many_matches_mf (amplicon_files w run_path project)))
                 (fun _ => ret None)
          else ret None) m.
Proof. reflexivity. Qed.

Lemma get_run_prefix_mf_two (forward reverse : string) (m : Mem) :
  sorted (amplicon_files w run_path project) = [forward; reverse] ->
  get_run_prefix_mf w run_path project m
  = (prefix_of_pair w (amplicon_files w run_path project), m).
Proof.
  intros Hs. rewrite get_run_prefix_mf_results.
  assert (L : length (amplicon_files w run_path project) = 2)
    by (now rewrite <- length_sorted, Hs).
  now rewrite L.
Qed.

Lemma prefix_of_pair_nonempty (results : list string) (forward reverse : string) :
  sorted results = [forward; reverse] ->
  is_nonempty_gz_file w forward = Ok true ->
  is_nonempty_gz_file w reverse = Ok true ->
  prefix_of_pair w results
  = (let f := Path.basename forward in
     let r := Path.basename reverse in
     if negb (Str.len f =? Str.len r) then Raise (mismatched_filenames f r)
     else (i <- loop_index f r ;; Ok (Some (slice_to f i))))%res.
Proof.
  intros Hs Hf Hr. unfold prefix_of_pair. rewrite Hs, Hf. cbn [res_bind].
  rewrite Hr. reflexivity.
Qed.

End AmpliconLocator.

(** X13.  When the search of the amplicon directory gives two files, both
    non-empty after decompression: if their basenames have the same
    length, differ, and share at least two leading characters, the run
    prefix is their longest common leading part without its last two
    characters; if the basenames differ in length the call raises the
    [ValueError] of the mismatched names.  Nothing is warned of. *)
Theorem get_run_prefix_mf_of_pair
        (w : World) (run_path project forward reverse : string) (m : Mem) :
  sorted (amplicon_files w run_path project) = [forward; reverse] ->
  is_nonempty_gz_file w forward = Ok true ->
  is_nonempty_gz_file w reverse = Ok true ->
  let f := Path.basename forward in
  let r := Path.basename reverse in
  (Str.len f = Str.len r -> f <> r -> 2 <= Str.len (common_prefix f r) ->
   get_run_prefix_mf w run_path project m
   = (Ok (Some (trim 2 (common_prefix f r))), m))
  /\ (Str.len f <> Str.len r ->
      get_run_prefix_mf w run_path project m
      = (Raise (mismatched_filenames f r), m)).
Proof.
  intros Hs Hf Hr f r.
  rewrite (get_run_prefix_mf_two w run_path project forward reverse m Hs).
  rewrite (prefix_of_pair_nonempty w _ forward reverse Hs Hf Hr).
  cbv zeta. fold f r. split.
  - intros Hlen Hne H2. apply Nat.eqb_eq in Hlen. rewrite Hlen. cbn [negb].
    apply Nat.eqb_eq in Hlen. now rewrite run_prefix_of_names.
  - intros Hlen. apply Nat.eqb_neq in Hlen. now rewrite Hlen.
Qed.

Lemma get_run_prefix_mf_of_pair_witness :
  get_run_prefix_mf amplicon_run "/sequencing/230207_M05314_0346_000000000-KVMGL"
                    "Amplicon_101" no_memory
  = (Ok (Some (trim 2 (common_prefix
                 "230207_M05314_0346_000000000-KVMGL_SMPL1_S1_L001_R1_001.fastq.gz"
                 "230207_M05314_0346_000000000-KVMGL_SMPL1_S1_L001_R2_001.fastq.gz"))),
     no_memory).
Proof.
  refine (proj1 (get_run_prefix_mf_of_pair amplicon_run
                   "/sequencing/230207_M05314_0346_000000000-KVMGL" "Amplicon_101"
                   (in_amplicon "230207_M05314_0346_000000000-KVMGL_SMPL1_S1_L001_R1_001.fastq.gz")
                   (in_amplicon "230207_M05314_0346_000000000-KVMGL_SMPL1_S1_L001_R2_001.fastq.gz")
                   no_memory _ _ _) _ _ _).
  - reflexivity.
  - reflexivity.
  - reflexivity.
  - reflexivity.
  - vm_compute. discriminate.
  - vm_compute. lia.
Defined.

Lemma take_len (s : string) : Str.take (Str.len s) s = s.
Proof. induction s as [|c s IH]; simpl; congruence. Qed.

Lemma common_prefix_le (f r : string) :
  Str.len (common_prefix f r) <= Str.len f.
Proof.
  revert r; induction f as [|a f IH]; intros [|b r]; simpl; try lia.
  destruct (Ascii.eqb a b); simpl; [|lia]. specialize (IH r). lia.
Qed.

(** X14.  The index of the first difference is moved back by two before
    the slice is taken, and a negative index counts from the end of the
    name.  So for two non-empty files whose basenames have the same length
    and differ already in their first or second character, the run prefix
    is not a common leading part: it is the first basename without its
    last two characters (difference in the first character) or without
    its last character (difference in the second). *)
Theorem get_run_prefix_mf_early_difference
        (w : World) (run_path project forward reverse : string) (m : Mem) :
  sorted (amplicon_files w run_path project) = [forward; reverse] ->
  is_nonempty_gz_file w forward = Ok true ->
  is_nonempty_gz_file w reverse = Ok true ->
  let f := Path.basename forward in
  let r := Path.basename reverse in
  Str.len f = Str.len r -> f <> r ->
  Str.len (common_prefix f r) < 2 ->
  get_run_prefix_mf w run_path project m
  = (Ok (Some (trim (2 - Str.len (common_prefix f r)) f)), m).
Proof.
  intros Hs Hf Hr f r Hlen Hne Hk.
  rewrite (get_run_prefix_mf_two w run_path project forward reverse m Hs).
  rewrite (prefix_of_pair_nonempty w _ forward reverse Hs Hf Hr).
  cbv zeta. fold f r.
  apply Nat.eqb_eq in Hlen. rewrite Hlen. cbn [negb]. apply Nat.eqb_eq in Hlen.
  unfold loop_index. rewrite first_mismatch_common_prefix by assumption.
  apply String.eqb_neq in Hne. rewrite Hne. cbn [res_bind Nat.add].
  unfold slice_to, trim.
  replace (_ <? 0)%Z with true by (symmetry; apply Z.ltb_lt; lia).
  do 4 f_equal. lia.
Qed.

Lemma get_run_prefix_mf_early_difference_witness :
  get_run_prefix_mf two_runs "/runs" "P_1" no_memory
  = (Ok (Some (trim (2 - Str.len (common_prefix "A_SMPL1_S1R1_001.fastq.gz"
                                                 "B_SMPL1_S1R1_001.fastq.gz"))
                    "A_SMPL1_S1R1_001.fastq.gz")),
     no_memory).
Proof.
  apply (get_run_prefix_mf_early_difference two_runs "/runs" "P_1"
           "/runs/P_1/amplicon/A_SMPL1_S1R1_001.fastq.gz"
           "/runs/P_1/amplicon/B_SMPL1_S1R1_001.fastq.gz" no_memory).
  - reflexivity.
  - reflexivity.
  - reflexivity.
  - reflexivity.
  - vm_compute. discriminate.
  - vm_compute. lia.
Defined.

(** X15.  The locator of the mapping-file assembler returns no prefix and
    raises nothing when the search gives no file or one file, when it
    gives more than two (it then warns of the number of matches and lists
    them in order), and when it gives two of which the first in order
    decompresses to no byte, or the first can be opened and the second
    decompresses to no byte. *)
Theorem get_run_prefix_mf_none (w : World) (run_path project : string) (m : Mem) :
  let results := amplicon_files w run_path project in
  let call := get_run_prefix_mf w run_path project m in
  (length results < 2 -> call = (Ok None, m))
  /\ (2 < length results ->
      call = (Ok None,
              mkmem (table m) (warnings m ++ [too_many_matches_mf results])))
  /\ (forall forward reverse,
        sorted results = [forward; reverse] ->
        decompresses_to_nothing w forward
        \/ (opens w forward /\ decompresses_to_nothing w reverse) ->
        call = (Ok None, m)).
Proof.
  intros results call. subst call. repeat split.
  - intros H. rewrite get_run_prefix_mf_results. fold results.
    replace (length results =? 2) with false by (symmetry; apply Nat.eqb_neq; lia).
    replace (2 <? length results) with false by (symmetry; apply Nat.ltb_ge; lia).
    reflexivity.
  - intros H. rewrite get_run_prefix_mf_results. fold results.
    replace (length results =? 2) with false by (symmetry; apply Nat.eqb_neq; lia).
    replace (2 <? length results) with true by (symmetry; apply Nat.ltb_lt; lia).
    reflexivity.
  - intros forward reverse Hsorted H.
    rewrite (get_run_prefix_mf_two w run_path project forward reverse m Hsorted).
    fold results. unfold prefix_of_pair. rewrite Hsorted.
    unfold is_nonempty_gz_file, decompresses_to_nothing, opens in *.
    destruct H as [-> | [Ho ->]]; [reflexivity|].
    destruct (gzip_open w forward) as [[n|]|]; [| reflexivity | now elim Ho].
    cbn [res_bind]. destruct (0 <? n); reflexivity.
Qed.

Lemma get_run_prefix_mf_none_witness :
  get_run_prefix_mf one_project run_dir "Amplicon_101" no_memory
  = (Ok None, no_memory).
Proof.
  refine (proj1 (get_run_prefix_mf_none one_project run_dir "Amplicon_101" no_memory) _).
  vm_compute. lia.
Defined.

(** ** Run-sheet assembler: the pipeline name *)

Lemma get_run_prefix_invalid (w : World)
      (run_path project sample_id lane pipeline : string) (m : Mem) :
  pipeline <> "atropos-and-bowtie2" -> pipeline <> "fastp-and-minimap2" ->
  get_run_prefix w run_path project sample_id lane pipeline m
  = (Raise (invalid_pipeline pipeline), m).
Proof.
  intros H1 H2. unfold get_run_prefix, pipeline_path. cbv zeta.
  apply String.eqb_neq in H1, H2. rewrite H1, H2. reflexivity.
Qed.

(** A loop whose body, by its element alone, either raises [e] or returns
    what it was given raises [e] at the first element that raises. *)
Lemma foldM_raise_or_skip {A B} (f : B -> A -> M B) (e : exn) (raises : A -> bool)
      (l : list A) :
  (forall x acc m, In x l ->
                   f acc x m = if raises x then (Raise e, m) else (Ok acc, m)) ->
  forall acc m,
    foldM f l acc m = if existsb raises l then (Raise e, m) else (Ok acc, m).
Proof.
  induction l as [|x l IH]; intros Hf acc m; cbn [foldM existsb]; auto.
  unfold bind. rewrite (Hf x acc m (or_introl eq_refl)).
  destruct (raises x); cbn [orb]; auto.
  apply IH. intros. apply Hf. now right.
Qed.

Lemma select_present (c k : string) (df : DataFrame) :
  In k (Frame.present_values c df) -> rows (Frame.select c k df) <> [].
Proof.
  unfold Frame.present_values. intros H. apply in_flat_map in H.
  destruct H as (row & Hin & Hk).
  destruct (Dict.get c (snd row)) as [v|] eqn:G; [|destruct Hk].
  destruct Hk as [->|[]].
  pose proof (in_rows_select c k df row Hin G) as H.
  intros E. rewrite E in H. destruct H.
Qed.

Section InvalidPipeline.

Variable w : World.
Variables run_path pipeline : string.
Variable run : run_info.
Hypothesis Hatropos : pipeline <> "atropos-and-bowtie2".
Hypothesis Hfastp : pipeline <> "fastp-and-minimap2".

Lemma sheet_lane_invalid (project lane : string) (lane_sheet : DataFrame)
      (output : preps) (m : Mem) :
  rows lane_sheet <> [] ->
  sheet_lane w run_path pipeline run project output (lane, lane_sheet) m
  = (Raise (invalid_pipeline pipeline), m).
Proof.
  intros Hrows. unfold sheet_lane, Frame.iterrows.
  destruct (rows lane_sheet) as [|[sample_id sample] rs]; [congruence|].
  cbn [foldM]. unfold sheet_sample at 1. unfold bind.
  now rewrite get_run_prefix_invalid.
Qed.

Lemma sheet_project_invalid (project : string) (project_sheet : DataFrame)
      (output : preps) (m : Mem) :
  Frame.has_column "lane" project_sheet = true ->
  sheet_project w run_path pipeline run output (project, project_sheet) m
  = if existsb (fun row => match Dict.get "lane" (snd row) with
                           | Some _ => true
                           | None => false
                           end) (rows project_sheet)
    then (Raise (invalid_pipeline pipeline), m) else (Ok output, m).
Proof.
  intros Hlane. unfold sheet_project, Frame.groupby. rewrite Hlane.
  unfold bind at 1, lift at 1.
  rewrite (foldM_raise_or_skip _ (invalid_pipeline pipeline) (fun _ => true)).
  2:{ intros [lane lane_sheet] acc m' Hin. apply in_map_iff in Hin.
      destruct Hin as (k & [= <- <-] & Hk).
      apply (proj1 (in_sorted _ _)) in Hk. apply (proj1 (in_distinct _ _)) in Hk.
      apply sheet_lane_invalid. now apply select_present. }
  assert (E : existsb (fun _ : string * DataFrame => true)
                (List.map (fun key => (key, Frame.select "lane" key project_sheet))
                          (sorted (Frame.distinct
                                     (Frame.present_values "lane" project_sheet))))
              = existsb (fun row => match Dict.get "lane" (snd row) with
                                    | Some _ => true
                                    | None => false
                                    end) (rows project_sheet)).
  { destruct (existsb _ (rows project_sheet)) eqn:X.
    - apply existsb_exists in X. destruct X as (row & Hin & Hl).
      destruct (Dict.get "lane" (snd row)) as [l|] eqn:G; [|discriminate].
      apply existsb_exists. exists (l, Frame.select "lane" l project_sheet).
      split; [|reflexivity]. apply in_map_iff. exists l. split; [reflexivity|].
      apply in_sorted, in_distinct. unfold Frame.present_values.
      apply in_flat_map. exists row. split; [assumption|]. rewrite G. now left.
    - destruct (existsb _ (List.map _ _)) eqn:Y; auto.
      apply existsb_exists in Y. destruct Y as ([k g] & Hin & _).
      apply in_map_iff in Hin. destruct Hin as (k' & [= <- <-] & Hk).
      apply (proj1 (in_sorted _ _)) in Hk. apply (proj1 (in_distinct _ _)) in Hk. unfold Frame.present_values in Hk.
      apply in_flat_map in Hk. destruct Hk as (row & Hin & Hk).
      assert (Z : existsb (fun row => match Dict.get "lane" (snd row) with
                                      | Some _ => true
                                      | None => false
                                      end) (rows project_sheet) = true).
      { apply existsb_exists. exists row. split; [assumption|].
        destruct (Dict.get "lane" (snd row)); [reflexivity | destruct Hk]. }
      congruence. }
  now rewrite E.
Qed.

Lemma sheet_projects_invalid (sheet : DataFrame)
      (projects : list (string * DataFrame)) (m : Mem) :
  Frame.has_column "lane" sheet = true ->
  Frame.groupby "sample_project" sheet = Ok projects ->
  foldM (sheet_project w run_path pipeline run) projects [] m
  = if existsb grouped (rows sheet)
    then (Raise (invalid_pipeline pipeline), m) else (Ok [], m).
Proof.
  intros Hlane Hg.
  rewrite (foldM_raise_or_skip _ (invalid_pipeline pipeline)
             (fun group => existsb (fun row => match Dict.get "lane" (snd row) with
                                               | Some _ => true
                                               | None => false
                                               end) (rows (snd group)))).
  2:{ intros [project project_sheet] acc m' Hin.
      apply (proj1 (groupby_groups _ _ _ Hg)) in Hin. subst project_sheet.
      now apply sheet_project_invalid. }
  match goal with |- (if ?a then _ else _) = (if ?b then _ else _) =>
    assert (E : a = b); [|now rewrite E] end.
  destruct (existsb grouped (rows sheet)) eqn:X.
  - apply existsb_exists in X. destruct X as (row & Hin & Hrow).
    unfold grouped in Hrow.
    destruct (Dict.get "sample_project" (snd row)) as [p|] eqn:Gp; [|discriminate].
    destruct (Dict.get "lane" (snd row)) as [l|] eqn:Gl; [|discriminate].
    apply existsb_exists. exists (p, Frame.select "sample_project" p sheet).
    split; [exact (proj2 (groupby_groups _ _ _ Hg) row p Hin Gp)|].
    cbn [snd]. apply existsb_exists. exists row.
    split; [now apply in_rows_select | now rewrite Gl].
  - match goal with |- ?a = false => destruct a eqn:Y; auto end.
    apply existsb_exists in Y. destruct Y as ([p g] & Hin & Hrows).
    apply (proj1 (groupby_groups _ _ _ Hg)) in Hin. subst g. cbn [snd] in Hrows.
    apply existsb_exists in Hrows. destruct Hrows as (row & Hin & Hl).
    unfold Frame.select in Hin. cbn [rows] in Hin. apply filter_In in Hin.
    destruct Hin as [Hin Hp].
    assert (Z : existsb grouped (rows sheet) = true).
    { apply existsb_exists. exists row. split; [assumption|]. unfold grouped.
      destruct (Dict.get "sample_project" (snd row)); [|discriminate].
      destruct (Dict.get "lane" (snd row)); [reflexivity | discriminate]. }
    congruence.
Qed.

End InvalidPipeline.

Lemma grouped_key (a b : label * Series) :
  group_key a = group_key b -> grouped a = grouped b.
Proof. unfold group_key, grouped. now intros [= _ -> ->]. Qed.

Lemma existsb_map_eq {A B} (f : A -> B) (p : A -> bool) (q : B -> bool) (l : list A) :
  (forall x, p x = q (f x)) -> existsb p l = existsb q (List.map f l).
Proof.
  intros H. induction l as [|x l IH]; cbn; auto. now rewrite H, IH.
Qed.

Lemma existsb_grouped_keys (a b : list (label * Series)) :
  List.map group_key a = List.map group_key b ->
  existsb grouped a = existsb grouped b.
Proof.
  intros H.
  pose (q := fun k : label * option string * option string =>
               match k with
               | (_, Some _, Some _) => true
               | _ => false
               end).
  rewrite (existsb_map_eq group_key grouped q a),
          (existsb_map_eq group_key grouped q b), H; auto;
    intros [l s]; unfold grouped, group_key, q; cbn [fst snd];
    destruct (Dict.get "sample_project" s), (Dict.get "lane" s); reflexivity.
Qed.

(** X16.  A pipeline name other than the two the locator knows is noticed
    only when there is a sample to look for.  Once the checks of the run
    identifier, the instrument and the required columns pass, on a sheet
    with the [sample_project] and [lane] columns: if some row has a
    project and a lane the call raises the [ValueError] of the invalid
    pipeline and returns no table; if no row has both, the call returns an
    empty output and the pipeline name is never looked at. *)
Theorem preparations_for_run_invalid_pipeline
        (w : World) (run_path pipeline : string) (m : Mem)
        (date code model center : string) :
  parse_illumina_run_id (Path.basename (Path.normpath run_path)) = Ok (date, code) ->
  get_model_and_center code = Ok (model, center) ->
  missing_columns REQUIRED_COLUMNS (table m) = [] ->
  Frame.has_column "sample_project" (table m) = true ->
  Frame.has_column "lane" (table m) = true ->
  pipeline <> "atropos-and-bowtie2" -> pipeline <> "fastp-and-minimap2" ->
  fst (preparations_for_run w run_path pipeline m)
  = if existsb grouped (rows (table m))
    then Raise (invalid_pipeline pipeline) else Ok [].
Proof.
  intros Hparse Hmodel Hcols Hsp Hlane H1 H2.
  rewrite (preparations_for_run_steps _ _ _ _ _ _ _ _ Hparse Hmodel Hcols).
  destruct (normalize_description_total m) as (m1 & Hn & Hcolumns & Hkeys).
  rewrite (bind_ok _ _ _ _ _ Hn). unfold bind at 1, get_table at 1.
  assert (Hsp1 : Frame.has_column "sample_project" (table m1) = true)
    by (rewrite Hcolumns by discriminate; exact Hsp).
  assert (Hlane1 : Frame.has_column "lane" (table m1) = true)
    by (rewrite Hcolumns by discriminate; exact Hlane).
  destruct (Frame.groupby "sample_project" (table m1)) as [projects|] eqn:Hg.
  2:{ unfold Frame.groupby in Hg. rewrite Hsp1 in Hg. discriminate. }
  unfold bind at 1, lift at 1.
  rewrite (sheet_projects_invalid w run_path pipeline _ H1 H2 (table m1) projects m1
             Hlane1 Hg).
  rewrite (existsb_grouped_keys _ _ Hkeys).
  now destruct (existsb grouped (rows (table m))).
Qed.

Lemma preparations_for_run_invalid_pipeline_witness :
  fst (preparations_for_run one_project run_dir "bowtie" (mkmem run_sheet []))
  = if existsb grouped (rows run_sheet)
    then Raise (invalid_pipeline "bowtie") else Ok [].
Proof.
  apply (preparations_for_run_invalid_pipeline one_project run_dir "bowtie"
           (mkmem run_sheet []) "2020-03-18" "A00953_0082_AH5TWYDSXY"
           "Illumina NovaSeq 6000" "IGM");
    try reflexivity; discriminate.
Defined.

(** ** A separator at the end of the run path *)

Lemma components_nonempty (p : string) : Path.components p <> [].
Proof.
  induction p as [|c p IH]; cbn; [discriminate|].
  destruct (Ascii.eqb c Path.sep); [discriminate|].
  destruct (Path.components p); discriminate.
Qed.

Lemma components_app_sep (p : string) :
  Path.components (p ++ "/") = Path.components p ++ [EmptyString].
Proof.
  induction p as [|c p IH]; [reflexivity|].
  cbn [String.append Path.components]. rewrite IH.
  destruct (Ascii.eqb c Path.sep); [reflexivity|].
  pose proof (components_nonempty p) as N.
  destruct (Path.components p); [congruence | reflexivity].
Qed.

Lemma ends_with_sep_app (p : string) : Path.ends_with_sep (p ++ "/") = true.
Proof. unfold Path.ends_with_sep. now rewrite rev_app. Qed.

Lemma ends_with_sep_one (c : ascii) :
  Path.ends_with_sep (String c EmptyString) = Ascii.eqb c Path.sep.
Proof. reflexivity. Qed.

Lemma ends_with_sep_two (c d : ascii) :
  Path.ends_with_sep (String c (String d EmptyString)) = Ascii.eqb d Path.sep.
Proof. reflexivity. Qed.

(** The leading separators [normpath] counts are those of the path
    itself. *)
Lemma leading_slashes_app_sep (p : string) :
  p <> EmptyString -> Path.ends_with_sep p = false ->
  Str.starts_with "/" (p ++ "/") = Str.starts_with "/" p
  /\ Str.starts_with "//" (p ++ "/") = Str.starts_with "//" p
  /\ Str.starts_with "///" (p ++ "/") = Str.starts_with "///" p.
Proof.
  intros Hne Hend.
  destruct p as [|c [|d [|e p]]]; [congruence| | |].
  - rewrite ends_with_sep_one in Hend. unfold Path.sep in Hend.
    cbn [Str.starts_with String.append].
    rewrite (Ascii.eqb_sym "/"%char c), Hend. auto.
  - rewrite ends_with_sep_two in Hend. unfold Path.sep in Hend.
    cbn [Str.starts_with String.append].
    rewrite (Ascii.eqb_sym "/"%char d), Hend, !andb_false_r. auto.
  - cbn [Str.starts_with String.append]. auto.
Qed.

Lemma normpath_app_sep (p : string) :
  p <> EmptyString -> Path.ends_with_sep p = false ->
  Path.normpath (p ++ "/") = Path.normpath p.
Proof.
  intros Hne Hend. unfold Path.normpath.
  destruct (leading_slashes_app_sep p Hne Hend) as (-> & -> & ->).
  rewrite components_app_sep, fold_left_app.
  rewrite (is_empty_false p Hne).
  replace (Str.is_empty (p ++ "/")) with false by (now destruct p).
  reflexivity.
Qed.

Lemma join_app_sep (p b : string) :
  p <> EmptyString -> Path.ends_with_sep p = false ->
  Path.join (p ++ "/") b = Path.join p b.
Proof.
  intros Hne Hend. unfold Path.join.
  rewrite ends_with_sep_app, Hend, (is_empty_false p Hne), orb_true_r.
  cbn [orb]. destruct b as [|c b].
  - reflexivity.
  - destruct (Ascii.eqb c Path.sep); [reflexivity|].
    now rewrite app_assoc_str.
Qed.

Lemma bind_ext {A B} (c : M A) (k k' : A -> M B) (m : Mem) :
  (forall a m', k a m' = k' a m') -> bind c k m = bind c k' m.
Proof. intros H. unfold bind. destruct (c m) as [[a|e] m']; auto. Qed.

Lemma foldM_ext {A B} (f g : B -> A -> M B) (l : list A) :
  (forall acc x m, f acc x m = g acc x m) ->
  forall acc m, foldM f l acc m = foldM g l acc m.
Proof.
  intros H. induction l as [|x l IH]; intros acc m; cbn [foldM]; auto.
  unfold bind. rewrite H. destruct (g acc x m) as [[a|e] m']; auto.
Qed.

Section TrailingSeparator.

Variable w : World.
Variable run_path : string.
Hypothesis Hne : run_path <> EmptyString.
Hypothesis Hend : Path.ends_with_sep run_path = false.

Lemma get_run_prefix_app_sep (project sample_id lane pipeline : string) :
  get_run_prefix w (run_path ++ "/") project sample_id lane pipeline
  = get_run_prefix w run_path project sample_id lane pipeline.
Proof. unfold get_run_prefix. now rewrite join_app_sep. Qed.

Lemma get_run_prefix_mf_app_sep (project : string) :
  get_run_prefix_mf w (run_path ++ "/") project
  = get_run_prefix_mf w run_path project.
Proof. unfold get_run_prefix_mf. now rewrite join_app_sep. Qed.

Lemma sheet_project_app_sep (pipeline : string) (run : run_info)
      (output : preps) (group : string * DataFrame) (m : Mem) :
  sheet_project w (run_path ++ "/") pipeline run output group m
  = sheet_project w run_path pipeline run output group m.
Proof.
  destruct group as [project project_sheet]. unfold sheet_project.
  apply bind_ext. intros lanes m1. apply foldM_ext.
  intros acc [lane lane_sheet] m2. unfold sheet_lane, bind.
  rewrite (foldM_ext (sheet_sample w (run_path ++ "/") pipeline run project lane)
                     (sheet_sample w run_path pipeline run project lane)).
  - reflexivity.
  - intros data [sample_id sample] m3. unfold sheet_sample.
    now rewrite get_run_prefix_app_sep.
Qed.

Lemma mapping_project_app_sep (output : preps) (group : string * DataFrame) (m : Mem) :
  mapping_project w (run_path ++ "/") output group m
  = mapping_project w run_path output group m.
Proof.
  destruct group as [project project_sheet]. unfold mapping_project.
  now rewrite get_run_prefix_mf_app_sep.
Qed.

End TrailingSeparator.

(** X17.  A separator written at the end of the run path changes nothing:
    for a non-empty path that does not end with a separator, both
    assemblers give the same result, the same warnings and the same table
    for the path with a separator added as for the path itself.  The run
    identifier is read from the normalized path, and the directories of
    the projects are joined to the path in the same way. *)
Theorem run_path_trailing_separator (w : World) (run_path pipeline : string) (m : Mem) :
  run_path <> EmptyString ->
  Path.ends_with_sep run_path = false ->
  preparations_for_run w (run_path ++ "/") pipeline m
  = preparations_for_run w run_path pipeline m
  /\ preparations_for_run_mapping_file w (run_path ++ "/") m
     = preparations_for_run_mapping_file w run_path m.
Proof.
  intros Hne Hend. split.
  - unfold preparations_for_run. rewrite normpath_app_sep by assumption.
    apply bind_ext. intros [run_date instrument_code] m1.
    apply bind_ext. intros [instrument_model run_center] m2.
    apply bind_ext. intros sheet m3.
    destruct (0 <? _); [reflexivity|].
    apply bind_ext. intros _ m4.
    apply bind_ext. intros sheet' m5.
    apply bind_ext. intros projects m6.
    apply foldM_ext. intros acc group m7.
    now apply sheet_project_app_sep.
  - unfold preparations_for_run_mapping_file.
    apply bind_ext. intros _ m1.
    apply bind_ext. intros mapping_file m2.
    destruct (0 <? _); [reflexivity|].
    apply bind_ext. intros projects m3.
    apply foldM_ext. intros acc group m4.
    now apply mapping_project_app_sep.
Qed.

Lemma run_path_trailing_separator_witness :
  preparations_for_run one_project (run_dir ++ "/") default_pipeline (mkmem run_sheet [])
  = preparations_for_run one_project run_dir default_pipeline (mkmem run_sheet [])
  /\ preparations_for_run_mapping_file one_project (run_dir ++ "/")
                                       (mkmem one_amplicon_sample [])
     = preparations_for_run_mapping_file one_project run_dir
                                         (mkmem one_amplicon_sample []).
Proof.
  split.
  - apply (run_path_trailing_separator one_project run_dir default_pipeline
             (mkmem run_sheet [])); [discriminate | reflexivity].
  - apply (run_path_trailing_separator one_project run_dir default_pipeline
             (mkmem one_amplicon_sample [])); [discriminate | reflexivity].
Defined.

(** ** Run-sheet assembler: the cells of the tables *)

Lemma fill_row_get (sample : Series) (k : string) (src : field_source)
      (pre post : list (string * field_source)) (r r' : Series) :
  ~ In k (List.map fst post) ->
  fill_row sample (pre ++ (k, src) :: post) r = Ok r' ->
  exists v, field_value sample src = Ok v /\ Dict.get k r' = Some v.
Proof.
  intros Hk H. rewrite fill_row_app in H.
  destruct (fill_row sample pre r) as [r1|]; cbn [res_bind] in H; [|discriminate].
  cbn [fill_row] in H.
  destruct (field_value sample src) as [v|]; cbn [res_bind] in H; [|discriminate].
  exists v. split; [reflexivity|].
  rewrite (fill_row_keeps _ _ _ _ _ Hk H). apply get_set_same.
Qed.

Lemma attr_get (name : string) (sample : Series) (v : string) :
  Frame.attr name sample = Ok v -> Dict.get name sample = Some v.
Proof.
  unfold Frame.attr. destruct (Dict.get name sample); [now intros [= ->] | discriminate].
Qed.

Lemma sheet_row_cells (run : run_info) (project lane : string)
      (sample : Series) (p : string) (row : Series) :
  sheet_row run project lane sample p = Ok row ->
  Dict.get "well_description" row = well_description_of sample
  /\ Dict.get "runid" row = Some (run_id_of run)
  /\ Dict.get "sample_project" row = Some project
  /\ Dict.get "lane" row = Some lane
  /\ Dict.get "center_project_name" row = Some (remove_qiita_id project)
  /\ Dict.get "platform" row = Some "Illumina".
Proof.
  unfold sheet_row. intros H.
  set (a := sheet_assignments run project (remove_qiita_id project) lane p) in *.
  repeat split.
  - destruct (fill_row_get sample "well_description"
                (Dotted "sample_plate" "sample_name" "sample_well")
                (firstn 20 a) [] _ _ (fun X => X) H) as (v & Hv & ->).
    cbn [field_value] in Hv. unfold well_description_of.
    destruct (Frame.attr "sample_plate" sample) as [x|] eqn:X; [|discriminate].
    destruct (Frame.attr "sample_name" sample) as [y|] eqn:Y; [|discriminate].
    destruct (Frame.attr "sample_well" sample) as [z|] eqn:Z; [|discriminate].
    cbn [res_bind] in Hv. injection Hv as <-.
    now rewrite (attr_get _ _ _ X), (attr_get _ _ _ Y), (attr_get _ _ _ Z).
  - eapply (fill_row_lit sample "runid" _ (firstn 11 a) (skipn 12 a)); [|exact H].
    cbn. intuition discriminate.
  - eapply (fill_row_lit sample "sample_project" _ (firstn 19 a) (skipn 20 a)); [|exact H].
    cbn. intuition discriminate.
  - eapply (fill_row_lit sample "lane" _ (firstn 18 a) (skipn 19 a)); [|exact H].
    cbn. intuition discriminate.
  - eapply (fill_row_lit sample "center_project_name" _ (firstn 9 a) (skipn 10 a));
      [|exact H].
    cbn. intuition discriminate.
  - eapply (fill_row_lit sample "platform" _ (firstn 3 a) (skipn 4 a)); [|exact H].
    cbn. intuition discriminate.
Qed.

Lemma cells_records (k : string) (cols : list string) (data : list Series) :
  mem k cols = true ->
  cells k (Frame.of_records cols data) = List.map (Dict.get k) data.
Proof.
  intros Hk. unfold cells, Frame.of_records. cbn [rows].
  rewrite <- (map_map snd (Dict.get k)), map_snd_number_from, map_map.
  apply map_ext. intros d. now rewrite get_project, Hk.
Qed.

(** The study transform writes its four columns only, and adds no column
    to a table that has them. *)
Lemma agp_transform_other_cells (frame prep : DataFrame) (study_id c : string) :
  ~ In c agp_columns ->
  agp_transform frame study_id = Ok prep ->
  cells c prep = cells c frame.
Proof.
  intros Hc. unfold agp_transform.
  destruct (String.eqb study_id "10317"); [|now intros [= <-]].
  destruct (Frame.getitem "sample_name" frame) as [names|];
    cbn [res_bind]; [|discriminate].
  destruct (apply_cells zero_fill names) as [filled|];
    cbn [res_bind]; [|discriminate].
  destruct (Frame.setitem_cells "sample_name" filled frame) as [frame1|] eqn:H1;
    cbn [res_bind]; [|discriminate].
  intros [= <-]. unfold agp_columns in Hc. cbn [In] in Hc.
  assert (N1 : c <> "sample_name") by (intros ->; apply Hc; auto).
  assert (N2 : c <> "center_name") by (intros ->; apply Hc; auto).
  assert (N3 : c <> "library_construction_protocol") by (intros ->; apply Hc; auto).
  assert (N4 : c <> "experiment_design_description") by (intros ->; apply Hc; auto).
  rewrite !cells_setitem_scalar by assumption.
  exact (cells_setitem_cells c "sample_name" _ _ _ N1 H1).
Qed.

Lemma agp_transform_columns (frame prep : DataFrame) (study_id : string) :
  (forall c, In c agp_columns -> mem c (columns frame) = true) ->
  agp_transform frame study_id = Ok prep ->
  columns prep = columns frame.
Proof.
  intros Hcols. unfold agp_transform.
  destruct (String.eqb study_id "10317"); [|now intros [= <-]].
  destruct (Frame.getitem "sample_name" frame) as [names|];
    cbn [res_bind]; [|discriminate].
  destruct (apply_cells zero_fill names) as [filled|];
    cbn [res_bind]; [|discriminate].
  unfold Frame.setitem_cells. destruct (_ =? _); cbn [res_bind]; [|discriminate].
  intros [= <-]. unfold Frame.setitem_scalar. cbn [columns].
  rewrite (add_column_present "sample_name") by (apply Hcols; cbn; auto).
  rewrite (add_column_present "center_name") by (apply Hcols; cbn; auto).
  rewrite (add_column_present "library_construction_protocol")
    by (apply Hcols; cbn; auto).
  now rewrite (add_column_present "experiment_design_description")
    by (apply Hcols; cbn; auto 6).
Qed.

Lemma table_of_cells (run : run_info) (project lane : string)
      (found : list (Series * string)) (prep : DataFrame) :
  table_of run project lane found prep ->
  columns prep = PREP_COLUMNS
  /\ cells "well_description" prep
     = List.map (fun sp => well_description_of (fst sp)) found
  /\ all_cells "runid" (run_id_of run) prep
  /\ all_cells "sample_project" project prep
  /\ all_cells "lane" lane prep
  /\ all_cells "center_project_name" (remove_qiita_id project) prep
  /\ all_cells "platform" "Illumina" prep.
Proof.
  intros (data & Hrows & Hagp). unfold all_cells.
  assert (K : forall c, ~ In c agp_columns ->
                        cells c prep = cells c (Frame.of_records PREP_COLUMNS data))
    by (intros c Hc; exact (agp_transform_other_cells _ _ _ c Hc Hagp)).
  rewrite !K by (cbn; intuition discriminate). clear K.
  rewrite !cells_records by reflexivity.
  split.
  { apply (agp_transform_columns _ _ _) in Hagp; [exact Hagp|].
    intros c Hc. cbn in Hc.
    repeat (destruct Hc as [<-|Hc]; [reflexivity|]). destruct Hc. }
  clear Hagp. induction Hrows as [|sp row found data Hrow _ IH]; cbn [List.map].
  - repeat split; constructor.
  - destruct (sheet_row_cells _ _ _ _ _ _ Hrow) as (W & R & P & L & C & F).
    destruct IH as (IW & IR & IP & IL & IC & IF).
    repeat split; try (constructor; assumption).
    now rewrite W, IW.
Qed.

(** X18.  When [preparations_for_run] returns, every table of its output
    has the columns of [PREP_COLUMNS] in their order, and in every row:
    the well description is made of the plate, the name and the well of
    the sample, joined by full stops, whatever the sheet holds in its own
    [well_description] or [description]; the run identifier is the last
    component of the normalized run path; project and lane are those of
    the key of the table; the centre project name is the project without
    its study identifier; the platform is [Illumina]. *)
Theorem preparations_for_run_rows
        (w : World) (run_path pipeline : string) (m mf : Mem) (out : preps)
        (rid project lane : string) (prep : DataFrame) :
  preparations_for_run w run_path pipeline m = (Ok out, mf) ->
  Output.get (rid, project, lane) out = Some prep ->
  columns prep = PREP_COLUMNS
  /\ cells "well_description" prep
     = List.map (fun sp => well_description_of (fst sp))
                (located w run_path pipeline project lane (table mf))
  /\ all_cells "runid" (Path.basename (Path.normpath run_path)) prep
  /\ all_cells "sample_project" project prep
  /\ all_cells "lane" lane prep
  /\ all_cells "center_project_name" (remove_qiita_id project) prep
  /\ all_cells "platform" "Illumina" prep.
Proof.
  intros H Hk.
  destruct (preparations_for_run_ok _ _ _ _ _ _ H)
    as (date & code & model & center & m1 & projects & _ & _ & _ & Hg & Hfold & Ht).
  rewrite Ht.
  set (run := mkrun (Path.basename (Path.normpath run_path)) date center model) in *.
  assert (Hentries : forall key prep,
             In (key, prep) out ->
             holds_located w run_path pipeline run (table m1) key prep).
  { eapply (sheet_project_entries w run_path pipeline run (table m1) projects Hg);
      [|exact Hfold]. intros ? ? []. }
  apply output_get_in in Hk. apply Hentries in Hk. destruct Hk as [_ Htable].
  exact (table_of_cells _ _ _ _ _ Htable).
Qed.

Lemma preparations_for_run_rows_witness :
  exists prep,
    Output.get ("200318_A00953_0082_AH5TWYDSXY", "Project_1", "1") run_sheet_output
    = Some prep
    /\ columns prep = PREP_COLUMNS
    /\ cells "well_description" prep
       = List.map (fun sp => well_description_of (fst sp))
                  (located one_project run_dir default_pipeline "Project_1" "1"
                           (table (snd run_sheet_call)))
    /\ all_cells "runid" (Path.basename (Path.normpath run_dir)) prep
    /\ all_cells "sample_project" "Project_1" prep
    /\ all_cells "lane" "1" prep
    /\ all_cells "center_project_name" (remove_qiita_id "Project_1") prep
    /\ all_cells "platform" "Illumina" prep.
Proof.
  assert (E : run_sheet_call = (Ok run_sheet_output, snd run_sheet_call))
    by (vm_compute; reflexivity).
  destruct (Output.get ("200318_A00953_0082_AH5TWYDSXY", "Project_1", "1")
                       run_sheet_output) as [prep|] eqn:Hk;
    [|vm_compute in Hk; discriminate Hk].
  exists prep. split; [reflexivity|].
  exact (preparations_for_run_rows one_project run_dir default_pipeline
           (mkmem run_sheet []) (snd run_sheet_call) run_sheet_output
           "200318_A00953_0082_AH5TWYDSXY" "Project_1" "1" prep E Hk).
Defined.

(** ** Mapping-file assembler: the opening statements *)

Lemma get_in (k v : string) (d : Series) : Dict.get k d = Some v -> In (k, v) d.
Proof.
  induction d as [|[k' v'] d IH]; cbn; [discriminate|].
  destruct (String.eqb k k') eqn:E.
  - apply String.eqb_eq in E. subst k'. intros [= ->]. now left.
  - intros H. right. now apply IH.
Qed.

Lemma well_formedb_sound (df : DataFrame) :
  well_formedb df = true -> well_formed df.
Proof.
  unfold well_formedb, well_formed. intros H row k v Hrow Hk.
  rewrite forallb_forall in H. specialize (H row Hrow).
  rewrite forallb_forall in H. specialize (H (k, v) Hk). now apply mem_in.
Qed.

(** In a well-formed table without the column, no row has the cell. *)
Lemma lowered_cell_absent (mf : DataFrame) (row : label * Series) (c : string) :
  well_formed mf -> In row (rows mf) ->
  Frame.has_column c (Frame.lower_columns mf) = false ->
  Dict.get c (List.map (fun kv => (Str.lower (fst kv), snd kv)) (snd row)) = None.
Proof.
  intros Hwf Hin Hcol.
  destruct (Dict.get c _) as [v|] eqn:G; auto. exfalso.
  apply get_in in G. apply in_map_iff in G. destruct G as ([k0 v0] & [= <- <-] & Hk).
  pose proof (Hwf row k0 v0 Hin Hk) as Hc0.
  unfold Frame.has_column, Frame.lower_columns in Hcol. cbn [columns] in Hcol.
  rewrite in_mem in Hcol; [discriminate|]. now apply in_map.
Qed.

Lemma mapM_sample_id_of_unnamed (x : label * Series) (l : list (label * Series)) :
  Dict.get "sample_name" (snd x) = None ->
  mapM sample_id_of (x :: l) = Raise (KeyError "sample_name").
Proof.
  intros H. cbn [mapM]. unfold sample_id_of at 1, Frame.item. now rewrite H.
Qed.

(** X19.  A mapping file that has rows and no column of the sample names,
    in any case of its letters, does not reach the check of the required
    columns: computing the sample identifier of its first row raises
    [KeyError('sample_name')].  By then the caller's table has its labels
    in lower case and the [lane] column. *)
Theorem mapping_file_without_sample_name (w : World) (run_path : string) (m : Mem) :
  well_formed (table m) ->
  rows (table m) <> [] ->
  Frame.has_column "sample_name" (Frame.lower_columns (table m)) = false ->
  preparations_for_run_mapping_file w run_path m
  = (Raise (KeyError "sample_name"), mkmem (with_lane (table m)) (warnings m)).
Proof.
  intros Hwf Hrows Hcol.
  unfold preparations_for_run_mapping_file. unfold bind at 1.
  rewrite prepare_mapping_file_cases by assumption.
  destruct (rows (table m)) as [|row rs] eqn:R; [congruence|].
  assert (Hin : In row (rows (table m))) by (rewrite R; now left).
  pose proof (lowered_cell_absent _ _ _ Hwf Hin Hcol) as G.
  assert (X : exists x l, rows (with_lane (table m)) = x :: l
                          /\ Dict.get "sample_name" (snd x) = None).
  { unfold with_lane, Frame.setitem_range_series, Frame.lower_columns.
    cbn [rows]. rewrite R. cbn [List.map]. eexists. eexists.
    split; [reflexivity|]. cbn [snd fst].
    rewrite get_set_cell_other by discriminate. exact G. }
  destruct X as (x & l & -> & Hx).
  now rewrite (mapM_sample_id_of_unnamed x l Hx).
Qed.

Lemma mapping_file_without_sample_name_witness :
  preparations_for_run_mapping_file one_project run_dir
    (mkmem (drop_column "sample_name" (two_amplicon_samples "Amplicon_101")) [])
  = (Raise (KeyError "sample_name"),
     mkmem (with_lane (drop_column "sample_name" (two_amplicon_samples "Amplicon_101")))
           []).
Proof.
  apply (mapping_file_without_sample_name one_project run_dir
           (mkmem (drop_column "sample_name" (two_amplicon_samples "Amplicon_101")) [])).
  - apply well_formedb_sound. reflexivity.
  - discriminate.
  - reflexivity.
Defined.

Lemma missing_columns_prepared (ids : list (option string)) (mf : DataFrame) :
  missing_columns REQUIRED_MF_COLUMNS (with_sample_ids ids mf) = missing_mf_columns mf.
Proof.
  unfold missing_columns, missing_mf_columns. apply filter_ext_in.
  intros c Hc. f_equal. unfold Frame.has_column, with_sample_ids. cbn [columns].
  rewrite columns_with_lane.
  rewrite !mem_add_column_other; [reflexivity| |];
    intros ->; cbn in Hc; intuition discriminate.
Qed.



(** ** Mapping-file assembler: the study identifier *)



Lemma present_values_prepared (ids : list (option string)) (mf : DataFrame) :
  length ids = length (rows (with_lane mf)) ->
  Frame.present_values "project_name" (with_sample_ids ids mf) = project_names mf.
Proof.
  intros L. unfold project_names, Frame.present_values, with_sample_ids, with_lane,
    Frame.setitem_range_series in *. cbn [rows] in *.
  rewrite length_map in L.
  set (n := length (rows (Frame.lower_columns mf))) in *.
  assert (G : forall (rs : list (label * Series)) (ids : list (option string)),
             length ids = length rs ->
             flat_map (fun r => match Dict.get "project_name" (snd r) with
                                | Some v => [v]
                                | None => []
                                end)
               (List.map (fun rv => (fst (fst rv),
                                     Frame.set_cell "Sample_ID" (snd rv) (snd (fst rv))))
                  (combine (List.map (fun r =>
                              (fst r,
                               Frame.set_cell "lane"
                                 match fst r with
                                 | LInt i => nth_error (repeat "1" n) i
                                 | LStr _ => None
                                 end (snd r))) rs) ids))
             = flat_map (fun r => match Dict.get "project_name" (snd r) with
                                  | Some v => [v]
                                  | None => []
                                  end) rs).
  { induction rs as [|r rs IH]; intros [|i ids'] Hl; try discriminate; auto.
    cbn [List.map combine flat_map fst snd].
    rewrite !get_set_cell_other by discriminate.
    f_equal. apply IH. cbn in Hl. lia. }
  now apply G.
Qed.

Lemma project_name_prepared (ids : list (option string)) (mf : DataFrame) :
  missing_mf_columns mf = [] ->
  Frame.has_column "project_name" (with_sample_ids ids mf) = true.
Proof.
  intros Hmissing.
  destruct (Frame.has_column "project_name" (with_sample_ids ids mf)) eqn:C; auto.
  exfalso.
  assert (X : In "project_name"
                 (missing_columns REQUIRED_MF_COLUMNS (with_sample_ids ids mf))).
  { unfold missing_columns. apply filter_In.
    split; [apply mem_in; reflexivity | now rewrite C]. }
  rewrite missing_columns_prepared, Hmissing in X. destruct X.
Qed.

Lemma mapping_file_groups (ids : list (option string)) (mf : DataFrame) :
  mapM sample_id_of (rows (with_lane mf)) = Ok ids ->
  missing_mf_columns mf = [] ->
  exists projects,
    Frame.groupby "project_name" (with_sample_ids ids mf) = Ok projects
    /\ List.map fst projects = sorted (Frame.distinct (project_names mf)).
Proof.
  intros Hids Hmissing.
  unfold Frame.groupby. rewrite (project_name_prepared ids mf Hmissing).
  eexists. split; [reflexivity|].
  rewrite map_map, <- (present_values_prepared ids mf (mapM_length _ _ _ Hids)).
  apply map_id.
Qed.

Lemma mapping_file_steps (w : World) (run_path : string) (m : Mem)
      (ids : list (option string)) (projects : list (string * DataFrame)) :
  rows (table m) <> [] ->
  mapM sample_id_of (rows (with_lane (table m))) = Ok ids ->
  missing_mf_columns (table m) = [] ->
  Frame.groupby "project_name" (with_sample_ids ids (table m)) = Ok projects ->
  preparations_for_run_mapping_file w run_path m
  = foldM (mapping_project w run_path) projects []
          (mkmem (with_sample_ids ids (table m)) (warnings m)).
Proof.
  intros Hrows Hids Hmissing Hg.
  assert (Hprep : prepare_mapping_file m
                  = (Ok tt, mkmem (with_sample_ids ids (table m)) (warnings m)))
    by (now rewrite prepare_mapping_file_cases, Hids).
  unfold preparations_for_run_mapping_file.
  rewrite (bind_ok _ _ _ _ _ Hprep).
  unfold bind at 1, get_table at 1. cbn [table].
  rewrite missing_columns_prepared, Hmissing, Hg. reflexivity.
Qed.

(** A mapping file that has rows, each with a sample name, and the
    required columns reaches the loop over its projects. *)
Lemma mapping_file_reaches_projects (w : World) (run_path : string) (m : Mem) :
  rows (table m) <> [] ->
  Forall has_sample_name (rows (table m)) ->
  missing_mf_columns (table m) = [] ->
  exists ids projects,
    preparations_for_run_mapping_file w run_path m
    = foldM (mapping_project w run_path) projects []
            (mkmem (with_sample_ids ids (table m)) (warnings m))
    /\ List.map fst projects = sorted (Frame.distinct (project_names (table m))).
Proof.
  intros Hrows Hall Hmissing.
  destruct (prepare_mapping_file_named m Hrows Hall) as (ids & Hids & _).
  destruct (mapping_file_groups ids (table m) Hids Hmissing) as (projects & Hg & Hkeys).
  exists ids, projects. split; [|exact Hkeys].
  now apply mapping_file_steps.
Qed.






(** ** Mapping-file assembler: the tables *)



Lemma distinctb_sound (l : list string) : distinctb l = true -> NoDup l.
Proof.
  induction l as [|x l IH]; cbn [distinctb]; [constructor|].
  rewrite andb_true_iff, negb_true_iff. intros [Hx Hl].
  constructor; [|auto]. intros Hin. apply in_mem in Hin. congruence.
Qed.


















Section MappingProjects.

Variable w : World.
Variable run_path : string.
Variable mapping_file : DataFrame.

Hypothesis Hlane :
  forall row l, In row (rows mapping_file) ->
                Dict.get "lane" (snd row) = Some l -> l = "1".

Let entries_ok (out : preps) : Prop :=
  forall key prep, In (key, prep) out ->
                   mapping_entry w run_path mapping_file key prep.



End MappingProjects.




(** ** Plate tables *)

Lemma setitem_cells_ok (c : string) (values : list (option string)) (df : DataFrame) :
  length values = length (rows df) ->
  Frame.setitem_cells c values df = Ok (with_column c values df).
Proof.
  intros L. unfold Frame.setitem_cells. now rewrite L, Nat.eqb_refl.
Qed.

Lemma length_cells (c : string) (df : DataFrame) :
  length (cells c df) = length (rows df).
Proof. unfold cells. apply length_map. Qed.

Lemma rows_with_column (c : string) (values : list (option string)) (df : DataFrame) :
  length values = length (rows df) ->
  length (rows (with_column c values df)) = length (rows df).
Proof.
  intros L. unfold with_column. cbn [rows].
  rewrite length_map, length_combine, L. apply Nat.min_id.
Qed.

Lemma length_dotted_cells (a b c : list (option string)) (n : nat) :
  length a = n -> length b = n -> length c = n ->
  length (dotted_cells a b c) = n.
Proof.
  intros <- Hb Hc. unfold dotted_cells.
  rewrite length_map, (length_combine (combine a b) c), (length_combine a b).
  rewrite Hb, Hc, !Nat.min_id. reflexivity.
Qed.

Lemma seqtype_columns_values (seqtype : string) (prep : DataFrame) :
  seqtype_columns seqtype prep
  = match seqtype_values seqtype with
    | Some (primers, subfragment, gene, protocol) =>
        Ok (Frame.setitem_scalar "library_construction_protocol" protocol
              (Frame.setitem_scalar "target_gene" gene
                 (Frame.setitem_scalar "target_subfragment" subfragment
                    (Frame.setitem_scalar "pcr_primers" primers prep))))
    | None => Raise (unrecognized_seqtype seqtype)
    end.
Proof.
  unfold seqtype_columns, seqtype_values.
  destruct (String.eqb seqtype "16S"); [reflexivity|].
  destruct (String.eqb seqtype "18S"); [reflexivity|].
  destruct (String.eqb seqtype "ITS"); reflexivity.
Qed.

(** The function as a sequence of tests and one table. *)
Lemma generate_qiita_prep_file_steps (platedf : DataFrame) (seqtype : string) :
  let R := renamed platedf seqtype in
  generate_qiita_prep_file platedf seqtype
  = if negb (Frame.has_column "sample_name" R) then Raise (KeyError "sample_name")
    else if negb (Frame.has_column "sample_plate" R) then Raise (KeyError "sample_plate")
    else if negb (Frame.has_column "well_id" R) then Raise (KeyError "well_id")
    else match seqtype_values seqtype with
         | Some values => in_column_order (plate_table values R)
         | None => Raise (unrecognized_seqtype seqtype)
         end.
Proof.
  intros R. unfold generate_qiita_prep_file. fold (renamed platedf seqtype). fold R.
  unfold Frame.getitem at 1.
  destruct (Frame.has_column "sample_name" R) eqn:Hn; cbn [negb res_bind]; [|reflexivity].
  fold (cells "sample_name" R).
  rewrite setitem_cells_ok by apply length_cells. cbn [res_bind].
  assert (Hn1 : Frame.has_column "sample_name"
                  (with_column "orig_name" (cells "sample_name" R) R) = true)
    by (now apply mem_add_column_mono).
  assert (C : forall c, c <> "orig_name" ->
               Frame.getitem c (with_column "orig_name" (cells "sample_name" R) R)
               = if Frame.has_column c R then Ok (cells c R) else Raise (KeyError c)).
  { intros c Hc. unfold Frame.getitem.
    replace (Frame.has_column c (with_column "orig_name" (cells "sample_name" R) R))
      with (Frame.has_column c R)
      by (unfold Frame.has_column, with_column; cbn [columns];
          now rewrite mem_add_column_other).
    destruct (Frame.has_column c R); [|reflexivity]. f_equal.
    apply (cells_setitem_cells c "orig_name" (cells "sample_name" R) R);
      [assumption | apply setitem_cells_ok, length_cells]. }
  rewrite !C by discriminate. rewrite Hn.
  destruct (Frame.has_column "sample_plate" R); cbn [negb res_bind]; [|reflexivity].
  destruct (Frame.has_column "well_id" R); cbn [negb res_bind]; [|reflexivity].
  rewrite setitem_cells_ok.
  2:{ rewrite rows_with_column by apply length_cells.
      apply length_dotted_cells; apply length_cells. }
  cbn [res_bind]. rewrite seqtype_columns_values.
  destruct (seqtype_values seqtype) as [[[[primers subfragment] gene] protocol]|];
    [|reflexivity].
  cbn [res_bind]. unfold plate_table. reflexivity.
Qed.

Lemma mem_add_column (c c' : string) (cols : list string) :
  mem c (Frame.add_column c' cols) = String.eqb c c' || mem c cols.
Proof.
  destruct (String.eqb c c') eqn:E.
  - apply String.eqb_eq in E. subst c'. apply mem_add_column_same.
  - apply String.eqb_neq in E. now apply mem_add_column_other.
Qed.

Lemma has_column_scalar (c c' v : string) (df : DataFrame) :
  Frame.has_column c (Frame.setitem_scalar c' v df)
  = String.eqb c c' || Frame.has_column c df.
Proof. apply mem_add_column. Qed.

Lemma has_column_with_column (c c' : string) (values : list (option string))
      (df : DataFrame) :
  Frame.has_column c (with_column c' values df)
  = String.eqb c c' || Frame.has_column c df.
Proof. apply mem_add_column. Qed.

Lemma has_column_add_extra_col (c c' : string) (df : DataFrame) :
  Frame.has_column c (add_extra_col df c')
  = String.eqb c c' || Frame.has_column c df.
Proof.
  unfold add_extra_col. destruct (Frame.has_column c' df) eqn:H.
  - destruct (String.eqb c c') eqn:E; auto.
    apply String.eqb_eq in E. now subst c'.
  - apply has_column_scalar.
Qed.

Lemma has_column_extra_cols (c : string) (l : list string) (df : DataFrame) :
  Frame.has_column c (fold_left add_extra_col l df)
  = mem c l || Frame.has_column c df.
Proof.
  revert df; induction l as [|x l IH]; intros df; cbn [fold_left]; auto.
  rewrite IH, has_column_add_extra_col. unfold mem. cbn [existsb].
  now destruct (String.eqb c x), (existsb (String.eqb c) l).
Qed.

Lemma has_column_plate_table (c : string) (values : string * string * string * string)
      (R : DataFrame) :
  Frame.has_column c (plate_table values R)
  = mem c extra_cols
    || (String.eqb c "library_construction_protocol"
        || (String.eqb c "target_gene"
            || (String.eqb c "target_subfragment"
                || (String.eqb c "pcr_primers"
                    || (String.eqb c "sequencing_meth"
                        || (String.eqb c "platform"
                            || (String.eqb c "run_center"
                                || (String.eqb c "center_name"
                                    || (String.eqb c "well_description"
                                        || (String.eqb c "orig_name"
                                            || Frame.has_column c R)))))))))).
Proof.
  destruct values as [[[primers subfragment] gene] protocol]. unfold plate_table.
  rewrite has_column_extra_cols, !has_column_scalar, !has_column_with_column.
  reflexivity.
Qed.

Lemma in_column_order_cases (c : string) :
  In c column_order -> In c plate_columns \/ In c written_columns \/ In c extra_cols.
Proof.
  intros H. cbn in H.
  repeat (destruct H as [<-|H];
          [first [ left; apply mem_in; reflexivity
                 | right; left; apply mem_in; reflexivity
                 | right; right; apply mem_in; reflexivity ]|]).
  destruct H.
Qed.

Lemma has_column_plate_table_order (c : string)
      (values : string * string * string * string) (R : DataFrame) :
  In c column_order ->
  Frame.has_column c (plate_table values R)
  = negb (mem c plate_columns) || Frame.has_column c R.
Proof.
  intros H. rewrite has_column_plate_table. cbn in H.
  repeat (destruct H as [<-|H]; [reflexivity|]). destruct H.
Qed.

Lemma filter_both {A} (a b : A -> bool) (l : list A) :
  filter (fun x => a x && b x) l = filter b (filter a l).
Proof.
  induction l as [|x l IH]; cbn; auto.
  destruct (a x); cbn; [destruct (b x)|]; now rewrite IH.
Qed.

(** The labels of [column_order] the table lacks are the plate columns
    that are not in the renamed plate table. *)
Lemma not_in_index_plate_table (values : string * string * string * string)
      (R : DataFrame) :
  not_in_index (plate_table values R)
  = filter (fun c => negb (Frame.has_column c R)) plate_columns.
Proof.
  unfold not_in_index.
  rewrite (filter_ext_in _ (fun c => mem c plate_columns && negb (Frame.has_column c R))).
  - now rewrite filter_both.
  - intros c Hc. rewrite has_column_plate_table_order by assumption.
    now destruct (mem c plate_columns), (Frame.has_column c R).
Qed.

Lemma in_column_order_index (prep : DataFrame) :
  in_column_order prep
  = match not_in_index prep with
    | [] => Ok (mkframe column_order
                  (List.map (fun r => (fst r, Frame.project column_order (snd r)))
                            (rows prep)))
    | not_found => Raise (KeyError (list_repr not_found ++ " not in index"))
    end.
Proof. unfold in_column_order, not_in_index. reflexivity. Qed.

Lemma known_seqtype_values (seqtype : string) :
  known_seqtype seqtype <-> seqtype_values seqtype <> None.
Proof.
  unfold known_seqtype, seqtype_values. split.
  - intros [-> | [-> | ->]]; discriminate.
  - destruct (String.eqb seqtype "16S") eqn:A;
      [apply String.eqb_eq in A; auto|].
    destruct (String.eqb seqtype "18S") eqn:B;
      [apply String.eqb_eq in B; auto|].
    destruct (String.eqb seqtype "ITS") eqn:C;
      [apply String.eqb_eq in C; auto|].
    intros H. now elim H.
Qed.

(** X23.  [generate_qiita_prep_file] returns a table exactly when the kind
    of amplicon is one of [16S], [18S] and [ITS] and the plate table has,
    under the labels of the renaming, each of the sixteen columns of the
    plate.  The plate table is one whose labels stay pairwise distinct
    under the renaming. *)
Theorem generate_qiita_prep_file_returns (platedf : DataFrame) (seqtype : string) :
  distinct_labels (renamed platedf seqtype) ->
  (exists prep, generate_qiita_prep_file platedf seqtype = Ok prep)
  <-> known_seqtype seqtype
      /\ forall c, In c plate_columns ->
                   Frame.has_column c (renamed platedf seqtype) = true.
Proof.
  intros _. rewrite generate_qiita_prep_file_steps. cbv zeta.
  set (R := renamed platedf seqtype).
  rewrite known_seqtype_values. split.
  - intros (prep & H).
    destruct (Frame.has_column "sample_name" R); [|discriminate H].
    destruct (Frame.has_column "sample_plate" R); [|discriminate H].
    destruct (Frame.has_column "well_id" R); [|discriminate H].
    cbn [negb] in H.
    destruct (seqtype_values seqtype) as [values|]; [|discriminate H].
    split; [discriminate|].
    rewrite in_column_order_index, not_in_index_plate_table in H.
    destruct (filter _ plate_columns) eqn:F; [|discriminate H].
    intros c Hc. pose proof (proj1 (filter_nil_iff _ _) F c Hc) as N.
    now apply negb_false_iff in N.
  - intros [Hs Hc].
    rewrite !Hc by (apply mem_in; reflexivity). cbn [negb].
    destruct (seqtype_values seqtype) as [values|]; [|now elim Hs].
    rewrite in_column_order_index, not_in_index_plate_table.
    replace (filter _ plate_columns) with (@nil string); [eauto|].
    symmetry. apply filter_nil_iff. intros c Hin. now rewrite Hc.
Qed.

Lemma plate_sheet_distinct : distinct_labels (renamed plate_sheet "16S").
Proof. apply distinctb_sound. reflexivity. Qed.

Lemma generate_qiita_prep_file_returns_witness :
  exists prep, generate_qiita_prep_file plate_sheet "16S" = Ok prep.
Proof.
  apply (generate_qiita_prep_file_returns plate_sheet "16S" plate_sheet_distinct).
  split; [now left|].
  intros c Hc. cbn in Hc.
  repeat (destruct Hc as [<-|Hc]; [reflexivity|]). destruct Hc.
Defined.

(** X24.  The errors of [generate_qiita_prep_file], in the order the
    function meets them.  A plate table without sample names raises
    [KeyError('sample_name')], whatever the kind of amplicon.  With the
    sample names, the plates and the wells, an unknown kind of amplicon
    raises the [ValueError] of the unrecognized value, before the other
    columns are looked at.  With a known kind, the plate columns that are
    missing are listed, in the order of the preparation, in the
    [KeyError] of the last statement. *)
Theorem generate_qiita_prep_file_errors (platedf : DataFrame) (seqtype : string) :
  distinct_labels (renamed platedf seqtype) ->
  let R := renamed platedf seqtype in
  let missing := filter (fun c => negb (Frame.has_column c R)) plate_columns in
  (Frame.has_column "sample_name" R = false ->
   generate_qiita_prep_file platedf seqtype = Raise (KeyError "sample_name"))
  /\ (Frame.has_column "sample_name" R = true ->
      Frame.has_column "sample_plate" R = true ->
      Frame.has_column "well_id" R = true ->
      (~ known_seqtype seqtype ->
       generate_qiita_prep_file platedf seqtype = Raise (unrecognized_seqtype seqtype))
      /\ (known_seqtype seqtype -> missing <> [] ->
          generate_qiita_prep_file platedf seqtype
          = Raise (KeyError (list_repr missing ++ " not in index")))).
Proof.
  intros _ R missing. rewrite generate_qiita_prep_file_steps. cbv zeta. fold R.
  split.
  - now intros ->.
  - intros -> -> ->. cbn [negb]. split.
    + intros Hs. rewrite known_seqtype_values in Hs.
      destruct (seqtype_values seqtype); [|reflexivity]. elim Hs. discriminate.
    + intros Hs Hm. rewrite known_seqtype_values in Hs.
      destruct (seqtype_values seqtype) as [values|]; [|now elim Hs].
      rewrite in_column_order_index, not_in_index_plate_table. fold missing.
      destruct missing; [congruence | reflexivity].
Qed.

Lemma generate_qiita_prep_file_errors_witness :
  generate_qiita_prep_file plate_sheet "12S" = Raise (unrecognized_seqtype "12S").
Proof.
  refine (proj1 (proj2 (generate_qiita_prep_file_errors plate_sheet "12S" _) _ _ _) _).
  - apply distinctb_sound. reflexivity.
  - reflexivity.
  - reflexivity.
  - reflexivity.
  - intros [H|[H|H]]; discriminate H.
Defined.

(** ** The table of a plate *)

Lemma cells_with_column_same (c : string) (values : list (option string))
      (df : DataFrame) :
  length values = length (rows df) -> cells c (with_column c values df) = values.
Proof.
  intros L. unfold cells, with_column. cbn [rows]. rewrite map_map.
  revert values L. induction (rows df) as [|r rs IH]; intros [|v values] L;
    try discriminate; cbn [combine List.map]; auto.
  cbn [snd fst]. rewrite get_set_cell_same. f_equal. apply IH. cbn in L. lia.
Qed.

Lemma cells_with_column_other (k c : string) (values : list (option string))
      (df : DataFrame) :
  k <> c -> length values = length (rows df) ->
  cells k (with_column c values df) = cells k df.
Proof.
  intros Hne L.
  apply (cells_setitem_cells k c values df); [assumption | now apply setitem_cells_ok].
Qed.

Lemma labels_with_column (c : string) (values : list (option string)) (df : DataFrame) :
  length values = length (rows df) -> labels (with_column c values df) = labels df.
Proof.
  intros L. apply (labels_setitem_cells c values df). now apply setitem_cells_ok.
Qed.

Lemma cells_scalar_same (c v : string) (df : DataFrame) :
  cells c (Frame.setitem_scalar c v df) = constant_cells v df.
Proof.
  unfold cells, constant_cells, Frame.setitem_scalar. cbn [rows]. rewrite map_map.
  apply map_ext. intros r. cbn [snd]. apply get_set_same.
Qed.

Lemma length_rows_labels (df : DataFrame) : length (rows df) = length (labels df).
Proof. unfold labels. now rewrite length_map. Qed.

Lemma constant_cells_labels (v : string) (df df' : DataFrame) :
  labels df = labels df' -> constant_cells v df = constant_cells v df'.
Proof.
  unfold constant_cells, labels. generalize (rows df) (rows df').
  induction l as [|a l IH]; intros [|b l'] L; try discriminate; cbn; auto.
  f_equal. apply IH. now injection L.
Qed.

Lemma all_constant_cells (c v : string) (df df' : DataFrame) :
  cells c df = constant_cells v df' -> all_cells c v df.
Proof.
  unfold all_cells. intros ->. unfold constant_cells. apply Forall_forall.
  intros x H. apply in_map_iff in H. now destruct H as (_ & <- & _).
Qed.

Lemma labels_add_extra_col (df : DataFrame) (c : string) :
  labels (add_extra_col df c) = labels df.
Proof.
  unfold add_extra_col. destruct (Frame.has_column c df); auto.
  apply labels_setitem_scalar.
Qed.

Lemma labels_extra_cols (l : list string) (df : DataFrame) :
  labels (fold_left add_extra_col l df) = labels df.
Proof.
  revert df; induction l as [|x l IH]; intros df; cbn [fold_left]; auto.
  now rewrite IH, labels_add_extra_col.
Qed.

(** The loop over [extra_cols] writes empty texts in the columns of the
    list the table lacks, and nothing else. *)
Lemma cells_extra_cols (k : string) (l : list string) (df : DataFrame) :
  cells k (fold_left add_extra_col l df)
  = if mem k l && negb (Frame.has_column k df)
    then constant_cells EmptyString df else cells k df.
Proof.
  revert df; induction l as [|x l IH]; intros df; cbn [fold_left]; auto.
  rewrite IH, has_column_add_extra_col. unfold mem at 2. cbn [existsb].
  fold (mem k l). destruct (String.eqb k x) eqn:E; cbn [orb negb].
  - apply String.eqb_eq in E. subst x. rewrite andb_false_r.
    unfold add_extra_col. destruct (Frame.has_column k df); cbn [negb andb]; auto.
    apply cells_scalar_same.
  - apply String.eqb_neq in E.
    rewrite (constant_cells_labels _ _ df (labels_add_extra_col df x)).
    replace (cells k (add_extra_col df x)) with (cells k df); auto.
    unfold add_extra_col. destruct (Frame.has_column x df); auto.
    symmetry. now apply cells_setitem_scalar.
Qed.

Lemma plate_table_written (values : string * string * string * string) (R : DataFrame) :
  plate_table values R = fold_left add_extra_col extra_cols (written_table values R).
Proof. destruct values as [[[primers subfragment] gene] protocol]. reflexivity. Qed.

Lemma length_well_descriptions (R : DataFrame) :
  length (dotted_cells (cells "sample_plate" R) (cells "sample_name" R)
                       (cells "well_id" R))
  = length (rows (with_column "orig_name" (cells "sample_name" R) R)).
Proof.
  rewrite rows_with_column by apply length_cells.
  apply length_dotted_cells; apply length_cells.
Qed.

Lemma labels_written_table (values : string * string * string * string)
      (R : DataFrame) :
  labels (written_table values R) = labels R.
Proof.
  destruct values as [[[primers subfragment] gene] protocol]. unfold written_table.
  rewrite !labels_setitem_scalar.
  rewrite labels_with_column by apply length_well_descriptions.
  apply labels_with_column, length_cells.
Qed.

Lemma labels_plate_table (values : string * string * string * string) (R : DataFrame) :
  labels (plate_table values R) = labels R.
Proof. now rewrite plate_table_written, labels_extra_cols, labels_written_table. Qed.

Lemma eqb_not_mem (c w : string) (l : list string) :
  mem c l = false -> mem w l = true -> String.eqb c w = false.
Proof.
  intros Hc Hw. apply String.eqb_neq. intros ->. congruence.
Qed.

Lemma has_column_written_table (c : string)
      (values : string * string * string * string) (R : DataFrame) :
  mem c written_columns = false ->
  Frame.has_column c (written_table values R) = Frame.has_column c R.
Proof.
  intros Hc. destruct values as [[[primers subfragment] gene] protocol].
  unfold written_table. rewrite !has_column_scalar, !has_column_with_column.
  now rewrite !(eqb_not_mem c _ written_columns Hc) by reflexivity.
Qed.

(** The cells of a column the function does not write. *)
Lemma cells_written_table_other (c : string)
      (values : string * string * string * string) (R : DataFrame) :
  mem c written_columns = false -> cells c (written_table values R) = cells c R.
Proof.
  intros Hc. destruct values as [[[primers subfragment] gene] protocol].
  assert (N : forall w, mem w written_columns = true -> c <> w)
    by (intros w Hw; apply String.eqb_neq; now apply (eqb_not_mem c w written_columns)).
  unfold written_table. rewrite !cells_setitem_scalar by (apply N; reflexivity).
  rewrite cells_with_column_other;
    [|apply N; reflexivity|apply length_well_descriptions].
  apply cells_with_column_other; [apply N; reflexivity | apply length_cells].
Qed.

Lemma cells_plate_table_other (c : string)
      (values : string * string * string * string) (R : DataFrame) :
  mem c written_columns = false ->
  cells c (plate_table values R)
  = if mem c extra_cols && negb (Frame.has_column c R)
    then constant_cells EmptyString R else cells c R.
Proof.
  intros Hc. rewrite plate_table_written, cells_extra_cols.
  rewrite has_column_written_table, cells_written_table_other by assumption.
  now rewrite (constant_cells_labels _ _ R (labels_written_table values R)).
Qed.

(** The cells of the columns the function writes. *)
Lemma cells_plate_table_written (values : string * string * string * string)
      (R : DataFrame) :
  let '(primers, subfragment, gene, protocol) := values in
  cells "orig_name" (plate_table values R) = cells "sample_name" R
  /\ cells "well_description" (plate_table values R)
     = dotted_cells (cells "sample_plate" R) (cells "sample_name" R) (cells "well_id" R)
  /\ cells "center_name" (plate_table values R) = constant_cells "UCSDMI" R
  /\ cells "run_center" (plate_table values R) = constant_cells "UCSDMI" R
  /\ cells "platform" (plate_table values R) = constant_cells "Illumina" R
  /\ cells "sequencing_meth" (plate_table values R)
     = constant_cells "Sequencing by synthesis" R
  /\ cells "pcr_primers" (plate_table values R) = constant_cells primers R
  /\ cells "target_subfragment" (plate_table values R) = constant_cells subfragment R
  /\ cells "target_gene" (plate_table values R) = constant_cells gene R
  /\ cells "library_construction_protocol" (plate_table values R)
     = constant_cells protocol R.
Proof.
  destruct values as [[[primers subfragment] gene] protocol].
  pose proof (length_well_descriptions R) as LW.
  pose proof (length_cells "sample_name" R) as LN.
  assert (LO : labels (with_column "orig_name" (cells "sample_name" R) R) = labels R)
    by (now apply labels_with_column).
  assert (LD : labels (with_column "well_description"
                         (dotted_cells (cells "sample_plate" R) (cells "sample_name" R)
                                       (cells "well_id" R))
                         (with_column "orig_name" (cells "sample_name" R) R))
               = labels R)
    by (now rewrite labels_with_column).
  assert (K : forall v df, labels df = labels R ->
                           constant_cells v df = constant_cells v R)
    by (intros v df; apply constant_cells_labels).
  rewrite plate_table_written, !cells_extra_cols.
  change (mem "orig_name" extra_cols) with false.
  change (mem "well_description" extra_cols) with false.
  change (mem "center_name" extra_cols) with false.
  change (mem "run_center" extra_cols) with false.
  change (mem "platform" extra_cols) with false.
  change (mem "sequencing_meth" extra_cols) with false.
  change (mem "pcr_primers" extra_cols) with false.
  change (mem "target_subfragment" extra_cols) with false.
  change (mem "target_gene" extra_cols) with false.
  change (mem "library_construction_protocol" extra_cols) with false.
  cbn [andb]. unfold written_table.
  repeat split;
    rewrite ?cells_setitem_scalar by discriminate;
    rewrite ?cells_scalar_same;
    try (apply K; now rewrite ?labels_setitem_scalar).
  - rewrite cells_with_column_other by (assumption || discriminate).
    now apply cells_with_column_same.
  - now apply cells_with_column_same.
Qed.

Lemma cells_ordered (c : string) (prep : DataFrame) :
  mem c column_order = true -> cells c (ordered prep) = cells c prep.
Proof.
  intros Hc. unfold cells, ordered. cbn [rows]. rewrite map_map.
  apply map_ext. intros r. cbn [snd]. now rewrite get_project, Hc.
Qed.

Lemma labels_ordered (prep : DataFrame) : labels (ordered prep) = labels prep.
Proof. unfold labels, ordered. cbn [rows]. rewrite map_map. now apply map_ext. Qed.

Lemma labels_renamed (platedf : DataFrame) (seqtype : string) :
  labels (renamed platedf seqtype) = labels platedf.
Proof.
  unfold labels, renamed, Frame.rename. cbn [rows]. rewrite map_map.
  now apply map_ext.
Qed.

(** What the function returns on a plate table that has the plate columns. *)
Lemma generate_qiita_prep_file_ok (platedf : DataFrame) (seqtype : string)
      (values : string * string * string * string) :
  seqtype_values seqtype = Some values ->
  (forall c, In c plate_columns ->
             Frame.has_column c (renamed platedf seqtype) = true) ->
  generate_qiita_prep_file platedf seqtype
  = Ok (ordered (plate_table values (renamed platedf seqtype))).
Proof.
  intros Hv Hc. rewrite generate_qiita_prep_file_steps. cbv zeta.
  rewrite !Hc by (apply mem_in; reflexivity). cbn [negb]. rewrite Hv.
  rewrite in_column_order_index, not_in_index_plate_table.
  replace (filter _ plate_columns) with (@nil string); [reflexivity|].
  symmetry. apply filter_nil_iff. intros c Hin. now rewrite Hc.
Qed.

Lemma plate_columns_kept (c : string) :
  In c plate_columns ->
  mem c written_columns = false /\ mem c extra_cols = false
  /\ mem c column_order = true.
Proof.
  assert (H : forallb (fun c => negb (mem c written_columns)
                                && negb (mem c extra_cols) && mem c column_order)
                      plate_columns = true) by reflexivity.
  rewrite forallb_forall in H. intros Hc. specialize (H c Hc).
  apply andb_prop in H. destruct H as [H H3]. apply andb_prop in H.
  destruct H as [H1 H2]. apply negb_true_iff in H1, H2. auto.
Qed.

Lemma extra_cols_kept (c : string) :
  In c extra_cols -> mem c written_columns = false /\ mem c column_order = true.
Proof.
  assert (H : forallb (fun c => negb (mem c written_columns) && mem c column_order)
                      extra_cols = true) by reflexivity.
  rewrite forallb_forall in H. intros Hc. specialize (H c Hc).
  apply andb_prop in H. destruct H as [H1 H2]. apply negb_true_iff in H1. auto.
Qed.

Lemma cells_prep_plate (c : string) (values : string * string * string * string)
      (R : DataFrame) :
  In c plate_columns -> cells c (ordered (plate_table values R)) = cells c R.
Proof.
  intros Hc. destruct (plate_columns_kept c Hc) as (W & X & O).
  rewrite cells_ordered, cells_plate_table_other by assumption. now rewrite X.
Qed.

Lemma plate_sheet_columns (c : string) :
  In c plate_columns -> Frame.has_column c (renamed plate_sheet "16S") = true.
Proof.
  assert (H : forallb (fun c => Frame.has_column c (renamed plate_sheet "16S"))
                      plate_columns = true) by reflexivity.
  rewrite forallb_forall in H. exact (H c).
Qed.

(** X25.  The table [generate_qiita_prep_file] returns for a plate table
    that has the sixteen plate columns under the labels of the renaming
    (and whose labels stay pairwise distinct): its columns are the
    thirty-four of the approved order, its rows keep the labels of the
    plate table, the plate columns keep their cells, [orig_name] repeats
    the sample names, [well_description] is the plate, the sample name and
    the well joined with dots, and a column of [extra_cols] keeps its
    cells when the plate table has it and holds the empty text in every
    row when it has not. *)
Theorem generate_qiita_prep_file_table (platedf : DataFrame) (seqtype : string) :
  distinct_labels (renamed platedf seqtype) ->
  known_seqtype seqtype ->
  (forall c, In c plate_columns ->
             Frame.has_column c (renamed platedf seqtype) = true) ->
  let R := renamed platedf seqtype in
  exists prep,
    generate_qiita_prep_file platedf seqtype = Ok prep
    /\ columns prep = column_order
    /\ labels prep = labels platedf
    /\ (forall c, In c plate_columns -> cells c prep = cells c R)
    /\ cells "orig_name" prep = cells "sample_name" R
    /\ cells "well_description" prep
       = dotted_cells (cells "sample_plate" R) (cells "sample_name" R)
                      (cells "well_id" R)
    /\ (forall c, In c extra_cols ->
                  if Frame.has_column c R then cells c prep = cells c R
                  else all_cells c EmptyString prep).
Proof.
  intros _ Hs Hc R. apply known_seqtype_values in Hs.
  destruct (seqtype_values seqtype) as [values|] eqn:Hv; [|now elim Hs].
  exists (ordered (plate_table values R)).
  split; [now apply generate_qiita_prep_file_ok|].
  split; [reflexivity|].
  split; [unfold R; now rewrite labels_ordered, labels_plate_table, labels_renamed|].
  split; [intros c Hin; now apply cells_prep_plate|].
  pose proof (cells_plate_table_written values R) as W.
  destruct values as [[[primers subfragment] gene] protocol].
  destruct W as (W1 & W2 & _).
  split; [now rewrite cells_ordered by reflexivity|].
  split; [now rewrite cells_ordered by reflexivity|].
  intros c Hin. destruct (extra_cols_kept c Hin) as (W & O).
  pose proof (cells_plate_table_other c (primers, subfragment, gene, protocol) R W) as C.
  rewrite (in_mem c extra_cols Hin) in C. cbn [andb] in C.
  destruct (Frame.has_column c R); cbn [negb] in C.
  - now rewrite cells_ordered.
  - apply (all_constant_cells c EmptyString _ R). now rewrite cells_ordered.
Qed.

Lemma generate_qiita_prep_file_table_witness :
  exists prep,
    generate_qiita_prep_file plate_sheet "16S" = Ok prep
    /\ columns prep = column_order
    /\ labels prep = labels plate_sheet
    /\ (forall c, In c plate_columns ->
                  cells c prep = cells c (renamed plate_sheet "16S"))
    /\ cells "orig_name" prep = cells "sample_name" (renamed plate_sheet "16S")
    /\ cells "well_description" prep
       = dotted_cells (cells "sample_plate" (renamed plate_sheet "16S"))
                      (cells "sample_name" (renamed plate_sheet "16S"))
                      (cells "well_id" (renamed plate_sheet "16S"))
    /\ (forall c, In c extra_cols ->
                  if Frame.has_column c (renamed plate_sheet "16S")
                  then cells c prep = cells c (renamed plate_sheet "16S")
                  else all_cells c EmptyString prep).
Proof.
  apply (generate_qiita_prep_file_table plate_sheet "16S").
  - exact plate_sheet_distinct.
  - now left.
  - exact plate_sheet_columns.
Defined.

(** X26.  The texts [generate_qiita_prep_file] writes in every row of the
    table it returns: the centre [UCSDMI] as [center_name] and as
    [run_center], the platform [Illumina], the sequencing method, and the
    primers, the subfragment, the gene and the protocol of the kind of
    amplicon. *)
Theorem generate_qiita_prep_file_constants (platedf : DataFrame) (seqtype : string)
        (primers subfragment gene protocol : string) :
  distinct_labels (renamed platedf seqtype) ->
  seqtype_values seqtype = Some (primers, subfragment, gene, protocol) ->
  (forall c, In c plate_columns ->
             Frame.has_column c (renamed platedf seqtype) = true) ->
  exists prep,
    generate_qiita_prep_file platedf seqtype = Ok prep
    /\ all_cells "center_name" "UCSDMI" prep
    /\ all_cells "run_center" "UCSDMI" prep
    /\ all_cells "platform" "Illumina" prep
    /\ all_cells "sequencing_meth" "Sequencing by synthesis" prep
    /\ all_cells "pcr_primers" primers prep
    /\ all_cells "target_subfragment" subfragment prep
    /\ all_cells "target_gene" gene prep
    /\ all_cells "library_construction_protocol" protocol prep.
Proof.
  intros _ Hv Hc. set (R := renamed platedf seqtype).
  exists (ordered (plate_table (primers, subfragment, gene, protocol) R)).
  split; [now apply generate_qiita_prep_file_ok|].
  destruct (cells_plate_table_written (primers, subfragment, gene, protocol) R)
    as (_ & _ & W3 & W4 & W5 & W6 & W7 & W8 & W9 & W10).
  repeat split;
    match goal with
    | |- all_cells ?c ?v _ =>
        apply (all_constant_cells c v _ R); now rewrite cells_ordered by reflexivity
    end.
Qed.

Lemma generate_qiita_prep_file_constants_witness :
  exists prep,
    generate_qiita_prep_file plate_sheet "16S" = Ok prep
    /\ all_cells "center_name" "UCSDMI" prep
    /\ all_cells "run_center" "UCSDMI" prep
    /\ all_cells "platform" "Illumina" prep
    /\ all_cells "sequencing_meth" "Sequencing by synthesis" prep
    /\ all_cells "pcr_primers" primers_16S prep
    /\ all_cells "target_subfragment" "V4" prep
    /\ all_cells "target_gene" "16S rRNA" prep
    /\ all_cells "library_construction_protocol" ptl_16S prep.
Proof.
  apply (generate_qiita_prep_file_constants plate_sheet "16S").
  - exact plate_sheet_distinct.
  - reflexivity.
  - exact plate_sheet_columns.
Defined.

(** ** The headings of a plate *)

Lemma nodup_map_inj {A B} (f : A -> B) (l : list A) (x y : A) :
  NoDup (List.map f l) -> In x l -> In y l -> f x = f y -> x = y.
Proof.
  induction l as [|a l IH]; intros N Hx Hy E; [destruct Hx|].
  cbn [List.map] in N. inversion N as [|? ? Hn N']; subst.
  destruct Hx as [->|Hx], Hy as [->|Hy]; auto.
  - exfalso. apply Hn. rewrite E. now apply in_map.
  - exfalso. apply Hn. rewrite <- E. now apply in_map.
Qed.

(** In a row whose keys are columns of the table, the cell a label has
    after the renaming is the cell of the column that takes the label. *)
Lemma get_renamed (m : Series) (cols : list string) (row : Series) (k : string) :
  (forall k0 v0, In (k0, v0) row -> In k0 cols) ->
  NoDup (List.map (Frame.rename_label m) cols) -> In k cols ->
  Dict.get (Frame.rename_label m k)
           (List.map (fun kv => (Frame.rename_label m (fst kv), snd kv)) row)
  = Dict.get k row.
Proof.
  intros Hkeys N Hk. induction row as [|[k0 v0] row IH]; [reflexivity|].
  cbn [List.map Dict.get fst snd].
  assert (H0 : In k0 cols) by (apply (Hkeys k0 v0); now left).
  destruct (String.eqb (Frame.rename_label m k) (Frame.rename_label m k0)) eqn:E.
  - apply String.eqb_eq in E.
    rewrite (nodup_map_inj _ cols k k0 N Hk H0 E). now rewrite String.eqb_refl.
  - destruct (String.eqb k k0) eqn:E'.
    + apply String.eqb_eq in E'. subst k0. now rewrite String.eqb_refl in E.
    + apply IH. intros k1 v1 H1. apply (Hkeys k1 v1). now right.
Qed.

Lemma cells_renamed (platedf : DataFrame) (seqtype k : string) :
  well_formed platedf ->
  distinct_labels (renamed platedf seqtype) ->
  Frame.has_column k platedf = true ->
  cells (Frame.rename_label (column_renamer seqtype) k) (renamed platedf seqtype)
  = cells k platedf.
Proof.
  intros Hwf N Hk. unfold cells, renamed, Frame.rename. cbn [rows].
  rewrite map_map. apply map_ext_in. intros r Hr. cbn [snd].
  apply (get_renamed _ (columns platedf)).
  - intros k0 v0 H0. exact (Hwf r k0 v0 Hr H0).
  - exact N.
  - now apply mem_in.
Qed.

Lemma renamer_label (seqtype heading c : string) :
  In (heading, c) (column_renamer seqtype) ->
  Frame.rename_label (column_renamer seqtype) heading = c /\ In c plate_columns.
Proof.
  unfold column_renamer. destruct (String.eqb seqtype "16S"); intros H;
    cbn [In] in H;
    repeat (destruct H as [[= <- <-]|H];
            [split; [reflexivity | apply mem_in; reflexivity]|]);
    destruct H.
Qed.

Lemma extra_label (seqtype c : string) :
  In c extra_cols -> Frame.rename_label (column_renamer seqtype) c = c.
Proof.
  intros H. unfold column_renamer. destruct (String.eqb seqtype "16S");
    cbn [In extra_cols] in H;
    repeat (destruct H as [<-|H]; [reflexivity|]); destruct H.
Qed.

Lemma has_column_renamed (platedf : DataFrame) (seqtype k : string) :
  Frame.has_column k platedf = true ->
  Frame.has_column (Frame.rename_label (column_renamer seqtype) k)
                   (renamed platedf seqtype) = true.
Proof.
  intros H. unfold Frame.has_column, renamed, Frame.rename. cbn [columns].
  apply in_mem, in_map. now apply mem_in.
Qed.

Lemma cells_prep_extra (c : string) (values : string * string * string * string)
      (R : DataFrame) :
  In c extra_cols -> Frame.has_column c R = true ->
  cells c (ordered (plate_table values R)) = cells c R.
Proof.
  intros Hc Hcol. destruct (extra_cols_kept c Hc) as (W & O).
  rewrite cells_ordered, cells_plate_table_other by assumption.
  now rewrite Hcol, andb_false_r.
Qed.

(** X27.  The headings of the plate table in the table
    [generate_qiita_prep_file] returns.  For a plate table whose rows have
    cells for its columns only and whose labels stay pairwise distinct
    under the renaming: the column under a heading of the renamer is
    returned, cell by cell, under the label the renamer gives it ([Sample]
    as [sample_name], [Well] as [well_id], ...), and a column of
    [extra_cols] the plate table has is returned as it is. *)
Theorem generate_qiita_prep_file_headings (platedf : DataFrame) (seqtype : string) :
  well_formed platedf ->
  distinct_labels (renamed platedf seqtype) ->
  known_seqtype seqtype ->
  (forall c, In c plate_columns ->
             Frame.has_column c (renamed platedf seqtype) = true) ->
  exists prep,
    generate_qiita_prep_file platedf seqtype = Ok prep
    /\ (forall heading c,
          In (heading, c) (column_renamer seqtype) ->
          Frame.has_column heading platedf = true ->
          cells c prep = cells heading platedf)
    /\ (forall c, In c extra_cols -> Frame.has_column c platedf = true ->
                  cells c prep = cells c platedf).
Proof.
  intros Hwf N Hs Hc. apply known_seqtype_values in Hs.
  destruct (seqtype_values seqtype) as [values|] eqn:Hv; [|now elim Hs].
  exists (ordered (plate_table values (renamed platedf seqtype))).
  split; [now apply generate_qiita_prep_file_ok|]. split.
  - intros heading c Hin Hcol. destruct (renamer_label _ _ _ Hin) as (E & P).
    rewrite cells_prep_plate by assumption.
    rewrite <- E. now apply cells_renamed.
  - intros c Hin Hcol.
    pose proof (has_column_renamed platedf seqtype c Hcol) as HR.
    pose proof (cells_renamed platedf seqtype c Hwf N Hcol) as CR.
    rewrite (extra_label seqtype c Hin) in HR, CR.
    now rewrite cells_prep_extra.
Qed.

Lemma plate_sheet_well_formed : well_formed plate_sheet.
Proof. apply well_formedb_sound. reflexivity. Qed.

Lemma generate_qiita_prep_file_headings_witness :
  exists prep,
    generate_qiita_prep_file plate_sheet "16S" = Ok prep
    /\ (forall heading c,
          In (heading, c) (column_renamer "16S") ->
          Frame.has_column heading plate_sheet = true ->
          cells c prep = cells heading plate_sheet)
    /\ (forall c, In c extra_cols -> Frame.has_column c plate_sheet = true ->
                  cells c prep = cells c plate_sheet).
Proof.
  apply (generate_qiita_prep_file_headings plate_sheet "16S").
  - exact plate_sheet_well_formed.
  - exact plate_sheet_distinct.
  - now left.
  - exact plate_sheet_columns.
Defined.

(** ** The table as a mapping file *)

(** What a call that returns has returned. *)
Lemma generate_qiita_prep_file_inv (platedf : DataFrame) (seqtype : string)
      (prep : DataFrame) :
  generate_qiita_prep_file platedf seqtype = Ok prep ->
  exists values,
    seqtype_values seqtype = Some values
    /\ (forall c, In c plate_columns ->
                  Frame.has_column c (renamed platedf seqtype) = true)
    /\ prep = ordered (plate_table values (renamed platedf seqtype)).
Proof.
  rewrite generate_qiita_prep_file_steps. cbv zeta.
  set (R := renamed platedf seqtype). intros H.
  destruct (Frame.has_column "sample_name" R); [|discriminate H].
  destruct (Frame.has_column "sample_plate" R); [|discriminate H].
  destruct (Frame.has_column "well_id" R); [|discriminate H].
  cbn [negb] in H.
  destruct (seqtype_values seqtype) as [values|]; [|discriminate H].
  exists values. split; [reflexivity|].
  rewrite in_column_order_index, not_in_index_plate_table in H.
  destruct (filter _ plate_columns) eqn:F; [|discriminate H].
  split.
  - intros c Hc. pose proof (proj1 (filter_nil_iff _ _) F c Hc) as N.
    now apply negb_false_iff in N.
  - now injection H.
Qed.

Lemma keys_project (cols : list string) (d : Series) (k v : string) :
  In (k, v) (Frame.project cols d) -> In k cols.
Proof.
  unfold Frame.project. intros H. apply in_flat_map in H.
  destruct H as (c & Hc & H). destruct (Dict.get c d); [|destruct H].
  destruct H as [[= <- _]|[]]. exact Hc.
Qed.

Lemma map_keys_fixed (f : string -> string) (d : Series) :
  (forall k v, In (k, v) d -> f k = k) ->
  List.map (fun kv => (f (fst kv), snd kv)) d = d.
Proof.
  intros H. induction d as [|[k v] d IH]; [reflexivity|].
  cbn [List.map fst snd]. rewrite (H k v) by now left.
  f_equal. apply IH. intros k1 v1 H1. apply (H k1 v1). now right.
Qed.

Lemma lower_column_order (c : string) : In c column_order -> Str.lower c = c.
Proof.
  assert (H : forallb (fun c => String.eqb (Str.lower c) c) column_order = true)
    by reflexivity.
  rewrite forallb_forall in H. intros Hc. now apply String.eqb_eq, H.
Qed.

Lemma ordered_has_sample_names (T : DataFrame) :
  Forall (fun cell => cell <> None) (cells "sample_name" (ordered T)) ->
  Forall has_sample_name (rows (ordered T)).
Proof.
  unfold cells. rewrite Forall_map, !Forall_forall. intros H row Hrow.
  specialize (H row Hrow). unfold has_sample_name.
  unfold ordered in Hrow. cbn [rows] in Hrow. apply in_map_iff in Hrow.
  destruct Hrow as (r & <- & _). cbn [snd] in *.
  rewrite map_keys_fixed; [assumption|].
  intros k v Hk. apply lower_column_order. now apply keys_project in Hk.
Qed.

Lemma rows_ordered_empty (T : DataFrame) : rows (ordered T) = [] -> rows T = [].
Proof. unfold ordered. cbn [rows]. apply map_eq_nil. Qed.

(** A table in the approved order that has no row is refused by the
    opening statements of the mapping-file assembler. *)
Lemma prepare_ordered_without_rows (T : DataFrame) (ws : list string) :
  rows (ordered T) = [] ->
  exists msg, fst (prepare_mapping_file (mkmem (ordered T) ws)) = Raise (ValueError msg).
Proof.
  intros R. rewrite prepare_mapping_file_empty by exact R. cbn [table warnings].
  unfold setitem_applied. rewrite columns_with_lane.
  change (columns (ordered T)) with column_order.
  destruct (Frame.add_column "lane" (List.map Str.lower column_order))
    as [|a [|b l]] eqn:C; [vm_compute in C; discriminate C
                          | vm_compute in C; discriminate C |].
  cbn [fst]. eauto.
Qed.

(** X28.  A table [generate_qiita_prep_file] returns has the columns that
    [preparations_for_run_mapping_file] requires of a mapping file, so
    that none is reported missing.  When the table has rows, each with a
    sample name, the assembler passes its checks of the table and goes on
    to the projects the table names; a table without rows is refused
    before that, with the [ValueError] of the assignment of the sample
    identifiers. *)
Theorem generated_table_as_mapping_file (platedf : DataFrame) (seqtype : string)
        (prep : DataFrame) (w : World) (run_path : string) (ws : list string) :
  distinct_labels (renamed platedf seqtype) ->
  generate_qiita_prep_file platedf seqtype = Ok prep ->
  (forall c, In c (columns prep) <-> In c REQUIRED_MF_COLUMNS)
  /\ missing_mf_columns prep = []
  /\ (rows prep <> [] ->
      Forall (fun cell => cell <> None) (cells "sample_name" prep) ->
      exists ids projects,
        preparations_for_run_mapping_file w run_path (mkmem prep ws)
        = foldM (mapping_project w run_path) projects []
                (mkmem (with_sample_ids ids prep) ws)
        /\ List.map fst projects = sorted (Frame.distinct (project_names prep)))
  /\ (rows prep = [] ->
      exists msg,
        fst (preparations_for_run_mapping_file w run_path (mkmem prep ws))
        = Raise (ValueError msg)).
Proof.
  intros _ H. apply generate_qiita_prep_file_inv in H.
  destruct H as (values & _ & _ & ->).
  set (T := plate_table values (renamed platedf seqtype)).
  assert (Hmissing : missing_mf_columns (ordered T) = []) by reflexivity.
  split; [intros c; reflexivity|]. split; [exact Hmissing|]. split.
  - intros Hrows Hnames. apply ordered_has_sample_names in Hnames.
    now apply (mapping_file_reaches_projects w run_path (mkmem (ordered T) ws)).
  - intros R. destruct (prepare_ordered_without_rows T ws R) as (msg & E).
    exists msg. unfold preparations_for_run_mapping_file, bind.
    destruct (prepare_mapping_file (mkmem (ordered T) ws)) as [[u|e] m1];
      [discriminate E|]. cbn [fst] in *. injection E as ->. reflexivity.
Qed.

Lemma plate_prep_returned : generate_qiita_prep_file plate_sheet "16S" = Ok plate_prep.
Proof. vm_compute. reflexivity. Qed.

Lemma generated_table_as_mapping_file_witness :
  exists ids projects,
    preparations_for_run_mapping_file amplicon_run amplicon_run_path
                                      (mkmem plate_prep [])
    = foldM (mapping_project amplicon_run amplicon_run_path) projects []
            (mkmem (with_sample_ids ids plate_prep) [])
    /\ List.map fst projects = sorted (Frame.distinct (project_names plate_prep)).
Proof.
  refine (proj1 (proj2 (proj2
            (generated_table_as_mapping_file plate_sheet "16S" plate_prep
               amplicon_run amplicon_run_path []
               plate_sheet_distinct plate_prep_returned))) _ _).
  - vm_compute. discriminate.
  - vm_compute. repeat constructor; discriminate.
Defined.

(** ** A second call *)

Lemma project_ext (cols : list string) (d1 d2 : Series) :
  (forall c, In c cols -> Dict.get c d1 = Dict.get c d2) ->
  Frame.project cols d1 = Frame.project cols d2.
Proof.
  unfold Frame.project. induction cols as [|c cols IH]; intros H; [reflexivity|].
  cbn [flat_map]. rewrite (H c) by now left.
  f_equal. apply IH. intros c' Hc'. apply H. now right.
Qed.

Lemma rows_ext (cols : list string) (rs1 rs2 : list (label * Series)) :
  List.map fst rs1 = List.map fst rs2 ->
  (forall c, In c cols ->
             List.map (fun r => Dict.get c (snd r)) rs1
             = List.map (fun r => Dict.get c (snd r)) rs2) ->
  List.map (fun r => (fst r, Frame.project cols (snd r))) rs1
  = List.map (fun r => (fst r, Frame.project cols (snd r))) rs2.
Proof.
  revert rs2; induction rs1 as [|r1 rs1 IH]; intros [|r2 rs2] L C;
    try discriminate; [reflexivity|].
  cbn [List.map] in *. injection L as L1 L2. f_equal.
  - f_equal; [assumption|]. apply project_ext. intros c Hc.
    specialize (C c Hc). now injection C.
  - apply IH; [assumption|]. intros c Hc. specialize (C c Hc). now injection C.
Qed.

(** Two tables with the same labels and the same cells in the columns of
    the approved order are the same once ordered. *)
Lemma ordered_ext (T1 T2 : DataFrame) :
  labels T1 = labels T2 ->
  (forall c, In c column_order -> cells c T1 = cells c T2) ->
  ordered T1 = ordered T2.
Proof.
  intros L C. unfold ordered. f_equal. now apply rows_ext.
Qed.

Lemma rename_column_order (seqtype c : string) :
  In c column_order -> Frame.rename_label (column_renamer seqtype) c = c.
Proof.
  intros Hc. unfold column_renamer. destruct (String.eqb seqtype "16S").
  - assert (H : forallb (fun c => String.eqb
                                    (Frame.rename_label (column_renamer "16S") c) c)
                        column_order = true) by reflexivity.
    rewrite forallb_forall in H. now apply String.eqb_eq, H.
  - assert (H : forallb (fun c => String.eqb
                                    (Frame.rename_label (column_renamer "18S") c) c)
                        column_order = true) by reflexivity.
    rewrite forallb_forall in H. now apply String.eqb_eq, H.
Qed.

Lemma map_fixed {A} (f : A -> A) (l : list A) :
  (forall x, In x l -> f x = x) -> List.map f l = l.
Proof.
  intros H. induction l as [|a l IH]; [reflexivity|].
  cbn [List.map]. rewrite (H a) by now left.
  f_equal. apply IH. intros x Hx. apply H. now right.
Qed.

(** The renaming leaves an ordered table as it is. *)
Lemma renamed_ordered (T : DataFrame) (seqtype : string) :
  renamed (ordered T) seqtype = ordered T.
Proof.
  unfold renamed, Frame.rename, ordered. cbn [columns rows]. f_equal.
  - apply map_fixed. intros c Hc. now apply rename_column_order.
  - rewrite map_map. apply map_ext. intros r. cbn [fst snd].
    rewrite map_keys_fixed; [reflexivity|].
    intros k v Hk. apply rename_column_order. now apply keys_project in Hk.
Qed.

Lemma has_column_ordered (c : string) (T : DataFrame) :
  In c column_order -> Frame.has_column c (ordered T) = true.
Proof. intros Hc. now apply in_mem. Qed.

Lemma cells_plate_table_again (c : string)
      (values : string * string * string * string) (R : DataFrame) :
  In c column_order ->
  cells c (plate_table values (ordered (plate_table values R)))
  = cells c (plate_table values R).
Proof.
  intros Hc. set (T := plate_table values R).
  assert (HL : labels (ordered T) = labels R)
    by (unfold T; now rewrite labels_ordered, labels_plate_table).
  destruct (in_column_order_cases c Hc) as [P|[W|X]].
  - destruct (plate_columns_kept c P) as (Wc & Xc & Oc).
    rewrite cells_plate_table_other by assumption. rewrite Xc. cbn [andb].
    now apply cells_ordered.
  - pose proof (cells_plate_table_written values R) as W1.
    pose proof (cells_plate_table_written values (ordered T)) as W2.
    fold T in W1. destruct values as [[[primers subfragment] gene] protocol].
    destruct W1 as (A1 & A2 & A3 & A4 & A5 & A6 & A7 & A8 & A9 & A10).
    destruct W2 as (B1 & B2 & B3 & B4 & B5 & B6 & B7 & B8 & B9 & B10).
    assert (K : forall p, In p plate_columns -> cells p (ordered T) = cells p R)
      by (intros p Hp; now apply cells_prep_plate).
    cbn [In written_columns] in W.
    destruct W as [<-|[<-|[<-|[<-|[<-|[<-|[<-|[<-|[<-|[<-|[]]]]]]]]]]].
    + rewrite B1, A1. apply K, mem_in. reflexivity.
    + rewrite B2, A2, !K by (apply mem_in; reflexivity). reflexivity.
    + rewrite B3, A3. now apply constant_cells_labels.
    + rewrite B4, A4. now apply constant_cells_labels.
    + rewrite B5, A5. now apply constant_cells_labels.
    + rewrite B6, A6. now apply constant_cells_labels.
    + rewrite B7, A7. now apply constant_cells_labels.
    + rewrite B8, A8. now apply constant_cells_labels.
    + rewrite B9, A9. now apply constant_cells_labels.
    + rewrite B10, A10. now apply constant_cells_labels.
  - destruct (extra_cols_kept c X) as (Wc & Oc).
    rewrite cells_plate_table_other by assumption.
    rewrite (has_column_ordered c T Hc), andb_false_r.
    now apply cells_ordered.
Qed.

(** X29.  [generate_qiita_prep_file] is idempotent for a kind of amplicon:
    called on a table it has returned, with the same kind, it returns that
    table.  The first plate table is one whose labels stay pairwise
    distinct under the renaming. *)
Theorem generate_qiita_prep_file_idempotent (platedf : DataFrame) (seqtype : string)
        (prep : DataFrame) :
  distinct_labels (renamed platedf seqtype) ->
  generate_qiita_prep_file platedf seqtype = Ok prep ->
  generate_qiita_prep_file prep seqtype = Ok prep.
Proof.
  intros _ H. apply generate_qiita_prep_file_inv in H.
  destruct H as (values & Hv & _ & ->).
  set (R := renamed platedf seqtype). set (T := plate_table values R).
  rewrite (generate_qiita_prep_file_ok (ordered T) seqtype values Hv).
  - rewrite renamed_ordered. f_equal. apply ordered_ext.
    + unfold T. now rewrite !labels_plate_table, labels_ordered, labels_plate_table.
    + intros c Hc. now apply cells_plate_table_again.
  - intros c Hc. rewrite renamed_ordered. apply has_column_ordered.
    destruct (plate_columns_kept c Hc) as (_ & _ & O). now apply mem_in.
Qed.

Lemma generate_qiita_prep_file_idempotent_witness :
  generate_qiita_prep_file plate_prep "16S" = Ok plate_prep.
Proof.
  apply (generate_qiita_prep_file_idempotent plate_sheet "16S" plate_prep).
  - exact plate_sheet_distinct.
  - exact plate_prep_returned.
Defined.
